(** * snmpflapd: the trap enrichment pipeline and its cache store

    A shallow embedding of the Go packages

      - [internal/repository/flapdb]   (the SQL store, [Connector]),
      - [internal/repository]          (the [Connector] interface),
      - [internal/services/linkevent]  (trap extraction, resolution, SNMP gate),
      - [internal/services/dbcleanup]  (the eviction loop),
      - [main]                         (the [OnNewTrap] callback),

    followed by the properties of the design document that were checked
    against them.

    Conventions.  A Go [error] is an [option string] ([None] is [nil]); a
    [*string] is an [option string]; [int] is [Z], [uint] is [N]; a [net.IP]
    is carried as the text its [String()] method yields; time is counted in
    seconds.  A Go [interface{}] value keeps its dynamic type as a
    constructor.  A run-time panic is an outcome of its own, never an
    [error]. *)

From Stdlib Require Import ZArith NArith List String Ascii Bool Lia.
From Stdlib Require Import DecimalString.
Import ListNotations.

Local Open Scope string_scope.
Local Open Scope Z_scope.

Set Implicit Arguments.

(** ** A state monad for straight-line store code *)

Definition State (S A : Type) : Type := S -> A * S.

Definition sret {S A : Type} (a : A) : State S A := fun s => (a, s).

Definition sbind {S A B : Type} (m : State S A) (k : A -> State S B) : State S B :=
  fun s => let (a, s') := m s in k a s'.

Declare Scope state_scope.
Delimit Scope state_scope with state.
Notation "x <- m ;; k" := (sbind m (fun x => k))
  (at level 61, m at next level, right associativity) : state_scope.
Notation "m ;;; k" := (sbind m (fun _ => k))
  (at level 61, right associativity) : state_scope.

(** Go's [error] and the idiom [if err != nil { return err }]. *)
Definition error : Type := option string.

Definition orReturn {S : Type} (m : State S error) (k : State S error) : State S error :=
  sbind m (fun e => match e with Some msg => sret (Some msg) | None => k end).

(** [defer d] around [body]: [d] runs when [body] is left, whatever it returns. *)
Definition deferring {S A B : Type} (d : State S B) (body : State S A) : State S A :=
  fun s => let (a, s1) := body s in let (_, s2) := d s1 in (a, s2).

(** ** Small list and option utilities *)

Definition option_eqb {A : Type} (eqb : A -> A -> bool) (x y : option A) : bool :=
  match x, y with
  | Some a, Some b => eqb a b
  | None, None => true
  | _, _ => false
  end.

Section ListDifference.
Variable R : Type.
Variable eqb : R -> R -> bool.

(** Drop the first occurrence of [x]. *)
Fixpoint remove_first (x : R) (l : list R) : list R :=
    match l with
    | [] => []
    | y :: l' => if eqb x y then l' else y :: remove_first x l'
    end.

(** Multiset difference, keeping the order of what stays. *)
Definition without (l dels : list R) : list R :=
    fold_left (fun acc d => remove_first d acc) dels l.
End ListDifference.

(** ** Package [flapdb]: the model record *)

Module flapdb.

(** [const ( ifAdminStatusUP = 1; ifAdminStatusDOWN = 2; ifOperStatusUP = 1 )] *)
Definition ifAdminStatusUP : Z := 1.
Definition ifAdminStatusDOWN : Z := 2.
Definition ifOperStatusUP : Z := 1.

Record Model : Type := mkModel {
  Sid : string;
  IfIndex : Z;
  IfAdminStatus : Z;
  IfOperStatus : Z;
  IfName : option string;
  IfAlias : option string;
  HostName : option string;
  IpAddress : string;
  Time : Z;
  TimeTicks : N
}.

(** [func (le *Model) ifStateText() string] *)
Definition ifStateText (le : Model) : string :=
  if IfAdminStatus le =? ifAdminStatusDOWN then "admin down"
  else if IfAdminStatus le =? ifAdminStatusUP then
    (if IfOperStatus le =? ifOperStatusUP then "up" else "down")
  else "".

(** ** The tables *)

Record PortRow : Type := mkPortRow {
  p_ipaddress : string;
  p_hostname : option string;
  p_ifIndex : Z;
  p_ifName : option string;
  p_ifAlias : option string;
  p_ifAdminStatus : string;
  p_ifOperStatus : string;
  p_time : Z;
  p_sid : string;
  p_timeTicks : N
}.

(** A row of [cache_hostname]. *)
Record HostRow : Type := mkHostRow {
  h_ipaddress : string;
  h_hostname : option string;
  h_time : Z
}.

(** A row of [cache_ifname] or of [cache_ifalias].  The table definitions
    are not part of the sources; the value columns are taken to accept
    [NULL], which is what a nil [*string] is bound as.  A column declared
    [NOT NULL] makes the [INSERT] of a nil value fail, which is one of the
    failures a driver call can have. *)
Record IfRow : Type := mkIfRow {
  i_ipaddress : string;
  i_ifIndex : Z;
  i_value : option string;
  i_time : Z
}.

Definition HostRow_eqb (a b : HostRow) : bool :=
  String.eqb (h_ipaddress a) (h_ipaddress b)
  && option_eqb String.eqb (h_hostname a) (h_hostname b)
  && (h_time a =? h_time b).

Definition IfRow_eqb (a b : IfRow) : bool :=
  String.eqb (i_ipaddress a) (i_ipaddress b)
  && (i_ifIndex a =? i_ifIndex b)
  && option_eqb String.eqb (i_value a) (i_value b)
  && (i_time a =? i_time b).

Record Tables : Type := mkTables {
  ports : list PortRow;
  cache_hostname : list HostRow;
  cache_ifname : list IfRow;
  cache_ifalias : list IfRow
}.

(** What an open transaction has done and not yet committed, per table:
    the committed rows it has deleted and the rows it has inserted. *)
Record Pending (R : Type) : Type := mkPending {
  del : list R;
  ins : list R
}.

Record Tx : Type := mkTx {
  tx_hostname : Pending HostRow;
  tx_ifname : Pending IfRow;
  tx_ifalias : Pending IfRow
}.

Definition noPending {R : Type} : Pending R := {| del := []; ins := [] |}.
Definition emptyTx : Tx :=
  {| tx_hostname := noPending; tx_ifname := noPending; tx_ifalias := noPending |}.

(** ** The statements of the package

    One constructor per SQL constant, with its bound arguments.
<<
  cleanUpHostnameSQL        DELETE FROM cache_hostname WHERE time < now() - INTERVAL ? MINUTE;
  cleanUpIfNameSQL          DELETE FROM cache_ifname WHERE time < now() - INTERVAL ? MINUTE;
  cleanUpIfAliasSQL         DELETE FROM cache_ifalias WHERE time < now() - INTERVAL ? MINUTE;
  deleteIfnameIfindex       DELETE FROM cache_ifname WHERE ipaddress = ? and ifIndex = ?;
  setCacheIfName            INSERT INTO cache_ifname (ipaddress, ifIndex, ifName) VALUES (?, ?, ?);
  deleteIfAliasIfindex      DELETE FROM cache_ifalias WHERE ipaddress = ? and ifindex = ?;
  setCacheIfAlias           INSERT INTO cache_ifalias (ipaddress, ifIndex, ifAlias) VALUES (?, ?, ?);
  deleteHostNameWhereIPaddr DELETE FROM cache_hostname WHERE ipaddress = ?;
  setCacheHostName          INSERT INTO cache_hostname (ipaddress, hostname) VALUES (?, ?);
>> *)
Inductive CacheStmt : Type :=
| cleanUpHostnameSQL (minutes : Z)
| cleanUpIfNameSQL (minutes : Z)
| cleanUpIfAliasSQL (minutes : Z)
| deleteIfnameIfindex (ip : string) (ifIndex : Z)
| setCacheIfName (ip : string) (ifIndex : Z) (ifName : option string)
| deleteIfAliasIfindex (ip : string) (ifIndex : Z)
| setCacheIfAlias (ip : string) (ifIndex : Z) (ifAlias : option string)
| deleteHostNameWhereIPaddr (ip : string)
| setCacheHostName (ip : string) (hostname : option string).

(** The two statements on [ports], run through [NamedExec]. *)
Inductive PortStmt : Type :=
| insertPorts (row : PortRow)
| updatePorts (sid : string) (hostname ifName ifAlias : option string).

(** Where a statement was sent: on the transaction handle [tx], or on the
    connection pool [c.db], which commits it by itself. *)
Inductive Executed : Type :=
| OnTx (s : CacheStmt)
| OnPool (s : CacheStmt)
| OnPoolNamed (s : PortStmt).

Definition onTx (e : Executed) : bool :=
  match e with OnTx _ => true | _ => false end.

(** The database behind [*sqlx.DB]: committed tables, the open transaction
    if any, the server clock, the outcome of the driver calls to come (one
    entry per call, [Some msg] for a call that fails; calls beyond the list
    succeed), the statements executed so far and the process log. *)
Record DB : Type := mkDB {
  tables : Tables;
  tx : option Tx;
  clock : Z;
  faults : list error;
  journal : list Executed;
  dblog : list string
}.

Definition set_tables (t : Tables) (d : DB) : DB :=
  {| tables := t; tx := tx d; clock := clock d; faults := faults d;
     journal := journal d; dblog := dblog d |}.
Definition set_tx (x : option Tx) (d : DB) : DB :=
  {| tables := tables d; tx := x; clock := clock d; faults := faults d;
     journal := journal d; dblog := dblog d |}.
Definition set_faults (f : list error) (d : DB) : DB :=
  {| tables := tables d; tx := tx d; clock := clock d; faults := f;
     journal := journal d; dblog := dblog d |}.
Definition record_stmt (e : Executed) (d : DB) : DB :=
  {| tables := tables d; tx := tx d; clock := clock d; faults := faults d;
     journal := journal d ++ [e]; dblog := dblog d |}.
Definition record_log (msg : string) (d : DB) : DB :=
  {| tables := tables d; tx := tx d; clock := clock d; faults := faults d;
     journal := journal d; dblog := dblog d ++ [msg] |}.

(** [time < now() - INTERVAL m MINUTE] and [time > now() - INTERVAL m MINUTE]. *)
Definition olderThan (now minutes time : Z) : bool := time <? now - 60 * minutes.
Definition withinTTL (now minutes time : Z) : bool := time >? now - 60 * minutes.

Definition hostKey (ip : string) (r : HostRow) : bool := String.eqb (h_ipaddress r) ip.
Definition ifKey (ip : string) (ifIndex : Z) (r : IfRow) : bool :=
  String.eqb (i_ipaddress r) ip && (i_ifIndex r =? ifIndex).

(** Modelled from the spec: the default of the [time] column, whose table
    definition is not part of the sources.  No [INSERT] of the package
    names the column, and the design document has every cache write insert
    the fresh value "with the current timestamp". *)
Definition insertionTime (d : DB) : Z := clock d.

(** ** Statements on the pool: applied to the committed tables at once *)

Definition applyCache (now : Z) (s : CacheStmt) (t : Tables) : Tables :=
  match s with
  | cleanUpHostnameSQL m =>
      {| ports := ports t;
         cache_hostname := filter (fun r => negb (olderThan now m (h_time r))) (cache_hostname t);
         cache_ifname := cache_ifname t; cache_ifalias := cache_ifalias t |}
  | cleanUpIfNameSQL m =>
      {| ports := ports t; cache_hostname := cache_hostname t;
         cache_ifname := filter (fun r => negb (olderThan now m (i_time r))) (cache_ifname t);
         cache_ifalias := cache_ifalias t |}
  | cleanUpIfAliasSQL m =>
      {| ports := ports t; cache_hostname := cache_hostname t;
         cache_ifname := cache_ifname t;
         cache_ifalias := filter (fun r => negb (olderThan now m (i_time r))) (cache_ifalias t) |}
  | deleteIfnameIfindex ip ix =>
      {| ports := ports t; cache_hostname := cache_hostname t;
         cache_ifname := filter (fun r => negb (ifKey ip ix r)) (cache_ifname t);
         cache_ifalias := cache_ifalias t |}
  | setCacheIfName ip ix v =>
      {| ports := ports t; cache_hostname := cache_hostname t;
         cache_ifname := cache_ifname t ++ [mkIfRow ip ix v now];
         cache_ifalias := cache_ifalias t |}
  | deleteIfAliasIfindex ip ix =>
      {| ports := ports t; cache_hostname := cache_hostname t;
         cache_ifname := cache_ifname t;
         cache_ifalias := filter (fun r => negb (ifKey ip ix r)) (cache_ifalias t) |}
  | setCacheIfAlias ip ix v =>
      {| ports := ports t; cache_hostname := cache_hostname t;
         cache_ifname := cache_ifname t;
         cache_ifalias := cache_ifalias t ++ [mkIfRow ip ix v now] |}
  | deleteHostNameWhereIPaddr ip =>
      {| ports := ports t;
         cache_hostname := filter (fun r => negb (hostKey ip r)) (cache_hostname t);
         cache_ifname := cache_ifname t; cache_ifalias := cache_ifalias t |}
  | setCacheHostName ip v =>
      {| ports := ports t;
         cache_hostname := cache_hostname t ++ [mkHostRow ip v now];
         cache_ifname := cache_ifname t; cache_ifalias := cache_ifalias t |}
  end.

Definition updateRow (sid : string) (h n a : option string) (r : PortRow) : PortRow :=
  if String.eqb (p_sid r) sid then
    {| p_ipaddress := p_ipaddress r; p_hostname := h; p_ifIndex := p_ifIndex r;
       p_ifName := n; p_ifAlias := a; p_ifAdminStatus := p_ifAdminStatus r;
       p_ifOperStatus := p_ifOperStatus r; p_time := p_time r; p_sid := p_sid r;
       p_timeTicks := p_timeTicks r |}
  else r.

Definition applyPort (s : PortStmt) (t : Tables) : Tables :=
  match s with
  | insertPorts row =>
      {| ports := ports t ++ [row]; cache_hostname := cache_hostname t;
         cache_ifname := cache_ifname t; cache_ifalias := cache_ifalias t |}
  | updatePorts sid h n a =>
      {| ports := map (updateRow sid h n a) (ports t);
         cache_hostname := cache_hostname t;
         cache_ifname := cache_ifname t; cache_ifalias := cache_ifalias t |}
  end.

(** ** Statements on a transaction: kept pending until [Commit] *)

Section PendingOps.
Variable R : Type.
Variable eqb : R -> R -> bool.

  (** A [DELETE ... WHERE P] inside the transaction takes the committed rows
      that match and are not deleted yet, and the matching rows the
      transaction inserted itself. *)
Definition txDelete (P : R -> bool) (committed : list R) (p : Pending R) : Pending R :=
    {| del := del p ++ filter P (without eqb committed (del p));
       ins := filter (fun r => negb (P r)) (ins p) |}.

Definition txInsert (r : R) (p : Pending R) : Pending R :=
    {| del := del p; ins := ins p ++ [r] |}.

  (** What [Commit] leaves in the table. *)
Definition commitTable (committed : list R) (p : Pending R) : list R :=
    without eqb committed (del p) ++ ins p.
End PendingOps.

Definition onHostname (f : Pending HostRow -> Pending HostRow) (x : Tx) : Tx :=
  {| tx_hostname := f (tx_hostname x); tx_ifname := tx_ifname x; tx_ifalias := tx_ifalias x |}.
Definition onIfname (f : Pending IfRow -> Pending IfRow) (x : Tx) : Tx :=
  {| tx_hostname := tx_hostname x; tx_ifname := f (tx_ifname x); tx_ifalias := tx_ifalias x |}.
Definition onIfalias (f : Pending IfRow -> Pending IfRow) (x : Tx) : Tx :=
  {| tx_hostname := tx_hostname x; tx_ifname := tx_ifname x; tx_ifalias := f (tx_ifalias x) |}.

Definition pendCache (now : Z) (s : CacheStmt) (t : Tables) (x : Tx) : Tx :=
  match s with
  | cleanUpHostnameSQL m =>
      onHostname (txDelete HostRow_eqb (fun r => olderThan now m (h_time r)) (cache_hostname t)) x
  | cleanUpIfNameSQL m =>
      onIfname (txDelete IfRow_eqb (fun r => olderThan now m (i_time r)) (cache_ifname t)) x
  | cleanUpIfAliasSQL m =>
      onIfalias (txDelete IfRow_eqb (fun r => olderThan now m (i_time r)) (cache_ifalias t)) x
  | deleteIfnameIfindex ip ix =>
      onIfname (txDelete IfRow_eqb (ifKey ip ix) (cache_ifname t)) x
  | setCacheIfName ip ix v => onIfname (txInsert (mkIfRow ip ix v now)) x
  | deleteIfAliasIfindex ip ix =>
      onIfalias (txDelete IfRow_eqb (ifKey ip ix) (cache_ifalias t)) x
  | setCacheIfAlias ip ix v => onIfalias (txInsert (mkIfRow ip ix v now)) x
  | deleteHostNameWhereIPaddr ip =>
      onHostname (txDelete HostRow_eqb (hostKey ip) (cache_hostname t)) x
  | setCacheHostName ip v => onHostname (txInsert (mkHostRow ip v now)) x
  end.

Definition commitTables (t : Tables) (x : Tx) : Tables :=
  {| ports := ports t;
     cache_hostname := commitTable HostRow_eqb (cache_hostname t) (tx_hostname x);
     cache_ifname := commitTable IfRow_eqb (cache_ifname t) (tx_ifname x);
     cache_ifalias := commitTable IfRow_eqb (cache_ifalias t) (tx_ifalias x) |}.

(** ** The driver calls

    Every call that reaches the server takes the next entry of [faults]. *)

Local Open Scope state_scope.

Definition ErrTxDone : string := "sql: transaction has already been committed or rolled back".
Definition ErrNoRows : string := "sql: no rows in result set".
Definition ErrScanNull : string := "sql: Scan error: converting NULL to string is unsupported".

Definition nextFault : State DB error :=
  fun d => match faults d with
           | [] => (None, d)
           | f :: fs => (f, set_faults fs d)
           end.

Definition Println (msg : string) : State DB unit := fun d => (tt, record_log msg d).

(** [c.db.BeginTx(ctx, nil)] *)
Definition BeginTx : State DB error :=
  f <- nextFault ;;
  match f with
  | Some msg => sret (Some msg)
  | None => fun d => (None, set_tx (Some emptyTx) d)
  end.

(** [tx.ExecContext(ctx, stmt, args...)] *)
Definition txExecContext (s : CacheStmt) : State DB error :=
  fun d =>
    match tx d with
    | None => (Some ErrTxDone, d)
    | Some x =>
        (f <- nextFault ;;
         match f with
         | Some msg => sret (Some msg)
         | None => fun d' =>
             (None, record_stmt (OnTx s)
                      (set_tx (Some (pendCache (insertionTime d') s (tables d') x)) d'))
         end) d
    end.

(** [c.db.ExecContext(ctx, stmt, args...)] *)
Definition dbExecContext (s : CacheStmt) : State DB error :=
  f <- nextFault ;;
  match f with
  | Some msg => sret (Some msg)
  | None => fun d =>
      (None, record_stmt (OnPool s)
               (set_tables (applyCache (insertionTime d) s (tables d)) d))
  end.

(** [c.db.NamedExec(sql, args)] *)
Definition dbNamedExec (s : PortStmt) : State DB error :=
  f <- nextFault ;;
  match f with
  | Some msg => sret (Some msg)
  | None => fun d =>
      (None, record_stmt (OnPoolNamed s) (set_tables (applyPort s (tables d)) d))
  end.

(** [tx.Commit()]: the handle is finished whether the server accepts the
    commit or not; a refused commit leaves the committed tables alone. *)
Definition Commit : State DB error :=
  fun d =>
    match tx d with
    | None => (Some ErrTxDone, d)
    | Some x =>
        (f <- nextFault ;;
         match f with
         | Some msg => fun d' => (Some msg, set_tx None d')
         | None => fun d' => (None, set_tx None (set_tables (commitTables (tables d') x) d'))
         end) d
    end.

(** [tx.Rollback()]: on a finished handle it answers [ErrTxDone] without
    reaching the server; otherwise the pending work is dropped. *)
Definition Rollback : State DB error :=
  fun d =>
    match tx d with
    | None => (Some ErrTxDone, d)
    | Some _ => (f <- nextFault ;; fun d' => (f, set_tx None d')) d
    end.

(** [c.db.Get(&dest, query, args...)] into a [string]: the first row of the
    result, [ErrNoRows] when there is none, a scan error on [NULL]. *)
Definition scanFirst (vals : list (option string)) : option string * error :=
  match vals with
  | [] => (None, Some ErrNoRows)
  | Some v :: _ => (Some v, None)
  | None :: _ => (None, Some ErrScanNull)
  end.

Definition dbGet (select : Tables -> Z -> list (option string)) : State DB (option string * error) :=
  f <- nextFault ;;
  match f with
  | Some msg => sret (None, Some msg)
  | None => fun d => (scanFirst (select (tables d) (clock d)), d)
  end.

(** ** [Connector] and its methods

    Every method takes [c.mx] on entry and gives it back on return, so the
    methods of one connector run one at a time: each is one state
    transformer.  The [context.Context] argument only reaches the driver;
    a cancelled context is one more way for a driver call to fail. *)

Record Connector : Type := mkConnector {
  db : DB;
  cacheIfNameMinutes : Z;
  cacheIfAliasMinutes : Z;
  cacheHostnameMinutes : Z
}.

Definition onDB {A : Type} (m : State DB A) : State Connector A :=
  fun c => let (a, d) := m (db c) in
           (a, {| db := d; cacheIfNameMinutes := cacheIfNameMinutes c;
                  cacheIfAliasMinutes := cacheIfAliasMinutes c;
                  cacheHostnameMinutes := cacheHostnameMinutes c |}).

(** [defer func() { if err := tx.Rollback(); err != nil { log.Println(err) } }()] *)
Definition deferredRollback : State DB unit :=
  e <- Rollback ;;
  match e with
  | Some msg => Println msg
  | None => sret tt
  end.

(** [if _, err := ...; err != nil { log.Println(sid, err); return err }];
    the line logged is kept to the correlation id and the error text. *)
Definition orLogReturn (sid : string) (m : State DB error) (k : State DB error) : State DB error :=
  e <- m ;;
  match e with
  | Some msg => Println (sid ++ " " ++ msg) ;;; sret (Some msg)
  | None => k
  end.

(** [func (c *Connector) CleanUp(ctx context.Context) error] *)
Definition CleanUp : State Connector error :=
  fun c =>
    onDB (orReturn BeginTx
           (deferring deferredRollback
             (Println "Cleanup DB started" ;;;
              orReturn (txExecContext (cleanUpHostnameSQL (cacheHostnameMinutes c)))
             (orReturn (txExecContext (cleanUpIfNameSQL (cacheIfNameMinutes c)))
             (orReturn (txExecContext (cleanUpIfAliasSQL (cacheIfAliasMinutes c)))
             (orReturn Commit
             (sret None))))))) c.

Definition statusText (status up : Z) : string :=
  if status =? up then "up" else "down".

(** [func (c *Connector) SaveLinkEvent(le *Model) error] *)
Definition SaveLinkEvent (le : Model) : State Connector error :=
  onDB ((if (TimeTicks le =? 0)%N then Println "SNMP Trap has no timeTicks" else sret tt) ;;;
        orLogReturn (Sid le ++ " unable to exec SQL query")
          (dbNamedExec (insertPorts
             {| p_ipaddress := IpAddress le; p_hostname := HostName le;
                p_ifIndex := IfIndex le; p_ifName := IfName le; p_ifAlias := IfAlias le;
                p_ifAdminStatus := statusText (IfAdminStatus le) ifAdminStatusUP;
                p_ifOperStatus := statusText (IfOperStatus le) ifOperStatusUP;
                p_time := Time le; p_sid := Sid le; p_timeTicks := TimeTicks le |}))
          (sret None)).

(** [func (c *Connector) UpdateLinkEvent(le *Model) error] *)
Definition UpdateLinkEvent (le : Model) : State Connector error :=
  onDB (orLogReturn (Sid le ++ " unable to exec SQL query")
          (dbNamedExec (updatePorts (Sid le) (HostName le) (IfName le) (IfAlias le)))
          (sret None)).

(** [SELECT ifName FROM cache_ifname WHERE time > now() - INTERVAL ? MINUTE
     AND ipaddress = ? AND ifIndex = ?;] and its two siblings. *)
Definition selectIfName (minutes : Z) (ip : string) (ifIndex : Z) (t : Tables) (now : Z)
  : list (option string) :=
  map i_value
    (filter (fun r => withinTTL now minutes (i_time r) && ifKey ip ifIndex r) (cache_ifname t)).

Definition selectIfAlias (minutes : Z) (ip : string) (ifIndex : Z) (t : Tables) (now : Z)
  : list (option string) :=
  map i_value
    (filter (fun r => withinTTL now minutes (i_time r) && ifKey ip ifIndex r) (cache_ifalias t)).

Definition selecthostnameWhereTime (minutes : Z) (ip : string) (t : Tables) (now : Z)
  : list (option string) :=
  map h_hostname
    (filter (fun r => withinTTL now minutes (h_time r) && hostKey ip r) (cache_hostname t)).

(** [func (c *Connector) GetCachedIfName(le *Model)], returning a [*string] and an [error] *)
Definition GetCachedIfName (le : Model) : State Connector (option string * error) :=
  fun c => onDB (dbGet (selectIfName (cacheIfNameMinutes c) (IpAddress le) (IfIndex le))) c.

(** [func (c *Connector) PutCachedIfName(ctx context.Context, m *Model) error]:
    the [DELETE] goes to [tx], the [INSERT] to [c.db]. *)
Definition PutCachedIfName (m : Model) : State Connector error :=
  onDB (orReturn BeginTx
         (deferring deferredRollback
           (orLogReturn (Sid m)
              (txExecContext (deleteIfnameIfindex (IpAddress m) (IfIndex m)))
           (orLogReturn (Sid m)
              (dbExecContext (setCacheIfName (IpAddress m) (IfIndex m) (IfName m)))
           (orReturn Commit
           (sret None)))))).

(** [func (c *Connector) GetCachedIfAlias(le *Model)], returning a [*string] and an [error] *)
Definition GetCachedIfAlias (le : Model) : State Connector (option string * error) :=
  fun c => onDB (dbGet (selectIfAlias (cacheIfAliasMinutes c) (IpAddress le) (IfIndex le))) c.

(** [func (c *Connector) PutCachedIfAlias(ctx context.Context, m *Model) error] *)
Definition PutCachedIfAlias (m : Model) : State Connector error :=
  onDB (orReturn BeginTx
         (deferring deferredRollback
           (orLogReturn (Sid m)
              (txExecContext (deleteIfAliasIfindex (IpAddress m) (IfIndex m)))
           (orLogReturn (Sid m)
              (txExecContext (setCacheIfAlias (IpAddress m) (IfIndex m) (IfAlias m)))
           (orReturn Commit
           (sret None)))))).

(** [func (c *Connector) GetCachedHostname(le *Model)], returning a [*string] and an [error] *)
Definition GetCachedHostname (le : Model) : State Connector (option string * error) :=
  fun c => onDB (dbGet (selecthostnameWhereTime (cacheHostnameMinutes c) (IpAddress le))) c.

(** [func (c *Connector) PutCachedHostname(ctx context.Context, m *Model) error] *)
Definition PutCachedHostname (m : Model) : State Connector error :=
  onDB (orReturn BeginTx
         (deferring deferredRollback
           (orLogReturn (Sid m)
              (txExecContext (deleteHostNameWhereIPaddr (IpAddress m)))
           (orReturn
              (txExecContext (setCacheHostName (IpAddress m) (HostName m)))
           (orReturn Commit
           (sret None)))))).

(** [func (c *Connector) Close()]: nothing of the model depends on the pool
    being open. *)
Definition Close : State Connector unit := sret tt.

(** ** The server's clock *)

(** [now()] is the server's: between two calls of the program it moves,
    and nothing else of the connector does. *)
Definition set_clock (now : Z) (d : DB) : DB :=
  {| tables := tables d; tx := tx d; clock := now; faults := faults d;
     journal := journal d; dblog := dblog d |}.

Definition later (now : Z) (c : Connector) : Connector :=
  {| db := set_clock now (db c); cacheIfNameMinutes := cacheIfNameMinutes c;
     cacheIfAliasMinutes := cacheIfAliasMinutes c;
     cacheHostnameMinutes := cacheHostnameMinutes c |}.

(** ** Opening the store *)

Record Config : Type := mkConfig {
  CacheIfNameMinutes : Z;
  CacheIfAliasMinutes : Z;
  CacheHostnameMinutes : Z;
  Host : string;
  DBName : string;
  User : string;
  Password : string
}.

(** [fmt.Sprintf("%s:%s@tcp(%s)/%s", cfg.User, cfg.Password, cfg.Host, cfg.DBName)] *)
Definition dataSourceName (cfg : Config) : string :=
  User cfg ++ ":" ++ Password cfg ++ "@tcp(" ++ Host cfg ++ ")/" ++ DBName cfg.

(** [db.Ping()] is a driver call like the others. *)
Definition Ping : State DB error := nextFault.

(** [func MakeDB(cfg *Config)], returning a [*Connector] and an [error].  What
    [sqlx.Open("mysql", dataSourceName)] yields for a data source name, a
    handle or an error, is the parameter [open]. *)
Definition MakeDB (open : string -> DB + string) (cfg : Config) : option Connector * error :=
  match open (dataSourceName cfg) with
  | inr msg => (None, Some msg)
  | inl handle =>
      let (err, d) := Ping handle in
      match err with
      | Some msg => (None, Some msg)
      | None =>
          (Some {| db := d;
                   cacheIfNameMinutes := CacheIfNameMinutes cfg;
                   cacheIfAliasMinutes := CacheIfAliasMinutes cfg;
                   cacheHostnameMinutes := CacheHostnameMinutes cfg |}, None)
      end
  end.

End flapdb.

(** ** Package [repository]: the interface the trap handler is written against *)

Module repository.

Class Connector (R : Type) : Type := {
  CleanUp : State R error;
  Close : State R unit;
  SaveLinkEvent : flapdb.Model -> State R error;
  UpdateLinkEvent : flapdb.Model -> State R error;
  GetCachedIfName : flapdb.Model -> State R (option string * error);
  PutCachedIfName : flapdb.Model -> State R error;
  GetCachedIfAlias : flapdb.Model -> State R (option string * error);
  PutCachedIfAlias : flapdb.Model -> State R error;
  GetCachedHostname : flapdb.Model -> State R (option string * error);
  PutCachedHostname : flapdb.Model -> State R error
}.

(** [var _ Connector = &flapdb.Connector{}] *)
#[global] Instance flapdbConnector : Connector flapdb.Connector := {
  CleanUp := flapdb.CleanUp;
  Close := flapdb.Close;
  SaveLinkEvent := flapdb.SaveLinkEvent;
  UpdateLinkEvent := flapdb.UpdateLinkEvent;
  GetCachedIfName := flapdb.GetCachedIfName;
  PutCachedIfName := flapdb.PutCachedIfName;
  GetCachedIfAlias := flapdb.GetCachedIfAlias;
  PutCachedIfAlias := flapdb.PutCachedIfAlias;
  GetCachedHostname := flapdb.GetCachedHostname;
  PutCachedHostname := flapdb.PutCachedHostname
}.

End repository.

(** ** Code that can panic or wait: a state monad with outcomes

    [Panicked] is a Go run-time panic that nothing recovers: it unwinds the
    goroutine, running the deferred calls on the way, and ends the process.
    [Blocked] is a goroutine parked on a mutex that is held. *)

Inductive outcome (A : Type) : Type :=
| Done (a : A)
| Panicked (msg : string)
| Blocked.

Arguments Panicked {A} msg.
Arguments Blocked {A}.

Definition Run (W A : Type) : Type := W -> outcome A * W.

Definition ret {W A : Type} (a : A) : Run W A := fun w => (Done a, w).

Definition bind {W A B : Type} (m : Run W A) (k : A -> Run W B) : Run W B :=
  fun w => match m w with
           | (Done a, w') => k a w'
           | (Panicked msg, w') => (Panicked msg, w')
           | (Blocked, w') => (Blocked, w')
           end.

Definition panic {W A : Type} (msg : string) : Run W A := fun w => (Panicked msg, w).

(** A pure computation that may panic, run inside [Run]. *)
Definition lift {W A : Type} (o : outcome A) : Run W A := fun w => (o, w).

(** [defer d] registered before [body]: [d] runs when [body] returns and
    when it panics. *)
Definition deferred {W A : Type} (d : W -> W) (body : Run W A) : Run W A :=
  fun w => match body w with
           | (Blocked, w') => (Blocked, w')
           | (o, w') => (o, d w')
           end.

Declare Scope run_scope.
Delimit Scope run_scope with run.
Notation "x <- m ;; k" := (bind m (fun x => k))
  (at level 61, m at next level, right associativity) : run_scope.
Notation "' pat <- m ;; k" := (bind m (fun x => match x with pat => k end))
  (at level 61, pat pattern, m at next level, right associativity) : run_scope.
Notation "m ;;; k" := (bind m (fun _ => k))
  (at level 61, right associativity) : run_scope.

(** ** The parts of [gosnmp], [strings] and [strconv] the handler uses *)

Module gosnmp.

(** The dynamic type of [SnmpPDU.Value], an [interface{}]: the decoder
    yields [int] for Integer, [[]byte] for OctetString, [string] for
    ObjectIdentifier and IPAddress, [uint] for Counter32 and Gauge32,
    [uint32] for TimeTicks, [uint64] for Counter64 and [nil] for Null. *)
Inductive Value : Type :=
| VNil
| VInt (z : Z)
| VUint (n : N)
| VUint32 (n : N)
| VUint64 (n : N)
| VString (s : string)
| VBytes (b : string).

Record SnmpPDU : Type := mkPDU { Name : string; Value_ : Value }.

Record SnmpPacket : Type := mkPacket { Variables : list SnmpPDU }.

End gosnmp.

Module strings.

(** [strings.Contains(s, substr)] *)
Fixpoint Contains (s substr : string) : bool :=
  String.prefix substr s
  || match s with
     | EmptyString => false
     | String _ s' => Contains s' substr
     end.

End strings.

Module strconv.

(** [strconv.Itoa(i)] *)
Definition Itoa (i : Z) : string := NilZero.string_of_int (Z.to_int i).

End strconv.

(** ** Package [linkevent] *)

Module linkevent.

Import gosnmp.

Definition oidReference : string := ".1.3.6.1.6.3.1.1.4.1.0".
Definition timeTicksReference : string := ".1.3.6.1.2.1.1.3.0".
Definition linkUP : string := ".1.3.6.1.6.3.1.1.5.4".
Definition linkDOWN : string := ".1.3.6.1.6.3.1.1.5.3".
Definition ifIndexOIDPrefix : string := ".1.3.6.1.2.1.2.2.1.1".
Definition ifNameOIDPrefix : string := ".1.3.6.1.2.1.31.1.1.1.1.".
Definition ifAliasOIDPrefix : string := ".1.3.6.1.2.1.31.1.1.1.18.".
Definition ifAdminStatusOIDPrefix : string := ".1.3.6.1.2.1.2.2.1.7".
Definition ifOperStatusOIDPrefix : string := ".1.3.6.1.2.1.2.2.1.8".
Definition ifNameVarBindPrefixJunOS : string := ".1.3.6.1.2.1.31.1.1.1.1".
Definition sysNameOID : string := ".1.3.6.1.2.1.1.5.0".

(** The event.  Its [repo] field is a reference to the connector every
    handler shares; the connector itself lives in the [World] below. *)
Record LinkEvent : Type := mkLinkEvent {
  sid : string;
  ifIndex : Z;
  ifAdminStatus : Z;
  ifOperStatus : Z;
  ifName : option string;
  ifAlias : option string;
  hostName : option string;
  ipAddress : string;
  time : Z;
  timeTicks : N;
  community : string
}.

Definition set_ifIndex (v : Z) (le : LinkEvent) : LinkEvent :=
  {| sid := sid le; ifIndex := v; ifAdminStatus := ifAdminStatus le;
     ifOperStatus := ifOperStatus le; ifName := ifName le; ifAlias := ifAlias le;
     hostName := hostName le; ipAddress := ipAddress le; time := time le;
     timeTicks := timeTicks le; community := community le |}.
Definition set_ifAdminStatus (v : Z) (le : LinkEvent) : LinkEvent :=
  {| sid := sid le; ifIndex := ifIndex le; ifAdminStatus := v;
     ifOperStatus := ifOperStatus le; ifName := ifName le; ifAlias := ifAlias le;
     hostName := hostName le; ipAddress := ipAddress le; time := time le;
     timeTicks := timeTicks le; community := community le |}.
Definition set_ifOperStatus (v : Z) (le : LinkEvent) : LinkEvent :=
  {| sid := sid le; ifIndex := ifIndex le; ifAdminStatus := ifAdminStatus le;
     ifOperStatus := v; ifName := ifName le; ifAlias := ifAlias le;
     hostName := hostName le; ipAddress := ipAddress le; time := time le;
     timeTicks := timeTicks le; community := community le |}.
Definition set_ifName (v : option string) (le : LinkEvent) : LinkEvent :=
  {| sid := sid le; ifIndex := ifIndex le; ifAdminStatus := ifAdminStatus le;
     ifOperStatus := ifOperStatus le; ifName := v; ifAlias := ifAlias le;
     hostName := hostName le; ipAddress := ipAddress le; time := time le;
     timeTicks := timeTicks le; community := community le |}.
Definition set_ifAlias (v : option string) (le : LinkEvent) : LinkEvent :=
  {| sid := sid le; ifIndex := ifIndex le; ifAdminStatus := ifAdminStatus le;
     ifOperStatus := ifOperStatus le; ifName := ifName le; ifAlias := v;
     hostName := hostName le; ipAddress := ipAddress le; time := time le;
     timeTicks := timeTicks le; community := community le |}.
Definition set_hostName (v : option string) (le : LinkEvent) : LinkEvent :=
  {| sid := sid le; ifIndex := ifIndex le; ifAdminStatus := ifAdminStatus le;
     ifOperStatus := ifOperStatus le; ifName := ifName le; ifAlias := ifAlias le;
     hostName := v; ipAddress := ipAddress le; time := time le;
     timeTicks := timeTicks le; community := community le |}.
Definition set_ipAddress (v : string) (le : LinkEvent) : LinkEvent :=
  {| sid := sid le; ifIndex := ifIndex le; ifAdminStatus := ifAdminStatus le;
     ifOperStatus := ifOperStatus le; ifName := ifName le; ifAlias := ifAlias le;
     hostName := hostName le; ipAddress := v; time := time le;
     timeTicks := timeTicks le; community := community le |}.
Definition set_timeTicks (v : N) (le : LinkEvent) : LinkEvent :=
  {| sid := sid le; ifIndex := ifIndex le; ifAdminStatus := ifAdminStatus le;
     ifOperStatus := ifOperStatus le; ifName := ifName le; ifAlias := ifAlias le;
     hostName := hostName le; ipAddress := ipAddress le; time := time le;
     timeTicks := v; community := community le |}.

(** What the device-query capability answers to one request. *)
Inductive SnmpReply : Type :=
| ConnectFails (msg : string)
| GetFails (msg : string)
| Responds (pdu : SnmpPacket).

(** What a handler does to the outside, in order. *)
Inductive Call : Type :=
| SaveLinkEventCall (m : flapdb.Model)
| UpdateLinkEventCall (m : flapdb.Model)
| GetCachedHostnameCall (m : flapdb.Model)
| PutCachedHostnameCall (m : flapdb.Model)
| GetCachedIfNameCall (m : flapdb.Model)
| PutCachedIfNameCall (m : flapdb.Model)
| GetCachedIfAliasCall (m : flapdb.Model)
| PutCachedIfAliasCall (m : flapdb.Model)
| SnmpGet (oid target community : string)
| LogLine (msg : string).

Definition isInsert (c : Call) : bool :=
  match c with SaveLinkEventCall _ => true | _ => false end.
Definition isUpdate (c : Call) : bool :=
  match c with UpdateLinkEventCall _ => true | _ => false end.
Definition isSnmp (c : Call) : bool :=
  match c with SnmpGet _ _ _ => true | _ => false end.
Definition isCacheWrite (c : Call) : bool :=
  match c with
  | PutCachedHostnameCall _ | PutCachedIfNameCall _ | PutCachedIfAliasCall _ => true
  | _ => false
  end.
Definition isPersistence (c : Call) : bool :=
  match c with
  | SnmpGet _ _ _ | LogLine _ => false
  | _ => true
  end.

(** The calls that make up the resolution of ifName: the two cache calls
    and a query under [ifNameOIDPrefix]. *)
Definition resolvesIfName (c : Call) : bool :=
  match c with
  | GetCachedIfNameCall _ | PutCachedIfNameCall _ => true
  | SnmpGet oid _ _ => String.prefix ifNameOIDPrefix oid
  | _ => false
  end.

Definition isLogLine (c : Call) : bool :=
  match c with LogLine _ => true | _ => false end.

(** What may follow the insert of the event with correlation id [id]: no
    second insert, and updates for [id] only. *)
Definition followsInsert (id : string) (c : Call) : bool :=
  match c with
  | SaveLinkEventCall _ => false
  | UpdateLinkEventCall m => String.eqb (flapdb.Sid m) id
  | _ => true
  end.

(** [getEventOID] and [IsLinkEvent] touch nothing but the packet. *)
Fixpoint getEventOIDFrom (vars : list SnmpPDU) : outcome string :=
  match vars with
  | [] => Done ""
  | variable :: rest =>
      if String.eqb (Name variable) oidReference then
        match Value_ variable with
        | VString s => Done s
        | _ => Panicked "interface conversion: interface {} is not string"
        end
      else getEventOIDFrom rest
  end.

(** [func getEventOID(p *g.SnmpPacket) string] *)
Definition getEventOID (p : SnmpPacket) : outcome string := getEventOIDFrom (Variables p).

(** [func IsLinkEvent(p *g.SnmpPacket) bool] *)
Definition IsLinkEvent (p : SnmpPacket) : outcome bool :=
  match getEventOID p with
  | Done eventOid => Done (String.eqb eventOid linkUP || String.eqb eventOid linkDOWN)
  | Panicked msg => Panicked msg
  | Blocked => Blocked
  end.

Section WithRepository.
Context {R : Type} {repoImpl : repository.Connector R}.

  (** Everything a handler shares with the rest of the process: the
      connector behind [repo], the devices answering SNMP, the mutex
      [snmpSema.mx], the clock of [time.Now], the supply of [sid.Id] and the
      record of the calls made so far. *)
Record World : Type := mkWorld {
    repo : R;
    device : string -> string -> string -> SnmpReply;
    snmpSema : bool;
    wallClock : Z;
    sidSource : nat -> string;
    sidCount : nat;
    trace : list Call
  }.

Definition record (c : Call) (w : World) : World :=
    {| repo := repo w; device := device w; snmpSema := snmpSema w;
       wallClock := wallClock w; sidSource := sidSource w; sidCount := sidCount w;
       trace := trace w ++ [c] |}.
Definition set_snmpSema (b : bool) (w : World) : World :=
    {| repo := repo w; device := device w; snmpSema := b;
       wallClock := wallClock w; sidSource := sidSource w; sidCount := sidCount w;
       trace := trace w |}.
Definition set_repo (r : R) (w : World) : World :=
    {| repo := r; device := device w; snmpSema := snmpSema w;
       wallClock := wallClock w; sidSource := sidSource w; sidCount := sidCount w;
       trace := trace w |}.

Local Open Scope run_scope.

  (** [log.Println(...)] *)
Definition Println (msg : string) : Run World unit := fun w => (Done tt, record (LogLine msg) w).

  (** A method call on [le.repo], recorded. *)
Definition call {A : Type} (c : Call) (method : State R A) : Run World A :=
    fun w => let (a, r) := method (repo w) in (Done a, set_repo r (record c w)).

  (** [time.Now().Local()] and [sid.Id()] *)
Definition Now : Run World Z := fun w => (Done (wallClock w), w).
Definition sidId : Run World string :=
    fun w => (Done (sidSource w (sidCount w)),
              {| repo := repo w; device := device w; snmpSema := snmpSema w;
                 wallClock := wallClock w; sidSource := sidSource w;
                 sidCount := S (sidCount w); trace := trace w |}).

  (** [snmpSema.mx.Lock()] and [snmpSema.mx.Unlock()] *)
Definition Lock : Run World unit :=
    fun w => if snmpSema w then (Blocked, w) else (Done tt, set_snmpSema true w).
Definition Unlock (w : World) : World := set_snmpSema false w.

  (** [func doSNMPRequest(oid string, ip net.IP, community string)
       (pdu *g.SnmpPacket, err error)]: connect to the target, [Get] the one
      object identifier, close. *)
Definition doSNMPRequest (oid ip community : string) : Run World (option SnmpPacket * error) :=
    fun w =>
      let w1 := record (SnmpGet oid ip community) w in
      match device w oid ip community with
      | ConnectFails msg => (Done (None, Some msg), record (LogLine msg) w1)
      | GetFails msg => (Done (None, Some msg), w1)
      | Responds pdu => (Done (Some pdu, None), w1)
      end.

  (** [func getSNMPString(oid string, ip net.IP, community string)
       (val *string, err error)] *)
Definition getSNMPString (oid ip community : string) : Run World (option string * error) :=
    Lock ;;;
    deferred Unlock
      ('(pdu, err) <- doSNMPRequest oid ip community ;;
       match err with
       | Some msg => ret (None, Some msg)
       | None =>
           match pdu with
           | None => panic "invalid memory address or nil pointer dereference"
           | Some p =>
               match Variables p with
               | [] => panic "index out of range [0] with length 0"
               | first :: _ =>
                   match Value_ first with
                   | VBytes fromByte => ret (Some fromByte, None)
                   | _ => ret (None, Some "received nil from the device")
                   end
               end
           end
       end).

  (** The body of the loop of [FromSnmpPacket], for one variable binding. *)
Definition extractVariable (variable : SnmpPDU) (le : LinkEvent) : Run World LinkEvent :=
    if strings.Contains (Name variable) ifIndexOIDPrefix then
      match Value_ variable with
      | VInt i => ret (set_ifIndex i le)
      | _ => panic "interface conversion: interface {} is not int"
      end
    else if strings.Contains (Name variable) ifAdminStatusOIDPrefix then
      match Value_ variable with
      | VInt i => ret (set_ifAdminStatus i le)
      | _ => panic "interface conversion: interface {} is not int"
      end
    else if strings.Contains (Name variable) ifOperStatusOIDPrefix then
      match Value_ variable with
      | VInt i => ret (set_ifOperStatus i le)
      | _ => panic "interface conversion: interface {} is not int"
      end
    else if strings.Contains (Name variable) ifNameVarBindPrefixJunOS then
      match Value_ variable with
      | VBytes ifNameBytes => ret (set_ifName (Some ifNameBytes) le)
      | _ => Println "empty ifNameVarBindPrefixJunOS" ;;; ret le
      end
    else if strings.Contains (Name variable) timeTicksReference then
      match Value_ variable with
      | VUint ticks => ret (set_timeTicks ticks le)
      | _ => Println "missing timeTicks in the SNMP trap" ;;; ret le
      end
    else ret le.

Fixpoint extractVariables (vars : list SnmpPDU) (le : LinkEvent) : Run World LinkEvent :=
    match vars with
    | [] => ret le
    | variable :: rest => le' <- extractVariable variable le ;; extractVariables rest le'
    end.

  (** [func (le *LinkEvent) FromSnmpPacket(p *g.SnmpPacket, addr net.IP)] *)
Definition FromSnmpPacket (p : SnmpPacket) (addr : string) (le : LinkEvent) : Run World LinkEvent :=
    isLink <- lift (IsLinkEvent p) ;;
    if negb isLink then ret le
    else extractVariables (Variables p) (set_ipAddress addr le).

  (** [m] adds to the record of calls only calls that satisfy [Q]. *)
Definition emits {A : Type} (m : Run World A) (Q : Call -> bool) : Prop :=
  forall w, exists new,
    trace (snd (m w)) = (trace w ++ new)%list /\ forallb Q new = true.

(** [func (le *LinkEvent) saveLinkEvent() error] *)
Definition saveLinkEvent (le : LinkEvent) : Run World error :=
    (if (timeTicks le =? 0)%N then Println "SNMP Trap has no timeTicks" else ret tt) ;;;
    let model :=
      {| flapdb.IpAddress := ipAddress le; flapdb.HostName := hostName le;
         flapdb.IfIndex := ifIndex le; flapdb.IfName := ifName le;
         flapdb.IfAlias := ifAlias le; flapdb.IfAdminStatus := ifAdminStatus le;
         flapdb.IfOperStatus := ifOperStatus le; flapdb.Time := time le;
         flapdb.Sid := sid le; flapdb.TimeTicks := timeTicks le |} in
    call (SaveLinkEventCall model) (repository.SaveLinkEvent model).

  (** [func (le *LinkEvent) updateLinkEvent() error] *)
Definition updateLinkEvent (le : LinkEvent) : Run World error :=
    let model :=
      {| flapdb.HostName := hostName le; flapdb.IfName := ifName le;
         flapdb.IfAlias := ifAlias le; flapdb.Sid := sid le;
         flapdb.IfIndex := 0; flapdb.IfAdminStatus := 0; flapdb.IfOperStatus := 0;
         flapdb.IpAddress := ""; flapdb.Time := 0; flapdb.TimeTicks := 0%N |} in
    err <- call (UpdateLinkEventCall model) (repository.UpdateLinkEvent model) ;;
    match err with
    | Some msg => Println (sid le ++ " unable to exec SQL query " ++ msg) ;;; ret (Some msg)
    | None => ret None
    end.

  (** The literal [&flapdb.Model{IpAddress: le.ipAddress, IfIndex: le.ifIndex}]. *)
Definition ifKeyModel (le : LinkEvent) : flapdb.Model :=
    {| flapdb.IpAddress := ipAddress le; flapdb.IfIndex := ifIndex le;
       flapdb.Sid := ""; flapdb.IfAdminStatus := 0; flapdb.IfOperStatus := 0;
       flapdb.IfName := None; flapdb.IfAlias := None; flapdb.HostName := None;
       flapdb.Time := 0; flapdb.TimeTicks := 0%N |}.

  (** The literal [&flapdb.Model{IpAddress: le.ipAddress}]. *)
Definition hostKeyModel (le : LinkEvent) : flapdb.Model :=
    {| flapdb.IpAddress := ipAddress le; flapdb.IfIndex := 0;
       flapdb.Sid := ""; flapdb.IfAdminStatus := 0; flapdb.IfOperStatus := 0;
       flapdb.IfName := None; flapdb.IfAlias := None; flapdb.HostName := None;
       flapdb.Time := 0; flapdb.TimeTicks := 0%N |}.

  (** [func (le *LinkEvent) getCachedIfName() bool] *)
Definition getCachedIfName (le : LinkEvent) : Run World (bool * LinkEvent) :=
    let model := ifKeyModel le in
    '(cachedIfName, err) <- call (GetCachedIfNameCall model) (repository.GetCachedIfName model) ;;
    match err with
    | Some _ => ret (false, le)
    | None => ret (true, set_ifName cachedIfName le)
    end.

  (** [func (le *LinkEvent) putCachedIfName(ctx context.Context) error]: the
      model is built from [IpAddress] and [IfIndex] alone. *)
Definition putCachedIfName (le : LinkEvent) : Run World error :=
    let model := ifKeyModel le in
    err <- call (PutCachedIfNameCall model) (repository.PutCachedIfName model) ;;
    match err with
    | Some msg => Println (sid le ++ " " ++ msg) ;;; ret (Some msg)
    | None => ret None
    end.

  (** [func (le *LinkEvent) getCachedIfAlias() bool] *)
Definition getCachedIfAlias (le : LinkEvent) : Run World (bool * LinkEvent) :=
    let model := ifKeyModel le in
    '(cachedIfAlias, err) <- call (GetCachedIfAliasCall model) (repository.GetCachedIfAlias model) ;;
    match err with
    | Some _ => ret (false, le)
    | None => ret (true, set_ifAlias cachedIfAlias le)
    end.

  (** [func (le *LinkEvent) putCachedIfAlias(ctx context.Context) error] *)
Definition putCachedIfAlias (le : LinkEvent) : Run World error :=
    let model :=
      {| flapdb.IpAddress := ipAddress le; flapdb.IfIndex := ifIndex le;
         flapdb.IfAlias := ifAlias le;
         flapdb.Sid := ""; flapdb.IfAdminStatus := 0; flapdb.IfOperStatus := 0;
         flapdb.IfName := None; flapdb.HostName := None;
         flapdb.Time := 0; flapdb.TimeTicks := 0%N |} in
    err <- call (PutCachedIfAliasCall model) (repository.PutCachedIfAlias model) ;;
    match err with
    | Some msg => Println (sid le ++ " " ++ msg) ;;; ret (Some msg)
    | None => ret None
    end.

  (** [func (le *LinkEvent) getCachedHostname() bool] *)
Definition getCachedHostname (le : LinkEvent) : Run World (bool * LinkEvent) :=
    let model := hostKeyModel le in
    '(cachedHostname, err) <- call (GetCachedHostnameCall model) (repository.GetCachedHostname model) ;;
    match err with
    | Some _ => ret (false, le)
    | None => ret (true, set_hostName cachedHostname le)
    end.

  (** [func (le *LinkEvent) putCachedHostname(ctx context.Context) error] *)
Definition putCachedHostname (le : LinkEvent) : Run World error :=
    let model :=
      {| flapdb.IpAddress := ipAddress le; flapdb.HostName := hostName le;
         flapdb.IfIndex := 0; flapdb.Sid := ""; flapdb.IfAdminStatus := 0;
         flapdb.IfOperStatus := 0; flapdb.IfName := None; flapdb.IfAlias := None;
         flapdb.Time := 0; flapdb.TimeTicks := 0%N |} in
    err <- call (PutCachedHostnameCall model) (repository.PutCachedHostname model) ;;
    match err with
    | Some msg => Println (sid le ++ " " ++ msg) ;;; ret (Some msg)
    | None => ret None
    end.

  (** [func (le *LinkEvent) FillHostName(ctx context.Context)] *)
Definition FillHostName (le : LinkEvent) : Run World LinkEvent :=
    '(hit, le1) <- getCachedHostname le ;;
    if hit then ret le1
    else
      '(hostName, err) <- getSNMPString sysNameOID (ipAddress le1) (community le1) ;;
      match err with
      | Some msg => Println (sid le1 ++ " unable to get hostname via SNMP: " ++ msg) ;;; ret le1
      | None =>
          let le2 := set_hostName hostName le1 in
          putCachedHostname le2 ;;; ret le2
      end.

  (** [func (le *LinkEvent) FillIfName(ctx context.Context)] *)
Definition FillIfName (le : LinkEvent) : Run World LinkEvent :=
    '(hit, le1) <- getCachedIfName le ;;
    if hit then ret le1
    else
      '(ifName, err) <- getSNMPString (ifNameOIDPrefix ++ strconv.Itoa (ifIndex le1))
                          (ipAddress le1) (community le1) ;;
      match err with
      | Some msg => Println (sid le1 ++ " unable to get ifName vie SNMP: " ++ msg) ;;; ret le1
      | None =>
          let le2 := set_ifName ifName le1 in
          putCachedIfName le2 ;;; ret le2
      end.

  (** [func (le *LinkEvent) FillIfAlias(ctx context.Context)] *)
Definition FillIfAlias (le : LinkEvent) : Run World LinkEvent :=
    '(hit, le1) <- getCachedIfAlias le ;;
    if hit then ret le1
    else
      '(ifAlias, err) <- getSNMPString (ifAliasOIDPrefix ++ strconv.Itoa (ifIndex le1))
                           (ipAddress le1) (community le1) ;;
      match err with
      | Some msg => Println (sid le1 ++ " unable to get ifAlias via SNMP: " ++ msg) ;;; ret le1
      | None =>
          let le2 := set_ifAlias ifAlias le1 in
          putCachedIfAlias le2 ;;; ret le2
      end.

  (** [func (le *LinkEvent) FetchMissingData(ctx context.Context)] *)
Definition FetchMissingData (le : LinkEvent) : Run World LinkEvent :=
    le1 <- match hostName le with None => FillHostName le | Some _ => ret le end ;;
    le2 <- match ifName le1 with None => FillIfName le1 | Some _ => ret le1 end ;;
    match ifAlias le2 with None => FillIfAlias le2 | Some _ => ret le2 end.

  (** [func LinkEventHandler(ctx context.Context, repo repository.Connector,
       p *g.SnmpPacket, addr *net.UDPAddr, community string)].  The Go
      function returns nothing; the event it worked on is returned here so
      that it can be inspected. *)
Definition LinkEventHandler (p : SnmpPacket) (addr : string) (community : string)
    : Run World LinkEvent :=
    now <- Now ;;
    id <- sidId ;;
    let event :=
      {| sid := id; ifIndex := 0; ifAdminStatus := 0; ifOperStatus := 0;
         ifName := None; ifAlias := None; hostName := None; ipAddress := "";
         time := now; timeTicks := 0%N; community := community |} in
    event1 <- FromSnmpPacket p addr event ;;
    err <- saveLinkEvent event1 ;;
    match err with
    | Some msg => Println (sid event1 ++ " unable to save link event " ++ msg) ;;; ret event1
    | None =>
        event2 <- FetchMissingData event1 ;;
        err' <- updateLinkEvent event2 ;;
        match err' with
        | Some msg => Println (sid event2 ++ " unable to update link event: " ++ msg) ;;; ret event2
        | None => ret event2
        end
    end.
End WithRepository.

Arguments World R : clear implicits.

End linkevent.

(** ** Package [dbcleanup] *)

Module dbcleanup.

(** What the [select] of the loop can wake up on. *)
Inductive Wakeup : Type :=
| ctxDone
| timeAfter.

Section WithRepository.
Context {R : Type} {repoImpl : repository.Connector R}.

Local Open Scope state_scope.

  (** [func RunDBCleanUp(ctx context.Context, repo repository.Connector,
       period time.Duration)], driven by the wake-ups that occur; the lines
      it logs are returned.  With no wake-up left the loop is still
      waiting. *)
Fixpoint RunDBCleanUp (wakeups : list Wakeup) : State R (list string) :=
    match wakeups with
    | [] => sret []
    | ctxDone :: _ => sret ["closed due context"]
    | timeAfter :: rest =>
        err <- repository.CleanUp ;;
        logged <- RunDBCleanUp rest ;;
        sret (match err with Some msg => msg :: logged | None => logged end)
    end.
End WithRepository.

End dbcleanup.

(** ** Package [main]: the trap callback *)

Module main.

Record Config : Type := mkConfig {
  LogFilename : string;
  ListenAddress : string;
  ListenPort : Z;
  DBHost : string;
  DBName : string;
  DBUser : string;
  DBPassword : string;
  Community : string;
  CleanUpInterval : Z
}.

(** [var config = Config{...}], the defaults before the file and the
    environment are read. *)
Definition config : Config :=
  {| LogFilename := "snmpflapd.log"; ListenAddress := "0.0.0.0"; ListenPort := 162;
     DBHost := "127.0.0.1"; DBName := "snmpflapd"; DBUser := "root"; DBPassword := "";
     Community := ""; CleanUpInterval := 60 |}.

(** The literal [&flapdb.Config{Host: config.DBHost, DBName: config.DBName,
    User: config.DBUser, Password: config.DBPassword}] that [main] hands to
    [flapdb.MakeDB]; the three cache fields are not named and stay at the
    zero value. *)
Definition dbConfig (config : Config) : flapdb.Config :=
  {| flapdb.Host := DBHost config; flapdb.DBName := DBName config;
     flapdb.User := DBUser config; flapdb.Password := DBPassword config;
     flapdb.CacheIfNameMinutes := 0; flapdb.CacheIfAliasMinutes := 0;
     flapdb.CacheHostnameMinutes := 0 |}.

(** [connector, err := flapdb.MakeDB(&flapdb.Config{...})] in [main]. *)
Definition connect (open : string -> flapdb.DB + string) (config : Config)
  : option flapdb.Connector * error :=
  flapdb.MakeDB open (dbConfig config).

Section WithRepository.
Context {R : Type} {repoImpl : repository.Connector R}.

Local Open Scope run_scope.

  (** [tl.OnNewTrap = func(packet *g.SnmpPacket, addr *net.UDPAddr) { if
       linkevent.IsLinkEvent(packet) { go linkevent.LinkEventHandler(ctx,
       connector, packet, addr, config.Community) } }], with the goroutine it
      starts run to its end. *)
Definition OnNewTrap (community : string) (packet : gosnmp.SnmpPacket) (addr : string)
    : Run (linkevent.World R) unit :=
    isLink <- lift (linkevent.IsLinkEvent packet) ;;
    if isLink then linkevent.LinkEventHandler packet addr community ;;; ret tt
    else ret tt.
End WithRepository.

End main.

(** ** Many handlers at once: the goroutines around [snmpSema]

    [OnNewTrap] starts one goroutine per accepted trap.  As far as the
    device-query capability is concerned a handler is a sequence of calls of
    [getSNMPString], and one call goes through four places: it calls
    [snmpSema.mx.Lock()], it is inside [doSNMPRequest] with the mutex held,
    it reads the reply with the mutex still held, and it leaves through the
    deferred [Unlock].  The scheduler interleaves the goroutines step by
    step. *)

Module goroutines.

Import gosnmp linkevent.

Local Open Scope run_scope.

(** One call [getSNMPString(oid, ip, community)] a handler is going to
    make. *)
Record Query : Type := mkQuery {
  q_oid : string;
  q_ip : string;
  q_community : string
}.

(** Where a handler goroutine stands: outside [getSNMPString], with the
    calls it still has to make; in [snmpSema.mx.Lock()]; inside
    [doSNMPRequest], its query in flight; back from [doSNMPRequest] with
    what it returned, before the rest of [getSNMPString] and the deferred
    [Unlock]; stopped by a panic. *)
Inductive Task : Type :=
| Outside (todo : list Query)
| AtLock (q : Query) (todo : list Query)
| InDoSNMPRequest (q : Query) (todo : list Query)
| ReadingReply (r : option SnmpPacket * error) (todo : list Query)
| Dead.

Definition holdsGate (t : Task) : bool :=
  match t with
  | InDoSNMPRequest _ _ | ReadingReply _ _ => true
  | _ => false
  end.

Definition inFlight (t : Task) : bool :=
  match t with
  | InDoSNMPRequest _ _ => true
  | _ => false
  end.

Fixpoint update {A : Type} (i : nat) (x : A) (l : list A) : list A :=
  match l, i with
  | [], _ => []
  | _ :: l', O => x :: l'
  | y :: l', S i' => y :: update i' x l'
  end.

Section WithRepository.
Context {R : Type}.

(** [getSNMPString] after [doSNMPRequest] has returned: the lines from
    [if err != nil] to the last [return]. *)
Definition readReply (r : option SnmpPacket * error) : Run (World R) (option string * error) :=
  let (pdu, err) := r in
  match err with
  | Some msg => ret (None, Some msg)
  | None =>
      match pdu with
      | None => panic "invalid memory address or nil pointer dereference"
      | Some p =>
          match Variables p with
          | [] => panic "index out of range [0] with length 0"
          | first :: _ =>
              match Value_ first with
              | VBytes fromByte => ret (Some fromByte, None)
              | _ => ret (None, Some "received nil from the device")
              end
          end
      end
  end.

(** [getSNMPString] cut at the points where the scheduler can switch
    goroutines: [Lock], then [doSNMPRequest], then the rest under the
    deferred [Unlock]. *)
Definition getSNMPStringInSteps (q : Query) : Run (World R) (option string * error) :=
  Lock ;;;
  r <- doSNMPRequest (q_oid q) (q_ip q) (q_community q) ;;
  deferred Unlock (readReply r).

(** The process: the world the goroutines share, [snmpSema.mx] in it, the
    handler goroutines, and whether a panic has stopped it. *)
Record System : Type := mkSystem {
  world : World R;
  pool : list Task;
  crashed : bool
}.

(** What the scheduler does next: the listener starts a handler, goroutine
    [i] takes its next step, or some goroutine that is not in
    [getSNMPString] calls the store or the log, which [call] and [Println]
    record. *)
Inductive Move : Type :=
| Spawn (todo : list Query)
| Advance (i : nat)
| Elsewhere (c : Call) (effect : R -> R).

(** One step of goroutine [i], made of the code of [getSNMPString]: [Lock]
    on a held mutex does not move; a panic runs the deferred [Unlock] and
    stops the process. *)
Definition advance (i : nat) (s : System) : System :=
  if crashed s then s
  else
    match nth_error (pool s) i with
    | None => s
    | Some (Outside []) => s
    | Some (Outside (q :: todo)) =>
        {| world := world s; pool := update i (AtLock q todo) (pool s); crashed := false |}
    | Some (AtLock q todo) =>
        match Lock (world s) with
        | (Done _, w) =>
            {| world := w; pool := update i (InDoSNMPRequest q todo) (pool s);
               crashed := false |}
        | _ => s
        end
    | Some (InDoSNMPRequest q todo) =>
        match doSNMPRequest (q_oid q) (q_ip q) (q_community q) (world s) with
        | (Done r, w) =>
            {| world := w; pool := update i (ReadingReply r todo) (pool s);
               crashed := false |}
        | _ => s
        end
    | Some (ReadingReply r todo) =>
        match deferred Unlock (readReply r) (world s) with
        | (Done _, w) =>
            {| world := w; pool := update i (Outside todo) (pool s); crashed := false |}
        | (Panicked _, w) =>
            {| world := w; pool := update i Dead (pool s); crashed := true |}
        | (Blocked, _) => s
        end
    | Some Dead => s
    end.

Definition move (m : Move) (s : System) : System :=
  match m with
  | Spawn todo =>
      if crashed s then s
      else {| world := world s; pool := pool s ++ [Outside todo]; crashed := false |}
  | Advance i => advance i s
  | Elsewhere c effect =>
      if crashed s || isSnmp c then s
      else {| world := set_repo (effect (repo (world s))) (record c (world s));
              pool := pool s; crashed := false |}
  end.

Definition run (schedule : list Move) (s : System) : System :=
  fold_left (fun acc m => move m acc) schedule s.

(** The process as [main] leaves it before the first trap: no handler
    yet. *)
Definition boot (w : World R) : System := {| world := w; pool := []; crashed := false |}.

Definition holders (s : System) : nat := List.length (filter holdsGate (pool s)).
Definition queriesInFlight (s : System) : nat := List.length (filter inFlight (pool s)).

(** The mutex is held exactly when one goroutine is between its [Lock] and
    its [Unlock]. *)
Definition gateInvariant (s : System) : Prop :=
  holders s = if snmpSema (world s) then 1%nat else 0%nat.

End WithRepository.

Arguments System R : clear implicits.
Arguments Move R : clear implicits.
Arguments Spawn {R} todo.
Arguments Advance {R} i.
Arguments Elsewhere {R} c effect.

End goroutines.

(** ** Concrete traps, devices and stores used in the evaluations below *)

Module scenarios.

Import gosnmp linkevent.

Definition bind (name : string) (v : Value) : SnmpPDU := {| Name := name; Value_ := v |}.

(** A linkDown trap for interface 3, as a decoder delivers it. *)
Definition linkDownTrap : SnmpPacket :=
  {| Variables :=
       [ bind ".1.3.6.1.2.1.1.3.0" (VUint32 4711);
         bind ".1.3.6.1.6.3.1.1.4.1.0" (VString ".1.3.6.1.6.3.1.1.5.3");
         bind ".1.3.6.1.2.1.2.2.1.1.3" (VInt 3);
         bind ".1.3.6.1.2.1.2.2.1.7.3" (VInt 1);
         bind ".1.3.6.1.2.1.2.2.1.8.3" (VInt 2) ] |}.

(** The same trap with ifIndex sent as an octet string. *)
Definition mistypedIfIndexTrap : SnmpPacket :=
  {| Variables :=
       [ bind ".1.3.6.1.6.3.1.1.4.1.0" (VString ".1.3.6.1.6.3.1.1.5.3");
         bind ".1.3.6.1.2.1.2.2.1.1.3" (VBytes "3");
         bind ".1.3.6.1.2.1.2.2.1.7.3" (VInt 1);
         bind ".1.3.6.1.2.1.2.2.1.8.3" (VInt 2) ] |}.

(** A linkDown trap that also carries ifInOctets.3, a Counter32, which the
    decoder delivers as [uint]; its name contains [ifIndexOIDPrefix]. *)
Definition counterTrap : SnmpPacket :=
  {| Variables :=
       [ bind ".1.3.6.1.6.3.1.1.4.1.0" (VString ".1.3.6.1.6.3.1.1.5.3");
         bind ".1.3.6.1.2.1.2.2.1.1.3" (VInt 3);
         bind ".1.3.6.1.2.1.2.2.1.10.3" (VUint 982451653) ] |}.

(** A coldStart trap. *)
Definition coldStartTrap : SnmpPacket :=
  {| Variables :=
       [ bind ".1.3.6.1.2.1.1.3.0" (VUint32 12);
         bind ".1.3.6.1.6.3.1.1.4.1.0" (VString ".1.3.6.1.6.3.1.1.5.1") ] |}.

Definition answer (oid value : string) : SnmpReply :=
  Responds {| Variables := [ bind oid (VBytes value) ] |}.

(** A device that knows its name and interface 3. *)
Definition healthyDevice (oid target community : string) : SnmpReply :=
  if String.eqb oid ".1.3.6.1.2.1.1.5.0" then answer oid "sw1.example.net"
  else if String.eqb oid ".1.3.6.1.2.1.31.1.1.1.1.3" then answer oid "ge-0/0/3"
  else if String.eqb oid ".1.3.6.1.2.1.31.1.1.1.18.3" then answer oid "uplink to core"
  else GetFails "request timeout".

(** The same device, answering the ifAlias query with a response that
    carries no variable binding. *)
Definition emptyAliasDevice (oid target community : string) : SnmpReply :=
  if String.eqb oid ".1.3.6.1.2.1.31.1.1.1.18.3" then Responds {| Variables := [] |}
  else healthyDevice oid target community.

(** A device that cannot be reached for its name and then answers the
    ifName query with a response that carries no variable binding. *)
Definition flakyDevice (oid target community : string) : SnmpReply :=
  if String.eqb oid ".1.3.6.1.2.1.1.5.0" then ConnectFails "dial udp: no route to host"
  else if String.eqb oid ".1.3.6.1.2.1.31.1.1.1.1.3" then Responds {| Variables := [] |}
  else healthyDevice oid target community.

Definition noTables : flapdb.Tables :=
  {| flapdb.ports := []; flapdb.cache_hostname := [];
     flapdb.cache_ifname := []; flapdb.cache_ifalias := [] |}.

(** A connector with ten-minute caches, at second 1000 of its clock. *)
Definition connector (t : flapdb.Tables) (faults : list error) : flapdb.Connector :=
  {| flapdb.db := {| flapdb.tables := t; flapdb.tx := None; flapdb.clock := 1000;
                     flapdb.faults := faults; flapdb.journal := []; flapdb.dblog := [] |};
     flapdb.cacheIfNameMinutes := 10;
     flapdb.cacheIfAliasMinutes := 10;
     flapdb.cacheHostnameMinutes := 10 |}.

Definition world (c : flapdb.Connector) (dev : string -> string -> string -> SnmpReply)
  : World flapdb.Connector :=
  {| repo := c; device := dev; snmpSema := false; wallClock := 1000;
     sidSource := fun _ => "sid-1"; sidCount := 0; trace := [] |}.

(** A linkDown trap that carries ifAlias.3 and no ifName. *)
Definition aliasTrap : SnmpPacket :=
  {| Variables :=
       [ bind ".1.3.6.1.6.3.1.1.4.1.0" (VString ".1.3.6.1.6.3.1.1.5.3");
         bind ".1.3.6.1.2.1.2.2.1.1.3" (VInt 3);
         bind ".1.3.6.1.2.1.31.1.1.1.18.3" (VBytes "uplink to core") ] |}.

(** A linkDown trap that carries ifAlias.3 and then ifName.3. *)
Definition aliasThenNameTrap : SnmpPacket :=
  {| Variables :=
       [ bind ".1.3.6.1.6.3.1.1.4.1.0" (VString ".1.3.6.1.6.3.1.1.5.3");
         bind ".1.3.6.1.2.1.2.2.1.1.3" (VInt 3);
         bind ".1.3.6.1.2.1.31.1.1.1.18.3" (VBytes "uplink to core");
         bind ".1.3.6.1.2.1.31.1.1.1.1.3" (VBytes "ge-0/0/3") ] |}.

(** A linkDown trap with a binding under the ifAlias prefix whose further
    sub-identifiers spell out [ifIndexOIDPrefix]. *)
Definition aliasShadowedTrap : SnmpPacket :=
  {| Variables :=
       [ bind ".1.3.6.1.6.3.1.1.4.1.0" (VString ".1.3.6.1.6.3.1.1.5.3");
         bind ".1.3.6.1.2.1.31.1.1.1.18.1.3.6.1.2.1.2.2.1.1" (VBytes "uplink to core") ] |}.

(** The event [LinkEventHandler] starts from. *)
Definition blankEvent : LinkEvent :=
  {| sid := "sid-1"; ifIndex := 0; ifAdminStatus := 0; ifOperStatus := 0;
     ifName := None; ifAlias := None; hostName := None; ipAddress := "";
     time := 1000; timeTicks := 0%N; community := "public" |}.

(** The event after extraction from [linkDownTrap] sent by 10.0.0.1. *)
Definition interface3Event : LinkEvent :=
  {| sid := "sid-1"; ifIndex := 3; ifAdminStatus := 1; ifOperStatus := 2;
     ifName := None; ifAlias := None; hostName := None; ipAddress := "10.0.0.1";
     time := 1000; timeTicks := 0%N; community := "public" |}.

(** The event after extraction from [aliasTrap] sent by 10.0.0.1. *)
Definition aliasEvent : LinkEvent :=
  {| sid := "sid-1"; ifIndex := 3; ifAdminStatus := 0; ifOperStatus := 0;
     ifName := Some "uplink to core"; ifAlias := None; hostName := None;
     ipAddress := "10.0.0.1"; time := 1000; timeTicks := 0%N; community := "public" |}.

(** The key of the two interface caches for that event. *)
Definition interface3Key : flapdb.Model :=
  {| flapdb.Sid := ""; flapdb.IfIndex := 3; flapdb.IfAdminStatus := 0;
     flapdb.IfOperStatus := 0; flapdb.IfName := None; flapdb.IfAlias := None;
     flapdb.HostName := None; flapdb.IpAddress := "10.0.0.1"; flapdb.Time := 0;
     flapdb.TimeTicks := 0%N |}.

(** A cache holding one ifName row for (10.0.0.1, 3), written at second 900. *)
Definition staleNameTables : flapdb.Tables :=
  {| flapdb.ports := []; flapdb.cache_hostname := [];
     flapdb.cache_ifname := [flapdb.mkIfRow "10.0.0.1" 3 (Some "ge-old") 900];
     flapdb.cache_ifalias := [] |}.

(** The model [PutCachedIfName] would be given for a value ["ge-0/0/3"]. *)
Definition nameModel : flapdb.Model :=
  {| flapdb.Sid := "sid-1"; flapdb.IfIndex := 3; flapdb.IfAdminStatus := 0;
     flapdb.IfOperStatus := 0; flapdb.IfName := Some "ge-0/0/3";
     flapdb.IfAlias := None; flapdb.HostName := None;
     flapdb.IpAddress := "10.0.0.1"; flapdb.Time := 0; flapdb.TimeTicks := 0%N |}.

(** Three caches with one expired and one live row each: with ten-minute
    caches at second 1000, a row is expired when written before second 400. *)
Definition agedTables : flapdb.Tables :=
  {| flapdb.ports := [];
     flapdb.cache_hostname :=
       [flapdb.mkHostRow "10.0.0.1" (Some "sw1") 100; flapdb.mkHostRow "10.0.0.2" (Some "sw2") 900];
     flapdb.cache_ifname :=
       [flapdb.mkIfRow "10.0.0.1" 3 (Some "ge-0/0/3") 399; flapdb.mkIfRow "10.0.0.2" 1 (Some "xe-0") 400];
     flapdb.cache_ifalias :=
       [flapdb.mkIfRow "10.0.0.1" 3 (Some "uplink") 0; flapdb.mkIfRow "10.0.0.2" 1 (Some "core") 999] |}.

(** Models handed to the writers of the three caches. *)
Definition hostModel : flapdb.Model :=
  {| flapdb.Sid := ""; flapdb.IfIndex := 0; flapdb.IfAdminStatus := 0;
     flapdb.IfOperStatus := 0; flapdb.IfName := None; flapdb.IfAlias := None;
     flapdb.HostName := Some "sw1.example.net"; flapdb.IpAddress := "10.0.0.1";
     flapdb.Time := 0; flapdb.TimeTicks := 0%N |}.

Definition aliasModel : flapdb.Model :=
  {| flapdb.Sid := ""; flapdb.IfIndex := 3; flapdb.IfAdminStatus := 0;
     flapdb.IfOperStatus := 0; flapdb.IfName := None;
     flapdb.IfAlias := Some "uplink to core"; flapdb.HostName := None;
     flapdb.IpAddress := "10.0.0.1"; flapdb.Time := 0; flapdb.TimeTicks := 0%N |}.

(** The model of the insert for [interface3Event], and the model of its
    update once the three fields are resolved. *)
Definition insertModel : flapdb.Model :=
  {| flapdb.Sid := "sid-1"; flapdb.IfIndex := 3; flapdb.IfAdminStatus := 1;
     flapdb.IfOperStatus := 2; flapdb.IfName := None; flapdb.IfAlias := None;
     flapdb.HostName := None; flapdb.IpAddress := "10.0.0.1";
     flapdb.Time := 1000; flapdb.TimeTicks := 0%N |}.

Definition updateModel : flapdb.Model :=
  {| flapdb.Sid := "sid-1"; flapdb.IfIndex := 0; flapdb.IfAdminStatus := 0;
     flapdb.IfOperStatus := 0; flapdb.IfName := Some "ge-0/0/3";
     flapdb.IfAlias := Some "uplink to core"; flapdb.HostName := Some "sw1.example.net";
     flapdb.IpAddress := ""; flapdb.Time := 0; flapdb.TimeTicks := 0%N |}.

(** An event table with two events waiting for their metadata: an older
    one of another device, and the one [updateModel] is for. *)
Definition eventTables : flapdb.Tables :=
  {| flapdb.ports :=
       [ {| flapdb.p_ipaddress := "10.0.0.2"; flapdb.p_hostname := None;
            flapdb.p_ifIndex := 1; flapdb.p_ifName := None; flapdb.p_ifAlias := None;
            flapdb.p_ifAdminStatus := "up"; flapdb.p_ifOperStatus := "up";
            flapdb.p_time := 990; flapdb.p_sid := "sid-0"; flapdb.p_timeTicks := 0%N |};
         {| flapdb.p_ipaddress := "10.0.0.1"; flapdb.p_hostname := None;
            flapdb.p_ifIndex := 3; flapdb.p_ifName := None; flapdb.p_ifAlias := None;
            flapdb.p_ifAdminStatus := "up"; flapdb.p_ifOperStatus := "down";
            flapdb.p_time := 1000; flapdb.p_sid := "sid-1"; flapdb.p_timeTicks := 0%N |} ];
     flapdb.cache_hostname := []; flapdb.cache_ifname := []; flapdb.cache_ifalias := [] |}.

(** A server that accepts every data source name and holds [agedTables]. *)
Definition agedServer (dataSourceName : string) : flapdb.DB + string :=
  inl {| flapdb.tables := agedTables; flapdb.tx := None; flapdb.clock := 1000;
         flapdb.faults := []; flapdb.journal := []; flapdb.dblog := [] |}.

(** The event once the three fields are resolved. *)
Definition resolvedEvent : LinkEvent :=
  {| sid := "sid-1"; ifIndex := 3; ifAdminStatus := 1; ifOperStatus := 2;
     ifName := Some "ge-0/0/3"; ifAlias := Some "uplink to core";
     hostName := Some "sw1.example.net"; ipAddress := "10.0.0.1";
     time := 1000; timeTicks := 0%N; community := "public" |}.

(** A device that cannot be reached at all. *)
Definition deadDevice (oid target community : string) : SnmpReply :=
  ConnectFails "dial udp: no route to host".

(** A device that answers its name with an integer. *)
Definition oddDevice (oid target community : string) : SnmpReply :=
  Responds {| Variables := [ bind oid (VInt 7) ] |}.

End scenarios.

(** * Properties *)

(** ** Lists and rows *)

Lemma option_eqb_eq {A : Type} (eqb : A -> A -> bool)
  (Heqb : forall a b, eqb a b = true <-> a = b) (x y : option A) :
  option_eqb eqb x y = true <-> x = y.
Proof.
  destruct x as [a|], y as [b|]; simpl; split; intro H;
    try discriminate; try reflexivity.
  - apply Heqb in H. now subst.
  - inversion H. now apply Heqb.
Qed.

Section ListDifferenceFacts.
Variable R : Type.
Variable eqb : R -> R -> bool.
Hypothesis eqb_eq : forall a b, eqb a b = true <-> a = b.

Lemma without_nil (l : list R) : without eqb l [] = l.
Proof. reflexivity. Qed.

Lemma remove_first_head (x : R) (l : list R) : remove_first eqb x (x :: l) = l.
Proof.
  simpl. destruct (eqb x x) eqn:E; [reflexivity|].
  assert (eqb x x = true) by now apply eqb_eq. congruence.
Qed.

Lemma without_keep_head (P : R -> bool) (a : R) (dels l : list R) :
  P a = false -> Forall (fun d => P d = true) dels ->
  without eqb (a :: l) dels = a :: without eqb l dels.
Proof.
  intros Ha Hd. revert l. induction Hd as [|d dels Hd _ IH]; intro l.
  - reflexivity.
  - unfold without in *. simpl.
    destruct (eqb d a) eqn:E.
    + apply eqb_eq in E. subst. congruence.
    + apply IH.
Qed.

Lemma without_filter (P : R -> bool) (l : list R) :
  without eqb l (filter P l) = filter (fun r => negb (P r)) l.
Proof.
  induction l as [|a l IH]; [reflexivity|].
  simpl. destruct (P a) eqn:Ha; simpl.
  - change (without eqb (remove_first eqb a (a :: l)) (filter P l) =
            filter (fun r => negb (P r)) l).
    now rewrite remove_first_head.
  - rewrite (without_keep_head P) by
      (try assumption; apply Forall_forall; intros x Hx;
       now apply filter_In in Hx).
    now rewrite IH.
Qed.

(** A transaction that deletes by [P] and commits leaves the rows that do
    not satisfy [P], in their order. *)
Lemma commit_after_delete (P : R -> bool) (l : list R) :
  flapdb.commitTable eqb l (flapdb.txDelete eqb P l flapdb.noPending) =
  filter (fun r => negb (P r)) l.
Proof.
  unfold flapdb.commitTable, flapdb.txDelete, flapdb.noPending. simpl.
  rewrite app_nil_r. apply without_filter.
Qed.

(** Delete by [P], insert [r], commit. *)
Lemma commit_after_delete_insert (P : R -> bool) (r : R) (l : list R) :
  flapdb.commitTable eqb l
    (flapdb.txInsert r (flapdb.txDelete eqb P l flapdb.noPending)) =
  (filter (fun x => negb (P x)) l ++ [r])%list.
Proof.
  unfold flapdb.commitTable, flapdb.txInsert, flapdb.txDelete, flapdb.noPending. simpl.
  now rewrite without_filter.
Qed.

Lemma commit_nothing (l : list R) : flapdb.commitTable eqb l flapdb.noPending = l.
Proof. unfold flapdb.commitTable. simpl. now rewrite app_nil_r. Qed.
End ListDifferenceFacts.

Lemma HostRow_eqb_eq (a b : flapdb.HostRow) : flapdb.HostRow_eqb a b = true <-> a = b.
Proof.
  destruct a as [ip1 h1 t1], b as [ip2 h2 t2]. unfold flapdb.HostRow_eqb. simpl.
  rewrite !andb_true_iff, String.eqb_eq, Z.eqb_eq, (option_eqb_eq String.eqb String.eqb_eq).
  split.
  - intros [[-> ->] ->]. reflexivity.
  - intro H. inversion H. auto.
Qed.

Lemma IfRow_eqb_eq (a b : flapdb.IfRow) : flapdb.IfRow_eqb a b = true <-> a = b.
Proof.
  destruct a as [ip1 x1 v1 t1], b as [ip2 x2 v2 t2]. unfold flapdb.IfRow_eqb. simpl.
  rewrite !andb_true_iff, String.eqb_eq, !Z.eqb_eq, (option_eqb_eq String.eqb String.eqb_eq).
  split.
  - intros [[[-> ->] ->] ->]. reflexivity.
  - intro H. inversion H. auto.
Qed.

(** A row inside its time-to-live window is not old enough to be swept. *)
Lemma withinTTL_not_older (now minutes time : Z) :
  flapdb.withinTTL now minutes time = true -> flapdb.olderThan now minutes time = false.
Proof. unfold flapdb.withinTTL, flapdb.olderThan. lia. Qed.

(** ** The store *)

Module StoreFacts.

Import flapdb.

(** What a sweep with time-to-live [minutes] keeps of a table. *)
Lemma kept_by_sweep {R : Type} (time : R -> Z) (now minutes : Z) (l : list R) (r : R) :
  In r l -> withinTTL now minutes (time r) = true ->
  In r (filter (fun x => negb (olderThan now minutes (time x))) l).
Proof.
  intros Hin Hlive. apply filter_In. split; [assumption|].
  now rewrite (withinTTL_not_older _ _ _ Hlive).
Qed.

Ltac split_faults f :=
  let rec go f n :=
    lazymatch n with
    | O => idtac
    | S ?n' =>
        let e := fresh "e" in
        let f' := fresh "f" in
        destruct f as [|[e|] f']; [ | destruct f' as [|[?|] ?] | go f' n' ]
    end
  in go f 5%nat.

Ltac run_store :=
  cbv beta iota zeta delta
    [CleanUp PutCachedHostname PutCachedIfName PutCachedIfAlias
     onDB orReturn orLogReturn deferring deferredRollback sbind sret
     BeginTx nextFault txExecContext dbExecContext Commit Rollback Println
     set_tx set_faults set_tables record_stmt record_log insertionTime
     db tables tx faults clock journal dblog fst snd
     cacheHostnameMinutes cacheIfNameMinutes cacheIfAliasMinutes
     commitTables pendCache applyCache onHostname onIfname onIfalias emptyTx
     tx_hostname tx_ifname tx_ifalias
     ports cache_hostname cache_ifname cache_ifalias].

Ltac settle :=
  repeat match goal with
         | |- _ /\ _ => split
         | |- None = None -> _ => intros _
         | |- Some _ = None -> _ => let H := fresh in intro H; discriminate H
         | |- None <> None -> _ => let H := fresh in intro H; exfalso; apply H; reflexivity
         | |- Some _ <> None -> _ => intros _
         end.

Ltac tables_eq :=
  rewrite ?(@commit_after_delete_insert _ _ HostRow_eqb_eq),
    ?(@commit_after_delete_insert _ _ IfRow_eqb_eq),
    ?(@commit_after_delete _ _ HostRow_eqb_eq),
    ?(@commit_after_delete _ _ IfRow_eqb_eq),
    ?commit_nothing.

(** C8.  One call of [CleanUp] sends its [DELETE]s, one per cache table,
    on one transaction.  When it returns [nil], each cache table holds exactly
    the rows it held that are not older than the table's own
    time-to-live, and [ports] is as before; when it returns an error, no
    table has changed.  Either way every row that is inside its table's
    time-to-live window is still there, and a connector that had no
    transaction open has none open afterwards. *)
Theorem CleanUp_sweeps_exactly_the_expired (c : Connector) :
  let now := clock (db c) in
  let before := tables (db c) in
  let err := fst (CleanUp c) in
  let c' := snd (CleanUp c) in
  let after := tables (db c') in
  (err = None ->
     cache_hostname after =
       filter (fun r => negb (olderThan now (cacheHostnameMinutes c) (h_time r)))
              (cache_hostname before)
     /\ cache_ifname after =
       filter (fun r => negb (olderThan now (cacheIfNameMinutes c) (i_time r)))
              (cache_ifname before)
     /\ cache_ifalias after =
       filter (fun r => negb (olderThan now (cacheIfAliasMinutes c) (i_time r)))
              (cache_ifalias before)
     /\ ports after = ports before
     /\ journal (db c') =
        (journal (db c) ++
           [OnTx (cleanUpHostnameSQL (cacheHostnameMinutes c));
            OnTx (cleanUpIfNameSQL (cacheIfNameMinutes c));
            OnTx (cleanUpIfAliasSQL (cacheIfAliasMinutes c))])%list)
  /\ (err <> None -> after = before)
  /\ (forall r, In r (cache_hostname before) ->
        withinTTL now (cacheHostnameMinutes c) (h_time r) = true ->
        In r (cache_hostname after))
  /\ (forall r, In r (cache_ifname before) ->
        withinTTL now (cacheIfNameMinutes c) (i_time r) = true ->
        In r (cache_ifname after))
  /\ (forall r, In r (cache_ifalias before) ->
        withinTTL now (cacheIfAliasMinutes c) (i_time r) = true ->
        In r (cache_ifalias after))
  /\ (exists new, journal (db c') = (journal (db c) ++ new)%list
                  /\ forallb onTx new = true)
  /\ (tx (db c) = None -> tx (db c') = None).
Proof.
  destruct c as [[t x now f j lg] mn ma mh].
  destruct t as [pt ht nt at_].
  split_faults f; run_store; settle; tables_eq.
  all: try (intro Hx; exact Hx).
  all: try (exists []; split; [ now rewrite app_nil_r | reflexivity ]).
  all: try (eexists; split; [ rewrite <- ?app_assoc; reflexivity | reflexivity ]).
  all: try reflexivity.
  all: try (intros r Hin Hlive; assumption).
  all: try (intros r Hin Hlive; now apply kept_by_sweep).
  all: try (rewrite <- !app_assoc; reflexivity).
Qed.

(** The sweep on three tables that hold an expired and a live row each; the
    row written exactly ten minutes ago is neither live nor swept. *)
Lemma CleanUp_sweeps_exactly_the_expired_witness :
  let c := scenarios.connector scenarios.agedTables [] in
  fst (CleanUp c) = None
  /\ cache_hostname (tables (db (snd (CleanUp c)))) = [mkHostRow "10.0.0.2" (Some "sw2") 900]
  /\ cache_ifname (tables (db (snd (CleanUp c)))) = [mkIfRow "10.0.0.2" 1 (Some "xe-0") 400]
  /\ cache_ifalias (tables (db (snd (CleanUp c)))) = [mkIfRow "10.0.0.2" 1 (Some "core") 999]
  /\ In (mkHostRow "10.0.0.2" (Some "sw2") 900) (cache_hostname (tables (db (snd (CleanUp c))))).
Proof.
  intro c.
  pose proof (CleanUp_sweeps_exactly_the_expired c) as H. cbv zeta in H.
  destruct H as (Hok & _ & Hlive & _).
  destruct (Hok eq_refl) as (Hh & Hn & Ha & _).
  split; [reflexivity|].
  rewrite Hh, Hn, Ha.
  repeat split.
  apply Hlive; [right; left; reflexivity | reflexivity].
Defined.

(** The hostname and ifAlias writes are all or nothing: on [nil] the rows of
    the key are gone and the new row is there; on an error the tables are as
    before.  Both statements go to the transaction. *)
Lemma PutCachedHostname_all_or_nothing (m : Model) (c : Connector) :
  let before := tables (db c) in
  let err := fst (PutCachedHostname m c) in
  let after := tables (db (snd (PutCachedHostname m c))) in
  (err = None ->
     after = {| ports := ports before;
                cache_hostname :=
                  (filter (fun r => negb (hostKey (IpAddress m) r)) (cache_hostname before)
                   ++ [mkHostRow (IpAddress m) (HostName m) (clock (db c))])%list;
                cache_ifname := cache_ifname before;
                cache_ifalias := cache_ifalias before |})
  /\ (err <> None -> after = before)
  /\ (exists new, journal (db (snd (PutCachedHostname m c))) = (journal (db c) ++ new)%list
                  /\ forallb onTx new = true).
Proof.
  destruct c as [[t x now f j lg] mn ma mh].
  destruct t as [pt ht nt at_].
  split_faults f; run_store; settle; tables_eq.
  all: try reflexivity.
  all: try (exists []; split; [ now rewrite app_nil_r | reflexivity ]).
  all: try (eexists; split; [ rewrite <- ?app_assoc; reflexivity | reflexivity ]).
Qed.

Lemma PutCachedIfAlias_all_or_nothing (m : Model) (c : Connector) :
  let before := tables (db c) in
  let err := fst (PutCachedIfAlias m c) in
  let after := tables (db (snd (PutCachedIfAlias m c))) in
  (err = None ->
     after = {| ports := ports before;
                cache_hostname := cache_hostname before;
                cache_ifname := cache_ifname before;
                cache_ifalias :=
                  (filter (fun r => negb (ifKey (IpAddress m) (IfIndex m) r)) (cache_ifalias before)
                   ++ [mkIfRow (IpAddress m) (IfIndex m) (IfAlias m) (clock (db c))])%list |})
  /\ (err <> None -> after = before)
  /\ (exists new, journal (db (snd (PutCachedIfAlias m c))) = (journal (db c) ++ new)%list
                  /\ forallb onTx new = true).
Proof.
  destruct c as [[t x now f j lg] mn ma mh].
  destruct t as [pt ht nt at_].
  split_faults f; run_store; settle; tables_eq.
  all: try reflexivity.
  all: try (exists []; split; [ now rewrite app_nil_r | reflexivity ]).
  all: try (eexists; split; [ rewrite <- ?app_assoc; reflexivity | reflexivity ]).
Qed.

(** Whenever [PutCachedIfName] gets as far as its [INSERT], that statement
    is sent to the pool, not to the transaction that holds the [DELETE]. *)
Lemma PutCachedIfName_insert_on_pool (m : Model) (c : Connector) :
  fst (PutCachedIfName m c) = None ->
  journal (db (snd (PutCachedIfName m c))) =
  (journal (db c) ++
     [OnTx (deleteIfnameIfindex (IpAddress m) (IfIndex m));
      OnPool (setCacheIfName (IpAddress m) (IfIndex m) (IfName m))])%list.
Proof.
  destruct c as [[t x now f j lg] mn ma mh].
  split_faults f; run_store; settle.
  all: now rewrite <- !app_assoc.
Qed.

(** C1.  [PutCachedIfName] on a cache that holds a row for the key, with a
    server that accepts the statements and refuses the commit: the call
    returns the error, the [DELETE] is undone with the transaction, and the
    [INSERT], sent to the pool, stays.  The key has its old row and the new
    one. *)
Theorem PutCachedIfName_insert_escapes_the_transaction :
  let c := scenarios.connector scenarios.staleNameTables
             [None; None; None; Some "commit refused"] in
  let c' := snd (PutCachedIfName scenarios.nameModel c) in
  fst (PutCachedIfName scenarios.nameModel c) = Some "commit refused"
  /\ cache_ifname (tables (db c')) =
       [mkIfRow "10.0.0.1" 3 (Some "ge-old") 900;
        mkIfRow "10.0.0.1" 3 (Some "ge-0/0/3") 1000]
  /\ journal (db c') =
       [OnTx (deleteIfnameIfindex "10.0.0.1" 3);
        OnPool (setCacheIfName "10.0.0.1" 3 (Some "ge-0/0/3"))]
  /\ tx (db c') = None.
Proof. cbv zeta. settle; reflexivity. Qed.

End StoreFacts.

(** ** Strings *)

Lemma prefix_trans (a b c : string) :
  String.prefix a b = true -> String.prefix b c = true -> String.prefix a c = true.
Proof.
  revert b c. induction a as [|x a IH]; intros b c Hab Hbc; [now destruct c|].
  destruct b as [|y b]; [discriminate|]. destruct c as [|z c]; [discriminate|].
  simpl in *.
  destruct (ascii_dec x y) as [->|]; [|discriminate].
  destruct (ascii_dec y z) as [->|]; [|discriminate].
  destruct (ascii_dec z z); [|congruence]. eauto.
Qed.

Lemma prefix_Contains (s substr : string) :
  String.prefix substr s = true -> strings.Contains s substr = true.
Proof. intro H. destruct s; simpl in *; now rewrite H. Qed.

(** Every name under [ifAliasOIDPrefix] contains [ifNameVarBindPrefixJunOS]. *)
Lemma alias_name_contains_JunOS_prefix (name : string) :
  String.prefix linkevent.ifAliasOIDPrefix name = true ->
  strings.Contains name linkevent.ifNameVarBindPrefixJunOS = true.
Proof.
  intro H. apply prefix_Contains.
  apply (prefix_trans _ linkevent.ifAliasOIDPrefix); [reflexivity | assumption].
Qed.

(** ** The trap handler *)

Module HandlerFacts.

Import gosnmp linkevent.

Section WithRepository.
Context {R : Type} {repoImpl : repository.Connector R}.

Lemma emits_ret {A : Type} (a : A) (Q : Call -> bool) : emits (R:=R) (ret a : Run (World R) A) Q.
Proof. intro w. exists []. simpl. now rewrite app_nil_r. Qed.

Lemma emits_panic {A : Type} (msg : string) (Q : Call -> bool) : emits (R:=R) (panic msg : Run (World R) A) Q.
Proof. intro w. exists []. simpl. now rewrite app_nil_r. Qed.

Lemma emits_lift {A : Type} (o : outcome A) (Q : Call -> bool) : emits (R:=R) (lift o : Run (World R) A) Q.
Proof. intro w. exists []. simpl. now rewrite app_nil_r. Qed.

Lemma emits_bind {A B : Type} (m : Run (World R) A) (k : A -> Run (World R) B) (Q : Call -> bool) :
  emits m Q -> (forall a, emits (R:=R) (k a) Q) -> emits (R:=R) (bind m k) Q.
Proof.
  intros Hm Hk w. unfold bind.
  destruct (Hm w) as (new1 & E1 & F1).
  destruct (m w) as [[a|msg|] w1]; simpl in E1.
  - destruct (Hk a w1) as (new2 & E2 & F2).
    exists (new1 ++ new2)%list. rewrite E2, E1, app_assoc. split; [reflexivity|].
    rewrite forallb_app. now rewrite F1, F2.
  - exists new1. auto.
  - exists new1. auto.
Qed.

Lemma emits_Println (msg : string) (Q : Call -> bool) :
  Q (LogLine msg) = true -> emits (R:=R) (Println msg) Q.
Proof. intros HQ w. exists [LogLine msg]. simpl. now rewrite HQ. Qed.

Lemma emits_call {A : Type} (c : Call) (method : State R A) (Q : Call -> bool) :
  Q c = true -> emits (R:=R) (call c method) Q.
Proof.
  intros HQ w. exists [c]. unfold call. destruct (method (repo w)) as [a r]. simpl.
  now rewrite HQ.
Qed.

Lemma emits_deferred_Unlock {A : Type} (body : Run (World R) A) (Q : Call -> bool) :
  emits body Q -> emits (R:=R) (deferred Unlock body) Q.
Proof.
  intros Hb w. destruct (Hb w) as (new & E & F). exists new. unfold deferred.
  destruct (body w) as [[a|msg|] w1]; simpl in *; auto.
Qed.

Lemma emits_Lock (Q : Call -> bool) : emits (R:=R) Lock Q.
Proof.
  intro w. exists []. unfold Lock. destruct (snmpSema w); simpl; now rewrite app_nil_r.
Qed.

Lemma emits_doSNMPRequest (oid ip community : string) (Q : Call -> bool) :
  Q (SnmpGet oid ip community) = true -> (forall msg, Q (LogLine msg) = true) ->
  emits (R:=R) (doSNMPRequest oid ip community) Q.
Proof.
  intros HQ HL w. unfold doSNMPRequest.
  destruct (device w oid ip community) as [msg|msg|pdu]; simpl.
  - exists [SnmpGet oid ip community; LogLine msg]. rewrite <- app_assoc. simpl.
    now rewrite HQ, HL.
  - exists [SnmpGet oid ip community]. simpl. now rewrite HQ.
  - exists [SnmpGet oid ip community]. simpl. now rewrite HQ.
Qed.

Lemma emits_getSNMPString (oid ip community : string) (Q : Call -> bool) :
  Q (SnmpGet oid ip community) = true -> (forall msg, Q (LogLine msg) = true) ->
  emits (R:=R) (getSNMPString oid ip community) Q.
Proof.
  intros HQ HL. unfold getSNMPString.
  apply emits_bind; [apply emits_Lock|]. intros _.
  apply emits_deferred_Unlock.
  apply emits_bind; [now apply emits_doSNMPRequest|].
  intros [pdu [msg|]]; [apply emits_ret|].
  destruct pdu as [p|]; [|apply emits_panic].
  destruct (Variables p) as [|first rest]; [apply emits_panic|].
  destruct (Value_ first); apply emits_ret.
Qed.

Lemma emits_bind_post {A B : Type} (m : Run (World R) A) (k : A -> Run (World R) B)
  (Q : Call -> bool) (P : A -> Prop) :
  emits m Q -> (forall w a, fst (m w) = Done a -> P a) ->
  (forall a, P a -> emits (R:=R) (k a) Q) -> emits (R:=R) (bind m k) Q.
Proof.
  intros Hm HP Hk w. unfold bind.
  destruct (Hm w) as (new1 & E1 & F1). specialize (HP w).
  destruct (m w) as [[a|msg|] w1]; simpl in E1.
  - destruct (Hk a (HP a eq_refl) w1) as (new2 & E2 & F2).
    exists (new1 ++ new2)%list. rewrite E2, E1, app_assoc. split; [reflexivity|].
    rewrite forallb_app. now rewrite F1, F2.
  - exists new1. auto.
  - exists new1. auto.
Qed.

(** *** Extraction *)

Ltac branch :=
  match goal with
  | |- context [if ?b then _ else _] => destruct b eqn:?
  | |- context [match ?v with VNil => _ | _ => _ end] => destruct v eqn:?
  end.

(** A binding whose name contains one of the three integer prefixes and
    whose value is not an [int] stops the handler. *)
Lemma extractVariable_mistyped_ifIndex (variable : SnmpPDU) (le : LinkEvent) (w : World R) :
  strings.Contains (Name variable) ifIndexOIDPrefix = true ->
  (forall i, Value_ variable <> VInt i) ->
  exists msg, extractVariable variable le w = (Panicked msg, w).
Proof.
  intros Hc Hv. unfold extractVariable. rewrite Hc.
  destruct (Value_ variable); try (eexists; reflexivity). now destruct (Hv z).
Qed.

Lemma extractVariable_mistyped_ifAdminStatus (variable : SnmpPDU) (le : LinkEvent) (w : World R) :
  strings.Contains (Name variable) ifIndexOIDPrefix = false ->
  strings.Contains (Name variable) ifAdminStatusOIDPrefix = true ->
  (forall i, Value_ variable <> VInt i) ->
  exists msg, extractVariable variable le w = (Panicked msg, w).
Proof.
  intros Hn Hc Hv. unfold extractVariable. rewrite Hn, Hc.
  destruct (Value_ variable); try (eexists; reflexivity). now destruct (Hv z).
Qed.

Lemma extractVariable_mistyped_ifOperStatus (variable : SnmpPDU) (le : LinkEvent) (w : World R) :
  strings.Contains (Name variable) ifIndexOIDPrefix = false ->
  strings.Contains (Name variable) ifAdminStatusOIDPrefix = false ->
  strings.Contains (Name variable) ifOperStatusOIDPrefix = true ->
  (forall i, Value_ variable <> VInt i) ->
  exists msg, extractVariable variable le w = (Panicked msg, w).
Proof.
  intros Hn Hn' Hc Hv. unfold extractVariable. rewrite Hn, Hn', Hc.
  destruct (Value_ variable); try (eexists; reflexivity). now destruct (Hv z).
Qed.

(** The vendor interface name and the uptime counter are read with the
    checked form of the assertion: a value of another type is logged and
    the event is left as it was. *)
Lemma extractVariable_mistyped_ifName (variable : SnmpPDU) (le : LinkEvent) (w : World R) :
  strings.Contains (Name variable) ifIndexOIDPrefix = false ->
  strings.Contains (Name variable) ifAdminStatusOIDPrefix = false ->
  strings.Contains (Name variable) ifOperStatusOIDPrefix = false ->
  strings.Contains (Name variable) ifNameVarBindPrefixJunOS = true ->
  (forall b, Value_ variable <> VBytes b) ->
  extractVariable variable le w =
  (Done le, record (LogLine "empty ifNameVarBindPrefixJunOS") w).
Proof.
  intros H1 H2 H3 Hc Hv. unfold extractVariable. rewrite H1, H2, H3, Hc.
  destruct (Value_ variable); try reflexivity. now destruct (Hv b).
Qed.

Lemma extractVariable_mistyped_timeTicks (variable : SnmpPDU) (le : LinkEvent) (w : World R) :
  strings.Contains (Name variable) ifIndexOIDPrefix = false ->
  strings.Contains (Name variable) ifAdminStatusOIDPrefix = false ->
  strings.Contains (Name variable) ifOperStatusOIDPrefix = false ->
  strings.Contains (Name variable) ifNameVarBindPrefixJunOS = false ->
  strings.Contains (Name variable) timeTicksReference = true ->
  (forall n, Value_ variable <> VUint n) ->
  extractVariable variable le w =
  (Done le, record (LogLine "missing timeTicks in the SNMP trap") w).
Proof.
  intros H1 H2 H3 H4 Hc Hv. unfold extractVariable. rewrite H1, H2, H3, H4, Hc.
  destruct (Value_ variable); try reflexivity. now destruct (Hv n).
Qed.

(** What one binding can do to the event when the handler survives it. *)
Lemma extractVariable_Done (variable : SnmpPDU) (le le' : LinkEvent) (w w' : World R) :
  extractVariable variable le w = (Done le', w') ->
  ifAlias le' = ifAlias le /\ hostName le' = hostName le /\ sid le' = sid le
  /\ (ifName le' = ifName le
      \/ (strings.Contains (Name variable) ifNameVarBindPrefixJunOS = true
          /\ exists b, ifName le' = Some b)).
Proof.
  unfold extractVariable. repeat branch; simpl; intro H; inversion H; subst; simpl;
    repeat split; eauto.
Qed.

(** A binding with a name under [ifAliasOIDPrefix] and a byte-string
    value.  If the handler survives it, the value is the
    event's ifName. *)
Lemma extractVariable_alias_binding (name b : string) (le le' : LinkEvent) (w w' : World R) :
  String.prefix ifAliasOIDPrefix name = true ->
  extractVariable (mkPDU name (VBytes b)) le w = (Done le', w') ->
  le' = set_ifName (Some b) le /\ w' = w.
Proof.
  intros Hp. pose proof (alias_name_contains_JunOS_prefix _ Hp) as Hc.
  unfold extractVariable. simpl. rewrite Hc.
  repeat branch; simpl; intro H; inversion H; auto.
Qed.

Lemma extractVariables_app (pre post : list SnmpPDU) (le : LinkEvent) (w : World R) :
  extractVariables (pre ++ post) le w =
  bind (extractVariables pre le) (extractVariables post) w.
Proof.
  revert le w. induction pre as [|v pre IH]; intros le w; simpl.
  - reflexivity.
  - unfold bind. destruct (extractVariable v le w) as [[le1|msg|] w1]; [|reflexivity..].
    apply IH.
Qed.

Lemma extractVariables_Done (vars : list SnmpPDU) (le le' : LinkEvent) (w w' : World R) :
  extractVariables vars le w = (Done le', w') ->
  ifAlias le' = ifAlias le /\ hostName le' = hostName le /\ sid le' = sid le
  /\ (ifName le <> None -> ifName le' <> None)
  /\ (forallb (fun v => negb (strings.Contains (Name v) ifNameVarBindPrefixJunOS)) vars = true ->
      ifName le' = ifName le).
Proof.
  revert le w. induction vars as [|v vars IH]; intros le w; simpl.
  - intro H. inversion H. subst. auto.
  - unfold bind. destruct (extractVariable v le w) as [[le1|msg|] w1] eqn:E; try discriminate.
    intro H. apply IH in H. destruct H as (Ha & Hh & Hs & Hn & Hq).
    apply extractVariable_Done in E. destruct E as (Ea & Eh & Es & En).
    repeat split; try congruence.
    + intro Hset. apply Hn. destruct En as [En|[_ [b En]]]; congruence.
    + intro Hall. apply andb_true_iff in Hall. destruct Hall as [Hv Hall].
      rewrite (Hq Hall). destruct En as [En|[Hc _]]; [assumption|].
      rewrite Hc in Hv. discriminate.
Qed.

(** The handler only logs while it extracts. *)
Lemma emits_extractVariables (vars : list SnmpPDU) (le : LinkEvent) :
  emits (R:=R) (extractVariables vars le) isLogLine.
Proof.
  revert le. induction vars as [|v vars IH]; intro le; simpl; [apply emits_ret|].
  apply emits_bind; [|assumption].
  unfold extractVariable.
  repeat branch; try apply emits_ret; try apply emits_panic;
    (apply emits_bind; [now apply emits_Println | intros; apply emits_ret]).
Qed.

(** Take an accepted trap with a binding
    whose name is under [ifAliasOIDPrefix] and whose value is a byte string,
    and suppose [FromSnmpPacket] returns (no binding stops the handler).
    Then the event has an ifName; it is that binding's value when no later
    binding has a name containing [ifNameVarBindPrefixJunOS]; and its
    ifAlias is what it was before, whatever the trap carries. *)
Lemma FromSnmpPacket_alias_binding
  (p : SnmpPacket) (addr : string) (le le' : LinkEvent) (w w' : World R)
  (pre post : list SnmpPDU) (name b : string) :
  IsLinkEvent p = Done true ->
  gosnmp.Variables p = (pre ++ mkPDU name (VBytes b) :: post)%list ->
  String.prefix ifAliasOIDPrefix name = true ->
  FromSnmpPacket p addr le w = (Done le', w') ->
  ifName le' <> None
  /\ (forallb (fun v => negb (strings.Contains (Name v) ifNameVarBindPrefixJunOS)) post = true ->
      ifName le' = Some b)
  /\ ifAlias le' = ifAlias le.
Proof.
  intros Hlink Hvars Hp. unfold FromSnmpPacket, bind, lift. rewrite Hlink. simpl.
  rewrite Hvars, extractVariables_app. unfold bind.
  destruct (extractVariables pre (set_ipAddress addr le) w) as [[le1|msg|] w1] eqn:E1;
    try discriminate.
  simpl. unfold bind.
  destruct (extractVariable (mkPDU name (VBytes b)) le1 w1) as [[le2|msg|] w2] eqn:E2;
    try discriminate.
  intro E3.
  apply extractVariables_Done in E1. destruct E1 as (A1 & _).
  apply (extractVariable_alias_binding _ _ _ _ Hp) in E2. destruct E2 as [-> ->].
  apply extractVariables_Done in E3. destruct E3 as (A3 & _ & _ & N3 & Q3).
  simpl in *. repeat split.
  - apply N3. discriminate.
  - intro Hall. now rewrite (Q3 Hall).
  - congruence.
Qed.

(** *** Resolution *)

Section Emitting.
Variable Q : Call -> bool.
Hypothesis Qlog : forall msg, Q (LogLine msg) = true.

Lemma emits_FillHostName (le : LinkEvent) :
  (forall m, Q (GetCachedHostnameCall m) = true) ->
  (forall m, Q (PutCachedHostnameCall m) = true) ->
  (forall ip c, Q (SnmpGet sysNameOID ip c) = true) ->
  emits (R:=R) (FillHostName le) Q.
Proof.
  intros Hg Hp Hs. unfold FillHostName, getCachedHostname, putCachedHostname.
  apply emits_bind.
  - apply emits_bind; [now apply emits_call|]. intros [v [e|]]; apply emits_ret.
  - intros [[|] le1]; [apply emits_ret|].
    apply emits_bind; [now apply emits_getSNMPString|].
    intros [v [e|]].
    + apply emits_bind; [now apply emits_Println | intros; apply emits_ret].
    + apply emits_bind; [|intros; apply emits_ret].
      apply emits_bind; [now apply emits_call|].
      intros [e|]; [|apply emits_ret].
      apply emits_bind; [now apply emits_Println | intros; apply emits_ret].
Qed.

Lemma emits_FillIfName (le : LinkEvent) :
  (forall m, Q (GetCachedIfNameCall m) = true) ->
  (forall m, Q (PutCachedIfNameCall m) = true) ->
  (forall n ip c, Q (SnmpGet (ifNameOIDPrefix ++ n) ip c) = true) ->
  emits (R:=R) (FillIfName le) Q.
Proof.
  intros Hg Hp Hs. unfold FillIfName, getCachedIfName, putCachedIfName.
  apply emits_bind.
  - apply emits_bind; [now apply emits_call|]. intros [v [e|]]; apply emits_ret.
  - intros [[|] le1]; [apply emits_ret|].
    apply emits_bind; [now apply emits_getSNMPString|].
    intros [v [e|]].
    + apply emits_bind; [now apply emits_Println | intros; apply emits_ret].
    + apply emits_bind; [|intros; apply emits_ret].
      apply emits_bind; [now apply emits_call|].
      intros [e|]; [|apply emits_ret].
      apply emits_bind; [now apply emits_Println | intros; apply emits_ret].
Qed.

Lemma emits_FillIfAlias (le : LinkEvent) :
  (forall m, Q (GetCachedIfAliasCall m) = true) ->
  (forall m, Q (PutCachedIfAliasCall m) = true) ->
  (forall n ip c, Q (SnmpGet (ifAliasOIDPrefix ++ n) ip c) = true) ->
  emits (R:=R) (FillIfAlias le) Q.
Proof.
  intros Hg Hp Hs. unfold FillIfAlias, getCachedIfAlias, putCachedIfAlias.
  apply emits_bind.
  - apply emits_bind; [now apply emits_call|]. intros [v [e|]]; apply emits_ret.
  - intros [[|] le1]; [apply emits_ret|].
    apply emits_bind; [now apply emits_getSNMPString|].
    intros [v [e|]].
    + apply emits_bind; [now apply emits_Println | intros; apply emits_ret].
    + apply emits_bind; [|intros; apply emits_ret].
      apply emits_bind; [now apply emits_call|].
      intros [e|]; [|apply emits_ret].
      apply emits_bind; [now apply emits_Println | intros; apply emits_ret].
Qed.
End Emitting.

(** Resolving the host name leaves the other fields of the event alone. *)
Lemma FillHostName_keeps (le le1 : LinkEvent) (w : World R) :
  fst (FillHostName le w) = Done le1 ->
  ifName le1 = ifName le /\ ifAlias le1 = ifAlias le /\ sid le1 = sid le.
Proof.
  unfold FillHostName, getCachedHostname, putCachedHostname, bind, call, Println, ret.
  destruct (repository.GetCachedHostname _ _) as [[v [e|]] r]; simpl.
  2: { intro H; inversion H; subst; simpl; auto. }
  destruct (getSNMPString _ _ _ _) as [[[v' [e'|]]|msg|] w1]; simpl; try discriminate.
  - intro H; inversion H; subst; auto.
  - destruct (repository.PutCachedHostname _ _) as [[e''|] r']; simpl;
      intro H; inversion H; subst; simpl; auto.
Qed.

(** An event that has its ifName goes through [FetchMissingData] without
    any call of the ifName resolution: no read or write of the ifName
    cache, no query under [ifNameOIDPrefix]. *)
Lemma FetchMissingData_skips_ifName (le : LinkEvent) :
  ifName le <> None ->
  emits (R:=R) (FetchMissingData le) (fun c => negb (resolvesIfName c)).
Proof.
  intro Hset. unfold FetchMissingData.
  apply emits_bind_post with (P := fun le1 => ifName le1 <> None).
  - destruct (hostName le); [apply emits_ret|].
    apply emits_FillHostName; reflexivity.
  - intros w le1. destruct (hostName le).
    + simpl. intro H. inversion H. now subst.
    + intro H. apply FillHostName_keeps in H. destruct H as (-> & _). assumption.
  - intros le1 H1.
    apply emits_bind_post with (P := fun le2 => le2 = le1).
    + destruct (ifName le1); [apply emits_ret | contradiction].
    + intros w le2. destruct (ifName le1); [|contradiction].
      simpl. intro H. now inversion H.
    + intros le2 ->. destruct (ifAlias le1); [apply emits_ret|].
      apply emits_FillIfAlias; reflexivity.
Qed.

(** *** The gate, one caller at a time *)

(** With the mutex free, [getSNMPString] does not wait, leaves the mutex
    free on every way out, the panic included, and does not touch the
    store. *)
Lemma getSNMPString_releases_gate (oid ip community : string) (w : World R) :
  snmpSema w = false ->
  fst (getSNMPString oid ip community w) <> Blocked
  /\ snmpSema (snd (getSNMPString oid ip community w)) = false
  /\ repo (snd (getSNMPString oid ip community w)) = repo w.
Proof.
  intro Hfree. unfold getSNMPString, bind, Lock, deferred, doSNMPRequest. rewrite Hfree.
  simpl. destruct (device w oid ip community) as [msg|msg|p]; simpl.
  - repeat split. discriminate.
  - repeat split. discriminate.
  - destruct (Variables p) as [|first rest]; simpl.
    + repeat split. discriminate.
    + destruct (Value_ first); simpl; repeat split; discriminate.
Qed.

(** A connection failure, a failed [Get] and a first value that is not a
    byte string come back to the caller as an error. *)
Lemma getSNMPString_connect_fails (oid ip community msg : string) (w : World R) :
  snmpSema w = false -> device w oid ip community = ConnectFails msg ->
  fst (getSNMPString oid ip community w) = Done (None, Some msg).
Proof.
  intros Hfree Hdev. unfold getSNMPString, bind, Lock, deferred, doSNMPRequest.
  rewrite Hfree. simpl. now rewrite Hdev.
Qed.

Lemma getSNMPString_get_fails (oid ip community msg : string) (w : World R) :
  snmpSema w = false -> device w oid ip community = GetFails msg ->
  fst (getSNMPString oid ip community w) = Done (None, Some msg).
Proof.
  intros Hfree Hdev. unfold getSNMPString, bind, Lock, deferred, doSNMPRequest.
  rewrite Hfree. simpl. now rewrite Hdev.
Qed.

Lemma getSNMPString_odd_type (oid ip community : string) (w : World R)
  (first : SnmpPDU) (rest : list SnmpPDU) :
  snmpSema w = false ->
  device w oid ip community = Responds {| Variables := first :: rest |} ->
  (forall b, Value_ first <> VBytes b) ->
  fst (getSNMPString oid ip community w) = Done (None, Some "received nil from the device").
Proof.
  intros Hfree Hdev Hodd. unfold getSNMPString, bind, Lock, deferred, doSNMPRequest.
  rewrite Hfree. simpl. rewrite Hdev. simpl.
  destruct (Value_ first); try reflexivity. now destruct (Hodd b).
Qed.

Lemma getSNMPString_value (oid ip community b : string) (w : World R)
  (first : SnmpPDU) (rest : list SnmpPDU) :
  snmpSema w = false ->
  device w oid ip community = Responds {| Variables := first :: rest |} ->
  Value_ first = VBytes b ->
  fst (getSNMPString oid ip community w) = Done (Some b, None).
Proof.
  intros Hfree Hdev Hb. unfold getSNMPString, bind, Lock, deferred, doSNMPRequest.
  rewrite Hfree. simpl. rewrite Hdev. simpl. now rewrite Hb.
Qed.

(** A response without variable bindings does not: it panics. *)
Lemma getSNMPString_empty_response (oid ip community : string) (w : World R) :
  snmpSema w = false ->
  device w oid ip community = Responds {| Variables := [] |} ->
  fst (getSNMPString oid ip community w) = Panicked "index out of range [0] with length 0".
Proof.
  intros Hfree Hdev. unfold getSNMPString, bind, Lock, deferred, doSNMPRequest.
  rewrite Hfree. simpl. now rewrite Hdev.
Qed.

(** Exactly one query is recorded per call, whatever the device answers. *)
Lemma getSNMPString_one_query (oid ip community : string) (w : World R) :
  snmpSema w = false ->
  filter isSnmp (trace (snd (getSNMPString oid ip community w)))
  = (filter isSnmp (trace w) ++ [SnmpGet oid ip community])%list.
Proof.
  intro Hfree. unfold getSNMPString, bind, Lock, deferred, doSNMPRequest. rewrite Hfree.
  simpl. destruct (device w oid ip community) as [msg|msg|p]; simpl.
  - now rewrite <- app_assoc, filter_app.
  - now rewrite filter_app.
  - destruct (Variables p) as [|first rest]; simpl; [now rewrite filter_app|].
    destruct (Value_ first); simpl; now rewrite filter_app.
Qed.

(** *** A field at a time: cache first, then the device *)

(** A cache hit is adopted; nothing but the cache read is recorded. *)
Lemma FillHostName_cache_hit (le : LinkEvent) (w : World R) (v : option string) (r : R) :
  repository.GetCachedHostname (hostKeyModel le) (repo w) = ((v, None), r) ->
  FillHostName le w
  = (Done (set_hostName v le), set_repo r (record (GetCachedHostnameCall (hostKeyModel le)) w)).
Proof.
  intro Hget. unfold FillHostName, getCachedHostname, bind, call. now rewrite Hget.
Qed.

Lemma FillIfName_cache_hit (le : LinkEvent) (w : World R) (v : option string) (r : R) :
  repository.GetCachedIfName (ifKeyModel le) (repo w) = ((v, None), r) ->
  FillIfName le w
  = (Done (set_ifName v le), set_repo r (record (GetCachedIfNameCall (ifKeyModel le)) w)).
Proof.
  intro Hget. unfold FillIfName, getCachedIfName, bind, call. now rewrite Hget.
Qed.

Lemma FillIfAlias_cache_hit (le : LinkEvent) (w : World R) (v : option string) (r : R) :
  repository.GetCachedIfAlias (ifKeyModel le) (repo w) = ((v, None), r) ->
  FillIfAlias le w
  = (Done (set_ifAlias v le), set_repo r (record (GetCachedIfAliasCall (ifKeyModel le)) w)).
Proof.
  intro Hget. unfold FillIfAlias, getCachedIfAlias, bind, call. now rewrite Hget.
Qed.

(** On a miss the device is asked once, for the field's object identifier.
    When that comes back as an error it is logged, the event is left as it
    was and the cache is not written. *)
Lemma FillHostName_resolution_error
  (le : LinkEvent) (w w2 : World R) (v v' : option string) (e msg : string) (r : R) :
  repository.GetCachedHostname (hostKeyModel le) (repo w) = ((v, Some e), r) ->
  getSNMPString sysNameOID (ipAddress le) (community le)
    (set_repo r (record (GetCachedHostnameCall (hostKeyModel le)) w)) = (Done (v', Some msg), w2) ->
  FillHostName le w
  = (Done le, record (LogLine (sid le ++ " unable to get hostname via SNMP: " ++ msg)) w2).
Proof.
  intros Hget Hsnmp. unfold FillHostName, getCachedHostname, bind, call, ret.
  rewrite Hget. cbv beta iota zeta. now rewrite Hsnmp.
Qed.

Lemma FillIfName_resolution_error
  (le : LinkEvent) (w w2 : World R) (v v' : option string) (e msg : string) (r : R) :
  repository.GetCachedIfName (ifKeyModel le) (repo w) = ((v, Some e), r) ->
  getSNMPString (ifNameOIDPrefix ++ strconv.Itoa (ifIndex le)) (ipAddress le) (community le)
    (set_repo r (record (GetCachedIfNameCall (ifKeyModel le)) w)) = (Done (v', Some msg), w2) ->
  FillIfName le w
  = (Done le, record (LogLine (sid le ++ " unable to get ifName vie SNMP: " ++ msg)) w2).
Proof.
  intros Hget Hsnmp. unfold FillIfName, getCachedIfName, bind, call, ret.
  rewrite Hget. cbv beta iota zeta. now rewrite Hsnmp.
Qed.

Lemma FillIfAlias_resolution_error
  (le : LinkEvent) (w w2 : World R) (v v' : option string) (e msg : string) (r : R) :
  repository.GetCachedIfAlias (ifKeyModel le) (repo w) = ((v, Some e), r) ->
  getSNMPString (ifAliasOIDPrefix ++ strconv.Itoa (ifIndex le)) (ipAddress le) (community le)
    (set_repo r (record (GetCachedIfAliasCall (ifKeyModel le)) w)) = (Done (v', Some msg), w2) ->
  FillIfAlias le w
  = (Done le, record (LogLine (sid le ++ " unable to get ifAlias via SNMP: " ++ msg)) w2).
Proof.
  intros Hget Hsnmp. unfold FillIfAlias, getCachedIfAlias, bind, call, ret.
  rewrite Hget. cbv beta iota zeta. now rewrite Hsnmp.
Qed.

(** When it comes back as a value, the event takes it and the cache is
    written once.  For hostName and ifAlias the model written carries the
    value. *)
Lemma FillHostName_resolution_value
  (le : LinkEvent) (w w2 : World R) (v v' : option string) (e : string) (r : R) :
  repository.GetCachedHostname (hostKeyModel le) (repo w) = ((v, Some e), r) ->
  getSNMPString sysNameOID (ipAddress le) (community le)
    (set_repo r (record (GetCachedHostnameCall (hostKeyModel le)) w)) = (Done (v', None), w2) ->
  fst (FillHostName le w) = Done (set_hostName v' le)
  /\ exists m logs,
       trace (snd (FillHostName le w)) = (trace w2 ++ PutCachedHostnameCall m :: logs)%list
       /\ flapdb.IpAddress m = ipAddress le /\ flapdb.HostName m = v'
       /\ forallb isLogLine logs = true.
Proof.
  intros Hget Hsnmp. unfold FillHostName, getCachedHostname, bind, call, ret.
  rewrite Hget. cbv beta iota zeta. rewrite Hsnmp.
  unfold putCachedHostname, bind, call.
  destruct (repository.PutCachedHostname _ (repo w2)) as [[msg|] r2]; simpl.
  - split; [reflexivity|]. eexists. exists [LogLine (sid le ++ " " ++ msg)].
    rewrite <- app_assoc. simpl. repeat split.
  - split; [reflexivity|]. eexists. exists []. repeat split.
Qed.

Lemma FillIfAlias_resolution_value
  (le : LinkEvent) (w w2 : World R) (v v' : option string) (e : string) (r : R) :
  repository.GetCachedIfAlias (ifKeyModel le) (repo w) = ((v, Some e), r) ->
  getSNMPString (ifAliasOIDPrefix ++ strconv.Itoa (ifIndex le)) (ipAddress le) (community le)
    (set_repo r (record (GetCachedIfAliasCall (ifKeyModel le)) w)) = (Done (v', None), w2) ->
  fst (FillIfAlias le w) = Done (set_ifAlias v' le)
  /\ exists m logs,
       trace (snd (FillIfAlias le w)) = (trace w2 ++ PutCachedIfAliasCall m :: logs)%list
       /\ flapdb.IpAddress m = ipAddress le /\ flapdb.IfIndex m = ifIndex le
       /\ flapdb.IfAlias m = v'
       /\ forallb isLogLine logs = true.
Proof.
  intros Hget Hsnmp. unfold FillIfAlias, getCachedIfAlias, bind, call, ret.
  rewrite Hget. cbv beta iota zeta. rewrite Hsnmp.
  unfold putCachedIfAlias, bind, call.
  destruct (repository.PutCachedIfAlias _ (repo w2)) as [[msg|] r2]; simpl.
  - split; [reflexivity|]. eexists. exists [LogLine (sid le ++ " " ++ msg)].
    rewrite <- app_assoc. simpl. repeat split.
  - split; [reflexivity|]. eexists. exists []. repeat split.
Qed.

(** For ifName the model written carries the key and no value. *)
Lemma FillIfName_resolution_value
  (le : LinkEvent) (w w2 : World R) (v v' : option string) (e : string) (r : R) :
  repository.GetCachedIfName (ifKeyModel le) (repo w) = ((v, Some e), r) ->
  getSNMPString (ifNameOIDPrefix ++ strconv.Itoa (ifIndex le)) (ipAddress le) (community le)
    (set_repo r (record (GetCachedIfNameCall (ifKeyModel le)) w)) = (Done (v', None), w2) ->
  fst (FillIfName le w) = Done (set_ifName v' le)
  /\ exists m logs,
       trace (snd (FillIfName le w)) = (trace w2 ++ PutCachedIfNameCall m :: logs)%list
       /\ flapdb.IpAddress m = ipAddress le /\ flapdb.IfIndex m = ifIndex le
       /\ flapdb.IfName m = None
       /\ forallb isLogLine logs = true.
Proof.
  intros Hget Hsnmp. unfold FillIfName, getCachedIfName, bind, call, ret.
  rewrite Hget. cbv beta iota zeta. rewrite Hsnmp.
  unfold putCachedIfName, bind, call.
  destruct (repository.PutCachedIfName _ (repo w2)) as [[msg|] r2]; simpl.
  - split; [reflexivity|]. eexists. exists [LogLine (sid le ++ " " ++ msg)].
    rewrite <- app_assoc. simpl. repeat split.
  - split; [reflexivity|]. eexists. exists []. repeat split.
Qed.

(** *** The handler from insert to update *)

Lemma FillIfName_keeps (le le1 : LinkEvent) (w : World R) :
  fst (FillIfName le w) = Done le1 ->
  sid le1 = sid le /\ hostName le1 = hostName le /\ ifAlias le1 = ifAlias le.
Proof.
  unfold FillIfName, getCachedIfName, putCachedIfName, bind, call, Println, ret.
  destruct (repository.GetCachedIfName _ _) as [[v [e|]] r]; cbv beta iota zeta.
  2: { intro H; inversion H; subst; simpl; auto. }
  destruct (getSNMPString _ _ _ _) as [[[v' [e'|]]|msg|] w1]; simpl; try discriminate.
  - intro H; inversion H; subst; auto.
  - destruct (repository.PutCachedIfName _ _) as [[e''|] r']; simpl;
      intro H; inversion H; subst; simpl; auto.
Qed.

Lemma FillIfAlias_keeps (le le1 : LinkEvent) (w : World R) :
  fst (FillIfAlias le w) = Done le1 ->
  sid le1 = sid le /\ hostName le1 = hostName le /\ ifName le1 = ifName le.
Proof.
  unfold FillIfAlias, getCachedIfAlias, putCachedIfAlias, bind, call, Println, ret.
  destruct (repository.GetCachedIfAlias _ _) as [[v [e|]] r]; cbv beta iota zeta.
  2: { intro H; inversion H; subst; simpl; auto. }
  destruct (getSNMPString _ _ _ _) as [[[v' [e'|]]|msg|] w1]; simpl; try discriminate.
  - intro H; inversion H; subst; auto.
  - destruct (repository.PutCachedIfAlias _ _) as [[e''|] r']; simpl;
      intro H; inversion H; subst; simpl; auto.
Qed.

(** Resolution never changes the correlation id. *)
Lemma FetchMissingData_keeps_sid (le le' : LinkEvent) (w : World R) :
  fst (FetchMissingData le w) = Done le' -> sid le' = sid le.
Proof.
  unfold FetchMissingData, bind.
  assert (H1 : forall le1 w1,
             (match hostName le with None => FillHostName le | Some _ => ret le end) w
             = (Done le1, w1) -> sid le1 = sid le).
  { intros le1 w1. destruct (hostName le).
    - intro H. now inversion H.
    - intro H. apply (f_equal fst) in H. now apply FillHostName_keeps in H. }
  destruct ((match hostName le with None => FillHostName le | Some _ => ret le end) w)
    as [[le1|msg|] w1]; try discriminate.
  specialize (H1 le1 w1 eq_refl).
  assert (H2 : forall le2 w2,
             (match ifName le1 with None => FillIfName le1 | Some _ => ret le1 end) w1
             = (Done le2, w2) -> sid le2 = sid le1).
  { intros le2 w2. destruct (ifName le1).
    - intro H. now inversion H.
    - intro H. apply (f_equal fst) in H. now apply FillIfName_keeps in H. }
  destruct ((match ifName le1 with None => FillIfName le1 | Some _ => ret le1 end) w1)
    as [[le2|msg|] w2]; try discriminate.
  specialize (H2 le2 w2 eq_refl).
  destruct (ifAlias le2).
  - simpl. intro H. inversion H. congruence.
  - intro H. apply FillIfAlias_keeps in H. destruct H as (H & _). congruence.
Qed.

(** Resolution makes neither an insert nor an update. *)
Lemma emits_FetchMissingData (id : string) (le : LinkEvent) :
  emits (R:=R) (FetchMissingData le) (followsInsert id).
Proof.
  unfold FetchMissingData.
  apply emits_bind.
  { destruct (hostName le); [apply emits_ret | apply emits_FillHostName; reflexivity]. }
  intro le1. apply emits_bind.
  { destruct (ifName le1); [apply emits_ret | apply emits_FillIfName; reflexivity]. }
  intro le2.
  destruct (ifAlias le2); [apply emits_ret | apply emits_FillIfAlias; reflexivity].
Qed.

(** The update carries the event's correlation id. *)
Lemma emits_updateLinkEvent (le : LinkEvent) :
  emits (R:=R) (updateLinkEvent le) (followsInsert (sid le)).
Proof.
  unfold updateLinkEvent.
  apply emits_bind.
  - apply emits_call. simpl. apply String.eqb_refl.
  - intros [msg|]; [|apply emits_ret].
    apply emits_bind; [now apply emits_Println | intros; apply emits_ret].
Qed.

(** What the handler does once the insert has gone through. *)
Lemma emits_after_insert (le : LinkEvent) :
  emits (R:=R)
    (bind (FetchMissingData le) (fun event2 =>
     bind (updateLinkEvent event2) (fun err' =>
       match err' with
       | Some msg =>
           bind (Println (sid event2 ++ " unable to update link event: " ++ msg))
                (fun _ => ret event2)
       | None => ret event2
       end)))
    (followsInsert (sid le)).
Proof.
  apply emits_bind_post with (P := fun event2 => sid event2 = sid le).
  - apply emits_FetchMissingData.
  - intros w a. apply FetchMissingData_keeps_sid.
  - intros event2 Hsid. rewrite <- Hsid.
    apply emits_bind; [apply emits_updateLinkEvent|].
    intros [msg|]; [|apply emits_ret].
    apply emits_bind; [now apply emits_Println | intros; apply emits_ret].
Qed.

Lemma FromSnmpPacket_Done (p : SnmpPacket) (addr : string) (le le' : LinkEvent) (w w' : World R) :
  FromSnmpPacket p addr le w = (Done le', w') ->
  sid le' = sid le
  /\ exists logs, trace w' = (trace w ++ logs)%list /\ forallb isLogLine logs = true.
Proof.
  unfold FromSnmpPacket, bind, lift.
  destruct (IsLinkEvent p) as [[|]|msg|]; simpl; try discriminate.
  - intro H. split.
    + now apply extractVariables_Done in H.
    + destruct (emits_extractVariables (Variables p) (set_ipAddress addr le) w)
        as (logs & E & F).
      rewrite H in E. simpl in E. eauto.
  - intro H. inversion H; subst. split; [reflexivity|].
    exists []. now rewrite app_nil_r.
Qed.

(** X20.  For a trap whose extraction returns: the handler first logs at most,
    then makes one insert, carrying the correlation id it drew; whatever it
    does after that contains no second insert, and updates for that
    correlation id only.  When the insert is refused, all that follows is
    a log line: no resolution and no update. *)
Lemma LinkEventHandler_insert_then_update
  (p : SnmpPacket) (addr community : string) (w w1 : World R) (event1 : LinkEvent) :
  let id := sidSource w (sidCount w) in
  FromSnmpPacket p addr
    {| sid := id; ifIndex := 0; ifAdminStatus := 0; ifOperStatus := 0;
       ifName := None; ifAlias := None; hostName := None; ipAddress := "";
       time := wallClock w; timeTicks := 0%N; community := community |}
    (snd (sidId w)) = (Done event1, w1) ->
  exists logs m rest,
    trace (snd (LinkEventHandler p addr community w))
    = (trace w ++ logs ++ SaveLinkEventCall m :: rest)%list
    /\ forallb isLogLine logs = true
    /\ flapdb.Sid m = id
    /\ forallb (followsInsert id) rest = true
    /\ (fst (repository.SaveLinkEvent m (repo w1)) <> None ->
        forallb isLogLine rest = true).
Proof.
  intros id Hx.
  destruct (FromSnmpPacket_Done _ _ _ _ Hx) as (Hsid & logs & Et & Fl).
  simpl in Hsid, Et.
  unfold LinkEventHandler, bind at 1 2 3, Now, sidId. simpl.
  unfold sidId in Hx. simpl in Hx. fold id. rewrite Hx.
  unfold bind at 1. unfold saveLinkEvent, bind at 1, call, Println, ret.
  set (m := {| flapdb.Sid := sid event1; flapdb.IfIndex := ifIndex event1;
               flapdb.IfAdminStatus := ifAdminStatus event1;
               flapdb.IfOperStatus := ifOperStatus event1;
               flapdb.IfName := ifName event1; flapdb.IfAlias := ifAlias event1;
               flapdb.HostName := hostName event1; flapdb.IpAddress := ipAddress event1;
               flapdb.Time := time event1; flapdb.TimeTicks := timeTicks event1 |}).
  destruct (timeTicks event1 =? 0)%N.
  - cbv beta iota zeta. simpl repo. simpl trace.
    destruct (repository.SaveLinkEvent m (repo w1)) as [[msg|] r] eqn:Es.
    + exists (logs ++ [LogLine "SNMP Trap has no timeTicks"])%list, m, [LogLine (sid event1 ++ " unable to save link event " ++ msg)].
      simpl. rewrite Et, <- !app_assoc. simpl.
      repeat split; auto. rewrite forallb_app, Fl. reflexivity.
    + destruct (emits_after_insert event1
                  (set_repo r (record (SaveLinkEventCall m)
                                 (record (LogLine "SNMP Trap has no timeTicks") w1))))
        as (rest & Er & Fr).
      exists (logs ++ [LogLine "SNMP Trap has no timeTicks"])%list, m, rest.
      rewrite Hsid in Fr.
      split; [|repeat split; auto].
      * etransitivity; [exact Er|]. simpl. rewrite Et, <- !app_assoc. reflexivity.
      * rewrite forallb_app, Fl. reflexivity.
      * rewrite Es. simpl. intro H. now destruct H.
  - cbv beta iota zeta. simpl repo. simpl trace.
    destruct (repository.SaveLinkEvent m (repo w1)) as [[msg|] r] eqn:Es.
    + exists logs, m, [LogLine (sid event1 ++ " unable to save link event " ++ msg)].
      simpl. rewrite Et, <- !app_assoc. simpl.
      repeat split; auto.
    + destruct (emits_after_insert event1
                  (set_repo r (record (SaveLinkEventCall m) w1)))
        as (rest & Er & Fr).
      exists logs, m, rest.
      rewrite Hsid in Fr.
      split; [|repeat split; auto].
      * etransitivity; [exact Er|]. simpl. rewrite Et, <- !app_assoc. reflexivity.
      * rewrite Es. simpl. intro H. now destruct H.
Qed.

(** C10, as amended.  Take an accepted trap with a binding whose name is
    under [ifAliasOIDPrefix] and whose value is a byte string, and suppose
    [FromSnmpPacket] returns, that is, no binding stopped the handler.
    Then the event has an ifName, which is that binding's value when no
    later binding has a name containing [ifNameVarBindPrefixJunOS]; the
    event's ifAlias is what it was before; and [FetchMissingData] on the
    event makes no call of the ifName resolution. *)
Theorem alias_binding_becomes_ifName
  (p : SnmpPacket) (addr : string) (le le' : LinkEvent) (w w' : World R)
  (pre post : list SnmpPDU) (name b : string) :
  IsLinkEvent p = Done true ->
  gosnmp.Variables p = (pre ++ mkPDU name (VBytes b) :: post)%list ->
  String.prefix ifAliasOIDPrefix name = true ->
  FromSnmpPacket p addr le w = (Done le', w') ->
  ifName le' <> None
  /\ (forallb (fun v => negb (strings.Contains (Name v) ifNameVarBindPrefixJunOS)) post = true ->
      ifName le' = Some b)
  /\ ifAlias le' = ifAlias le
  /\ emits (R:=R) (FetchMissingData le') (fun c => negb (resolvesIfName c)).
Proof.
  intros Hlink Hvars Hp Hrun.
  destruct (@FromSnmpPacket_alias_binding p addr le le' w w' pre post name b
              Hlink Hvars Hp Hrun) as (Hn & Hb & Ha).
  repeat apply conj; try assumption.
  now apply FetchMissingData_skips_ifName.
Qed.

(** *** Traps that are not link events *)

(** C6.  A trap whose event-type identifier, the value [getEventOID]
    finds under [oidReference], is neither [linkUP] nor [linkDOWN] leaves
    the world as it was: the record of calls has no new entry, so no
    insert, no update, no cache read or write and no SNMP query was made,
    and the store is untouched. *)
Theorem OnNewTrap_ignores_other_traps
  (community : string) (packet : SnmpPacket) (addr : string) (w : World R) :
  getEventOID packet <> Done linkUP ->
  getEventOID packet <> Done linkDOWN ->
  snd (main.OnNewTrap community packet addr w) = w
  /\ trace (snd (main.OnNewTrap community packet addr w)) = trace w
  /\ repo (snd (main.OnNewTrap community packet addr w)) = repo w.
Proof.
  intros Hup Hdown.
  assert (E : snd (main.OnNewTrap community packet addr w) = w).
  { unfold main.OnNewTrap, bind, lift, IsLinkEvent.
    destruct (getEventOID packet) as [oid|msg|]; try reflexivity.
    destruct (String.eqb oid linkUP) eqn:Eup.
    - apply String.eqb_eq in Eup. subst. now destruct Hup.
    - destruct (String.eqb oid linkDOWN) eqn:Edown.
      + apply String.eqb_eq in Edown. subst. now destruct Hdown.
      + reflexivity. }
  now rewrite E.
Qed.

End WithRepository.

(** A coldStart trap reaches neither the store nor the device. *)
Lemma OnNewTrap_ignores_other_traps_witness :
  let w := scenarios.world (scenarios.connector scenarios.noTables []) scenarios.healthyDevice in
  getEventOID scenarios.coldStartTrap = Done ".1.3.6.1.6.3.1.1.5.1"
  /\ trace (snd (main.OnNewTrap "public" scenarios.coldStartTrap "10.0.0.1" w)) = [].
Proof.
  intro w. split; [reflexivity|].
  apply (OnNewTrap_ignores_other_traps "public" scenarios.coldStartTrap "10.0.0.1" w).
  - simpl. discriminate.
  - simpl. discriminate.
Defined.

(** [aliasTrap], which carries ifAlias.3 and no ifName: the alias text is
    the event's ifName, the ifAlias is empty. *)
Lemma alias_binding_becomes_ifName_witness :
  let w := scenarios.world (scenarios.connector scenarios.noTables []) scenarios.healthyDevice in
  FromSnmpPacket scenarios.aliasTrap "10.0.0.1" scenarios.blankEvent w
    = (Done scenarios.aliasEvent, w)
  /\ ifName scenarios.aliasEvent = Some "uplink to core"
  /\ ifAlias scenarios.aliasEvent = None
  /\ emits (R:=flapdb.Connector) (FetchMissingData scenarios.aliasEvent)
       (fun c => negb (resolvesIfName c)).
Proof.
  intro w.
  assert (E : FromSnmpPacket scenarios.aliasTrap "10.0.0.1" scenarios.blankEvent w
              = (Done scenarios.aliasEvent, w)) by reflexivity.
  split; [exact E|].
  destruct (alias_binding_becomes_ifName
              scenarios.aliasTrap "10.0.0.1" scenarios.blankEvent w
              [scenarios.bind ".1.3.6.1.6.3.1.1.4.1.0" (VString ".1.3.6.1.6.3.1.1.5.3");
               scenarios.bind ".1.3.6.1.2.1.2.2.1.1.3" (VInt 3)]
              [] ".1.3.6.1.2.1.31.1.1.1.18.3" "uplink to core"
              eq_refl eq_refl eq_refl E) as (_ & Hb & Ha & He).
  split; [apply Hb; reflexivity|].
  split; [exact Ha | exact He].
Defined.

(** The claim as it is worded fails on two traps.  On [aliasShadowedTrap]
    the binding under the ifAlias prefix has a name that also contains
    [ifIndexOIDPrefix]; the earlier test of the loop takes it and nothing is
    stored.  On [aliasThenNameTrap] the ifName binding that follows
    replaces the alias text. *)
Lemma alias_binding_not_always_ifName :
  ~ (forall (p : SnmpPacket) (addr : string) (le : LinkEvent) (w : World flapdb.Connector)
            (pre post : list SnmpPDU) (name b : string),
        IsLinkEvent p = Done true ->
        gosnmp.Variables p = (pre ++ mkPDU name (VBytes b) :: post)%list ->
        String.prefix ifAliasOIDPrefix name = true ->
        exists le' w', FromSnmpPacket p addr le w = (Done le', w'))
  /\ ~ (forall (p : SnmpPacket) (addr : string) (le le' : LinkEvent)
               (w w' : World flapdb.Connector)
               (pre post : list SnmpPDU) (name b : string),
        IsLinkEvent p = Done true ->
        gosnmp.Variables p = (pre ++ mkPDU name (VBytes b) :: post)%list ->
        String.prefix ifAliasOIDPrefix name = true ->
        FromSnmpPacket p addr le w = (Done le', w') ->
        ifName le' = Some b).
Proof.
  set (w := scenarios.world (scenarios.connector scenarios.noTables []) scenarios.healthyDevice).
  split; intro H.
  - destruct (H scenarios.aliasShadowedTrap "10.0.0.1" scenarios.blankEvent w
                [scenarios.bind ".1.3.6.1.6.3.1.1.4.1.0" (VString ".1.3.6.1.6.3.1.1.5.3")]
                [] ".1.3.6.1.2.1.31.1.1.1.18.1.3.6.1.2.1.2.2.1.1" "uplink to core"
                eq_refl eq_refl eq_refl) as (le' & w' & E).
    vm_compute in E. discriminate E.
  - specialize (H scenarios.aliasThenNameTrap "10.0.0.1" scenarios.blankEvent
                  (set_ifName (Some "ge-0/0/3") scenarios.aliasEvent) w w
                  [scenarios.bind ".1.3.6.1.6.3.1.1.4.1.0" (VString ".1.3.6.1.6.3.1.1.5.3");
                   scenarios.bind ".1.3.6.1.2.1.2.2.1.1.3" (VInt 3)]
                  [scenarios.bind ".1.3.6.1.2.1.31.1.1.1.1.3" (VBytes "ge-0/0/3")]
                  ".1.3.6.1.2.1.31.1.1.1.18.3" "uplink to core"
                  eq_refl eq_refl eq_refl eq_refl).
    vm_compute in H. discriminate H.
Qed.

(** *** Evaluations *)

(** C2.  A linkDown trap whose ifIndex binding carries an octet string:
    the trap is accepted, and the unchecked assertion [variable.Value.(int)]
    panics.  Nothing is logged, the remaining bindings are not read.  The
    same happens on a binding for ifInOctets, a counter the decoder delivers
    as [uint], because its name contains [ifIndexOIDPrefix]. *)
Theorem FromSnmpPacket_panics_on_mistyped_ifIndex :
  let w := scenarios.world (scenarios.connector scenarios.noTables []) scenarios.healthyDevice in
  IsLinkEvent scenarios.mistypedIfIndexTrap = Done true
  /\ FromSnmpPacket scenarios.mistypedIfIndexTrap "10.0.0.1" scenarios.blankEvent w
     = (Panicked "interface conversion: interface {} is not int", w)
  /\ IsLinkEvent scenarios.counterTrap = Done true
  /\ FromSnmpPacket scenarios.counterTrap "10.0.0.1" scenarios.blankEvent w
     = (Panicked "interface conversion: interface {} is not int", w).
Proof. cbv zeta. repeat apply conj; reflexivity. Qed.

(** C3.  [FillIfName] on an empty cache, the device answering ["ge-0/0/3"]:
    one read of the cache, one query, one write; the event gets the name,
    but the model handed to [PutCachedIfName] has no [IfName], so the row
    written for the key holds [NULL].  Reading the key back fails to scan,
    and a second resolution queries the device again.  Where the column
    refuses [NULL] the [INSERT] fails and no row is written at all. *)
Theorem FillIfName_caches_no_value :
  let w := scenarios.world (scenarios.connector scenarios.noTables []) scenarios.healthyDevice in
  let w1 := snd (FillIfName scenarios.interface3Event w) in
  fst (FillIfName scenarios.interface3Event w)
    = Done (set_ifName (Some "ge-0/0/3") scenarios.interface3Event)
  /\ trace w1 =
       [GetCachedIfNameCall scenarios.interface3Key;
        SnmpGet ".1.3.6.1.2.1.31.1.1.1.1.3" "10.0.0.1" "public";
        PutCachedIfNameCall scenarios.interface3Key]
  /\ flapdb.IfName scenarios.interface3Key = None
  /\ flapdb.cache_ifname (flapdb.tables (flapdb.db (repo w1)))
       = [flapdb.mkIfRow "10.0.0.1" 3 None 1000]
  /\ fst (flapdb.GetCachedIfName scenarios.interface3Key (repo w1))
       = (None, Some flapdb.ErrScanNull)
  /\ filter isSnmp (trace (snd (FillIfName scenarios.interface3Event w1)))
       = [SnmpGet ".1.3.6.1.2.1.31.1.1.1.1.3" "10.0.0.1" "public";
          SnmpGet ".1.3.6.1.2.1.31.1.1.1.1.3" "10.0.0.1" "public"]
  /\ flapdb.cache_ifname
       (flapdb.tables (flapdb.db (repo (snd (FillIfName scenarios.interface3Event
          (scenarios.world
             (scenarios.connector scenarios.noTables
                [None; None; None; Some "Error 1048: Column 'ifName' cannot be null"])
             scenarios.healthyDevice))))))
       = [].
Proof. cbv zeta. repeat apply conj; vm_compute; reflexivity. Qed.

(** C4.  [getSNMPString] on a response that carries no variable binding:
    [pdu.Variables[0]] panics.  The deferred [Unlock] has run, but the
    caller gets no error value to handle. *)
Theorem getSNMPString_panics_on_empty_response :
  let w := scenarios.world (scenarios.connector scenarios.noTables []) scenarios.emptyAliasDevice in
  let r := getSNMPString ".1.3.6.1.2.1.31.1.1.1.18.3" "10.0.0.1" "public" w in
  scenarios.emptyAliasDevice ".1.3.6.1.2.1.31.1.1.1.18.3" "10.0.0.1" "public"
    = Responds {| Variables := [] |}
  /\ fst r = Panicked "index out of range [0] with length 0"
  /\ snmpSema (snd r) = false.
Proof. cbv zeta. repeat apply conj; reflexivity. Qed.

(** C5.  The handler on the accepted trap with the mistyped ifIndex: it
    panics in [FromSnmpPacket], before [saveLinkEvent]; no insert is made. *)
Theorem LinkEventHandler_no_insert_on_mistyped_trap :
  let w := scenarios.world (scenarios.connector scenarios.noTables []) scenarios.healthyDevice in
  let r := LinkEventHandler scenarios.mistypedIfIndexTrap "10.0.0.1" "public" w in
  IsLinkEvent scenarios.mistypedIfIndexTrap = Done true
  /\ fst r = Panicked "interface conversion: interface {} is not int"
  /\ filter isInsert (trace (snd r)) = []
  /\ flapdb.ports (flapdb.tables (flapdb.db (repo (snd r)))) = [].
Proof. cbv zeta. repeat apply conj; reflexivity. Qed.

(** C7.  The handler on [linkDownTrap] when the device answers the ifAlias
    query with a response that carries no variable binding: the failed
    resolution ends the handler, and no update is made although hostName
    and ifName were resolved.  With [flakyDevice] the host name fails on
    the connection, which is logged and survived, and the empty answer to
    the ifName query then ends the handler, again before the update. *)
Theorem LinkEventHandler_empty_response_is_fatal :
  let w := scenarios.world (scenarios.connector scenarios.noTables []) scenarios.emptyAliasDevice in
  let r := LinkEventHandler scenarios.linkDownTrap "10.0.0.1" "public" w in
  let w' := scenarios.world (scenarios.connector scenarios.noTables []) scenarios.flakyDevice in
  let r' := LinkEventHandler scenarios.linkDownTrap "10.0.0.1" "public" w' in
  fst r = Panicked "index out of range [0] with length 0"
  /\ List.length (filter isInsert (trace (snd r))) = 1%nat
  /\ filter isUpdate (trace (snd r)) = []
  /\ fst r' = Panicked "index out of range [0] with length 0"
  /\ filter isUpdate (trace (snd r')) = []
  /\ In (LogLine "sid-1 unable to get hostname via SNMP: dial udp: no route to host")
        (trace (snd r')).
Proof.
  cbv zeta. repeat apply conj; try (vm_compute; reflexivity).
  vm_compute. auto 10.
Qed.

End HandlerFacts.

(** ** The gate under interleaving *)

Module GateFacts.

Import gosnmp linkevent goroutines.

Local Open Scope nat_scope.

Section Counting.
Variable A : Type.
Variable P : A -> bool.

Lemma count_update (i : nat) (x t : A) (l : list A) :
  nth_error l i = Some t ->
  List.length (filter P (update i x l)) + (if P t then 1 else 0)
  = List.length (filter P l) + (if P x then 1 else 0).
Proof.
  revert i. induction l as [|y l IH]; intros [|i] H; simpl in *; try discriminate.
  - inversion H; subst. destruct (P t), (P x); simpl; lia.
  - specialize (IH i H). destruct (P y); simpl; lia.
Qed.

Lemma count_positive (i : nat) (a : A) (l : list A) :
  nth_error l i = Some a -> P a = true -> 1 <= List.length (filter P l).
Proof.
  revert i. induction l as [|y l IH]; intros [|i] H Ha; simpl in *; try discriminate.
  - inversion H; subst. rewrite Ha. simpl. lia.
  - specialize (IH i H Ha). destruct (P y); simpl; lia.
Qed.

Lemma count_at_most_one (l : list A) :
  List.length (filter P l) <= 1 ->
  forall i j a b, nth_error l i = Some a -> nth_error l j = Some b ->
                  P a = true -> P b = true -> i = j.
Proof.
  induction l as [|y l IH]; intros Hc [|i] [|j] a b Hi Hj Ha Hb; simpl in *;
    try discriminate; try reflexivity.
  - inversion Hi; subst. rewrite Ha in Hc. simpl in Hc.
    pose proof (count_positive _ _ Hj Hb). lia.
  - inversion Hj; subst. rewrite Hb in Hc. simpl in Hc.
    pose proof (count_positive _ _ Hi Ha). lia.
  - f_equal. apply (IH (ltac:(destruct (P y); simpl in Hc; lia)) i j a b); assumption.
Qed.

Lemma nth_error_update (i : nat) (x t : A) (l : list A) :
  nth_error l i = Some t -> nth_error (update i x l) i = Some x.
Proof.
  revert i. induction l as [|y l IH]; intros [|i] H; simpl in *; try discriminate.
  - reflexivity.
  - now apply IH.
Qed.
End Counting.

Lemma inFlight_holdsGate (t : Task) : inFlight t = true -> holdsGate t = true.
Proof. destruct t; simpl; congruence. Qed.

Section WithRepository.
Context {R : Type}.

(** The steps are the function: [getSNMPString] is [Lock], then
    [doSNMPRequest], then the rest under the deferred [Unlock]. *)
Lemma getSNMPString_in_steps (q : Query) (w : World R) :
  getSNMPString (q_oid q) (q_ip q) (q_community q) w = getSNMPStringInSteps q w.
Proof.
  unfold getSNMPString, getSNMPStringInSteps, bind, Lock, deferred, doSNMPRequest, readReply.
  destruct (snmpSema w); [reflexivity|].
  destruct (device _ _ _ _) as [msg|msg|[vars]]; simpl; try reflexivity;
    destruct vars as [|first rest]; simpl; try reflexivity;
    destruct (Value_ first); reflexivity.
Qed.

(** What follows [doSNMPRequest] touches nothing; the deferred [Unlock]
    runs whether it returns or panics. *)
Lemma deferred_readReply (r : option SnmpPacket * error) (w : World R) :
  deferred Unlock (readReply r) w = (fst (readReply r w), Unlock w)
  /\ fst (readReply r w) <> Blocked.
Proof.
  unfold deferred, readReply. destruct r as [[[vars]|] [msg|]]; simpl;
    try (split; [reflexivity | discriminate]).
  destruct vars as [|first rest]; simpl; [split; [reflexivity | discriminate]|].
  destruct (Value_ first); simpl; split; (reflexivity || discriminate).
Qed.

Lemma doSNMPRequest_returns (oid ip community : string) (w : World R) :
  exists r, doSNMPRequest oid ip community w = (Done r, snd (doSNMPRequest oid ip community w))
            /\ snmpSema (snd (doSNMPRequest oid ip community w)) = snmpSema w.
Proof.
  unfold doSNMPRequest. destruct (device w oid ip community); simpl; eauto.
Qed.

Lemma queriesInFlight_le_holders (s : System R) : queriesInFlight s <= holders s.
Proof.
  unfold queriesInFlight, holders. induction (pool s) as [|t l IH]; simpl; [lia|].
  destruct (inFlight t) eqn:E.
  - rewrite (inFlight_holdsGate _ E). simpl. lia.
  - destruct (holdsGate t); simpl; lia.
Qed.

Lemma boot_gateInvariant (w : World R) : snmpSema w = false -> gateInvariant (boot w).
Proof. intro H. unfold gateInvariant, holders. simpl. now rewrite H. Qed.

Lemma advance_gateInvariant (i : nat) (s : System R) :
  gateInvariant s -> gateInvariant (advance i s).
Proof.
  unfold gateInvariant, holders, advance. intro Inv.
  destruct (crashed s); [assumption|].
  destruct (nth_error (pool s) i) as [t|] eqn:Et; [|assumption].
  pose proof (fun x => count_update holdsGate i x _ Et) as Hu.
  pose proof (count_positive holdsGate _ _ Et) as Hp.
  destruct t as [[|q todo]|q todo|q todo|r todo|]; simpl in *; try assumption.
  - specialize (Hu (AtLock q todo)). simpl in Hu. lia.
  - unfold Lock. destruct (snmpSema (world s)) eqn:Emx; simpl; rewrite ?Emx; [assumption|].
    specialize (Hu (InDoSNMPRequest q todo)). simpl in Hu. lia.
  - destruct (doSNMPRequest_returns (q_oid q) (q_ip q) (q_community q) (world s))
      as (r & Er & Es).
    rewrite Er. simpl. rewrite Es.
    specialize (Hu (ReadingReply r todo)). simpl in Hu. lia.
  - specialize (Hp eq_refl).
    destruct (deferred_readReply r (world s)) as (Ed & Hnb). rewrite Ed.
    destruct (snmpSema (world s)) eqn:Emx; [|lia].
    destruct (fst (readReply r (world s))) as [v|msg|]; simpl.
    + specialize (Hu (Outside todo)). simpl in Hu. lia.
    + specialize (Hu Dead). simpl in Hu. lia.
    + now destruct Hnb.
Qed.

Lemma move_gateInvariant (m : Move R) (s : System R) :
  gateInvariant s -> gateInvariant (move m s).
Proof.
  destruct m as [todo|i|c effect]; [|apply advance_gateInvariant|].
  - unfold gateInvariant, holders, move. intro Inv.
    destruct (crashed s); [assumption|]. simpl.
    rewrite filter_app, length_app. simpl. lia.
  - unfold gateInvariant, holders, move. intro Inv.
    destruct (crashed s || isSnmp c)%bool; assumption.
Qed.

Lemma run_gateInvariant (schedule : list (Move R)) (s : System R) :
  gateInvariant s -> gateInvariant (run schedule s).
Proof.
  revert s. induction schedule as [|m schedule IH]; intros s Inv; [assumption|].
  apply IH. now apply move_gateInvariant.
Qed.

(** A step that issues a query is a step of the goroutine that holds the
    mutex. *)
Lemma query_only_under_gate (i : nat) (s : System R) :
  gateInvariant s ->
  filter isSnmp (trace (world (advance i s))) <> filter isSnmp (trace (world s)) ->
  snmpSema (world s) = true
  /\ exists q todo, nth_error (pool s) i = Some (InDoSNMPRequest q todo).
Proof.
  unfold gateInvariant, holders, advance. intros Inv H.
  destruct (crashed s); [now destruct H|].
  destruct (nth_error (pool s) i) as [t|] eqn:Et; [|now destruct H].
  pose proof (count_positive holdsGate _ _ Et) as Hp.
  destruct t as [[|q todo]|q todo|q todo|r todo|]; simpl in *; try now destruct H.
  - unfold Lock in H. destruct (snmpSema (world s)); simpl in H; now destruct H.
  - specialize (Hp eq_refl). split; [|eauto].
    destruct (snmpSema (world s)); [reflexivity | lia].
  - destruct (deferred_readReply r (world s)) as (Ed & Hnb). rewrite Ed in H.
    destruct (fst (readReply r (world s))); simpl in H; now destruct H.
Qed.

(** A goroutine scheduled alone through its steps leaves the world that
    [getSNMPString] leaves. *)
Lemma alone_is_getSNMPString (q : Query) (w : World R) :
  snmpSema w = false ->
  let alone := run [Spawn [q]; Advance 0; Advance 0; Advance 0; Advance 0] (boot w) in
  world alone = snd (getSNMPString (q_oid q) (q_ip q) (q_community q) w)
  /\ crashed alone
     = match fst (getSNMPString (q_oid q) (q_ip q) (q_community q) w) with
       | Panicked _ => true
       | _ => false
       end.
Proof.
  intros Hfree alone. subst alone. rewrite getSNMPString_in_steps.
  unfold getSNMPStringInSteps, bind, Lock. rewrite Hfree.
  destruct (doSNMPRequest_returns (q_oid q) (q_ip q) (q_community q) (set_snmpSema true w))
    as (r & Er & Es).
  destruct (deferred_readReply r (snd (doSNMPRequest (q_oid q) (q_ip q) (q_community q)
                                        (set_snmpSema true w)))) as (Ed & Hnb).
  set (w2 := snd (doSNMPRequest (q_oid q) (q_ip q) (q_community q) (set_snmpSema true w)))
    in *.
  change (run [Spawn [q]; Advance 0; Advance 0; Advance 0; Advance 0] (boot w))
    with (advance 0 (advance 0 (advance 0
            {| world := w; pool := [AtLock q []]; crashed := false |}))).
  assert (E3 : advance 0 {| world := w; pool := [AtLock q []]; crashed := false |}
               = {| world := set_snmpSema true w; pool := [InDoSNMPRequest q []];
                    crashed := false |}).
  { unfold advance. simpl. unfold Lock. now rewrite Hfree. }
  rewrite E3.
  assert (E4 : advance 0 {| world := set_snmpSema true w; pool := [InDoSNMPRequest q []];
                            crashed := false |}
               = {| world := w2; pool := [ReadingReply r []]; crashed := false |}).
  { unfold advance. simpl. now rewrite Er. }
  rewrite E4, Er. unfold advance. simpl. rewrite Ed.
  destruct (fst (readReply r w2)) as [v|msg|]; simpl; try (split; reflexivity).
  now destruct Hnb.
Qed.

(** C9.  However the scheduler interleaves the handlers started since
    boot with each other and with the rest of the process, and whatever the
    devices answer, at most one goroutine is inside [doSNMPRequest]: the
    number of queries in flight is at most one, two goroutines that are
    both in flight are the same goroutine, and a step that issues a query
    is taken with the mutex held, by the goroutine that is inside
    [doSNMPRequest].  The steps are those of [getSNMPString]: a goroutine
    scheduled alone through them leaves the world that [getSNMPString]
    leaves, and stops the process exactly when [getSNMPString] panics. *)
Theorem at_most_one_query_in_flight (w0 : World R) (schedule : list (Move R)) :
  snmpSema w0 = false ->
  let s := run schedule (boot w0) in
  queriesInFlight s <= 1
  /\ (forall i j ti tj,
        nth_error (pool s) i = Some ti -> nth_error (pool s) j = Some tj ->
        inFlight ti = true -> inFlight tj = true -> i = j)
  /\ (forall i,
        filter isSnmp (trace (world (advance i s))) <> filter isSnmp (trace (world s)) ->
        snmpSema (world s) = true
        /\ exists q todo, nth_error (pool s) i = Some (InDoSNMPRequest q todo))
  /\ (forall (q : Query) (w : World R),
        snmpSema w = false ->
        let alone := run [Spawn [q]; Advance 0; Advance 0; Advance 0; Advance 0] (boot w) in
        world alone = snd (getSNMPString (q_oid q) (q_ip q) (q_community q) w)
        /\ crashed alone
           = match fst (getSNMPString (q_oid q) (q_ip q) (q_community q) w) with
             | Panicked _ => true
             | _ => false
             end).
Proof.
  intros Hfree s.
  pose proof (run_gateInvariant schedule (boot_gateInvariant w0 Hfree)) as Inv.
  fold s in Inv.
  assert (Hc : queriesInFlight s <= 1).
  { pose proof (queriesInFlight_le_holders s) as Hle.
    unfold gateInvariant in Inv. destruct (snmpSema (world s)); lia. }
  repeat apply conj.
  - exact Hc.
  - apply count_at_most_one. exact Hc.
  - intros i H. now apply query_only_under_gate.
  - apply alone_is_getSNMPString.
Qed.

End WithRepository.

(** Two handlers that both ask 10.0.0.1 for its name: the first is inside
    [doSNMPRequest], the second stays in [Lock] however often it is
    scheduled, while the eviction loop logs a line; the first issues its
    query with the mutex held. *)
Lemma at_most_one_query_in_flight_witness :
  let w := scenarios.world (scenarios.connector scenarios.noTables []) scenarios.healthyDevice in
  let q := {| q_oid := ".1.3.6.1.2.1.1.5.0"; q_ip := "10.0.0.1"; q_community := "public" |} in
  let schedule :=
    [Spawn [q]; Spawn [q]; Advance 0; Advance 1; Advance 0; Advance 1;
     Elsewhere (LogLine "closing tx") (fun r => r); Advance 1] in
  let s := run schedule (boot w) in
  nth_error (pool s) 0 = Some (InDoSNMPRequest q [])
  /\ nth_error (pool s) 1 = Some (AtLock q [])
  /\ queriesInFlight s <= 1
  /\ filter isSnmp (trace (world (advance 0 s)))
     = [SnmpGet ".1.3.6.1.2.1.1.5.0" "10.0.0.1" "public"]
  /\ snmpSema (world s) = true.
Proof.
  intros w q schedule s.
  destruct (at_most_one_query_in_flight w schedule eq_refl) as (Hc & _ & Hq & _).
  fold s in Hc, Hq.
  split; [reflexivity|]. split; [reflexivity|]. split; [exact Hc|].
  split; [reflexivity|].
  apply (Hq 0). discriminate.
Defined.

End GateFacts.

(** ** More on the store *)

Module StoreMore.

Import flapdb StoreFacts.

Ltac run_store2 :=
  cbv beta iota zeta delta
    [CleanUp PutCachedHostname PutCachedIfName PutCachedIfAlias
     GetCachedHostname GetCachedIfName GetCachedIfAlias
     SaveLinkEvent UpdateLinkEvent
     onDB orReturn orLogReturn deferring deferredRollback sbind sret
     BeginTx nextFault txExecContext dbExecContext dbNamedExec dbGet
     Commit Rollback Println
     set_tx set_faults set_tables record_stmt record_log insertionTime
     db tables tx faults clock journal dblog fst snd
     cacheHostnameMinutes cacheIfNameMinutes cacheIfAliasMinutes
     commitTables pendCache applyCache applyPort
     onHostname onIfname onIfalias emptyTx
     tx_hostname tx_ifname tx_ifalias
     ports cache_hostname cache_ifname cache_ifalias].

Section Filters.
Variable A : Type.
Variables P Q : A -> bool.

Lemma filter_none_left (l : list A) :
  filter (fun r => Q r && P r) (filter (fun r => negb (P r)) l) = [].
Proof.
  induction l as [|a l IH]; [reflexivity|]. simpl.
  destruct (P a) eqn:E; simpl; [assumption|]. rewrite E, andb_false_r. assumption.
Qed.

Lemma filter_key_of_others (l : list A) :
  filter P (filter (fun r => negb (P r)) l) = [].
Proof.
  induction l as [|a l IH]; [reflexivity|]. simpl.
  destruct (P a) eqn:E; simpl; [assumption|]. now rewrite E.
Qed.

Lemma filter_others_twice (l : list A) :
  filter (fun r => negb (P r)) (filter (fun r => negb (P r)) l)
  = filter (fun r => negb (P r)) l.
Proof.
  induction l as [|a l IH]; [reflexivity|]. simpl.
  destruct (P a) eqn:E; simpl; [assumption|]. rewrite E. simpl. now rewrite IH.
Qed.
End Filters.

Section CommitBesideThePool.
Variable R : Type.
Variable eqb : R -> R -> bool.
Hypothesis eqb_eq : forall a b, eqb a b = true <-> a = b.

Lemma without_filter_app (P : R -> bool) (l extra : list R) :
  without eqb (l ++ extra) (filter P l)
  = (filter (fun r => negb (P r)) l ++ extra)%list.
Proof.
  induction l as [|a l IH]; [reflexivity|].
  simpl. destruct (P a) eqn:Ha; simpl.
  - change (without eqb (remove_first eqb a (a :: (l ++ extra))) (filter P l)
            = (filter (fun r => negb (P r)) l ++ extra)%list).
    now rewrite (@remove_first_head _ _ eqb_eq).
  - rewrite (@without_keep_head _ _ eqb_eq P) by
      (try assumption; apply Forall_forall; intros x Hx;
       now apply filter_In in Hx).
    now rewrite IH.
Qed.

(** A transaction deleted by [P] while rows were added through the pool:
    its commit takes away the rows it deleted and leaves the added ones. *)
Lemma commit_beside_pool (P : R -> bool) (l extra : list R) :
  commitTable eqb (l ++ extra) (txDelete eqb P l noPending)
  = (filter (fun r => negb (P r)) l ++ extra)%list.
Proof.
  unfold commitTable, txDelete, noPending. simpl.
  rewrite app_nil_r. apply without_filter_app.
Qed.
End CommitBesideThePool.

(** What the methods leave alone: the clock, the three time-to-live
    settings, and, for the writers, the handle's freedom from an open
    transaction. *)
Lemma PutCachedHostname_frame (m : Model) (c : Connector) :
  let c' := snd (PutCachedHostname m c) in
  clock (db c') = clock (db c)
  /\ cacheHostnameMinutes c' = cacheHostnameMinutes c
  /\ cacheIfNameMinutes c' = cacheIfNameMinutes c
  /\ cacheIfAliasMinutes c' = cacheIfAliasMinutes c
  /\ (tx (db c) = None -> tx (db c') = None).
Proof.
  destruct c as [[t x now f j lg] mn ma mh].
  split_faults f; run_store2; settle; try reflexivity; try (intro H; exact H).
Qed.

Lemma PutCachedIfAlias_frame (m : Model) (c : Connector) :
  let c' := snd (PutCachedIfAlias m c) in
  clock (db c') = clock (db c)
  /\ cacheHostnameMinutes c' = cacheHostnameMinutes c
  /\ cacheIfNameMinutes c' = cacheIfNameMinutes c
  /\ cacheIfAliasMinutes c' = cacheIfAliasMinutes c
  /\ (tx (db c) = None -> tx (db c') = None).
Proof.
  destruct c as [[t x now f j lg] mn ma mh].
  split_faults f; run_store2; settle; try reflexivity; try (intro H; exact H).
Qed.

Lemma PutCachedIfName_frame (m : Model) (c : Connector) :
  let c' := snd (PutCachedIfName m c) in
  clock (db c') = clock (db c)
  /\ cacheHostnameMinutes c' = cacheHostnameMinutes c
  /\ cacheIfNameMinutes c' = cacheIfNameMinutes c
  /\ cacheIfAliasMinutes c' = cacheIfAliasMinutes c
  /\ (tx (db c) = None -> tx (db c') = None).
Proof.
  destruct c as [[t x now f j lg] mn ma mh].
  split_faults f; run_store2; settle; try reflexivity; try (intro H; exact H).
Qed.

(** What [PutCachedIfName] can do to the tables. *)
Lemma PutCachedIfName_tables (m : Model) (c : Connector) :
  let before := tables (db c) in
  let err := fst (PutCachedIfName m c) in
  let after := tables (db (snd (PutCachedIfName m c))) in
  let fresh := mkIfRow (IpAddress m) (IfIndex m) (IfName m) (clock (db c)) in
  (err = None ->
     cache_ifname after =
       (filter (fun r => negb (ifKey (IpAddress m) (IfIndex m) r)) (cache_ifname before)
        ++ [fresh])%list)
  /\ (err <> None ->
      cache_ifname after = cache_ifname before
      \/ cache_ifname after = (cache_ifname before ++ [fresh])%list)
  /\ ports after = ports before
  /\ cache_hostname after = cache_hostname before
  /\ cache_ifalias after = cache_ifalias before.
Proof.
  destruct c as [[t x now f j lg] mn ma mh].
  destruct t as [pt ht nt at_].
  split_faults f; run_store2; settle; tables_eq;
    rewrite ?(@commit_beside_pool _ _ IfRow_eqb_eq); try reflexivity.
  all: try (left; reflexivity).
  all: try (right; reflexivity).
Qed.

(** *** Reads *)

Lemma scanFirst_value (vals : list (option string)) (v : string) :
  scanFirst vals = (Some v, None) -> In (Some v) vals.
Proof.
  destruct vals as [|[x|] vals]; simpl; intro H; inversion H. now left.
Qed.

Lemma scanFirst_error (vals : list (option string)) :
  snd (scanFirst vals) <> None -> fst (scanFirst vals) = None.
Proof. destruct vals as [|[x|] vals]; simpl; intro H; try reflexivity. now destruct H. Qed.

Lemma filter_nothing {A : Type} (P : A -> bool) (l : list A) :
  (forall a, In a l -> P a = false) -> filter P l = [].
Proof.
  induction l as [|a l IH]; intro H; [reflexivity|]. simpl.
  rewrite (H a (or_introl eq_refl)). apply IH. intros b Hb. apply H. now right.
Qed.

(** [c.db.Get] changes nothing but the list of failures to come; it fails
    when the driver fails, and otherwise scans the first selected row. *)
Lemma dbGet_reads (select : Tables -> Z -> list (option string)) (d : DB) :
  tables (snd (dbGet select d)) = tables d
  /\ clock (snd (dbGet select d)) = clock d
  /\ tx (snd (dbGet select d)) = tx d
  /\ journal (snd (dbGet select d)) = journal d
  /\ (forall v, fst (dbGet select d) = (Some v, None) ->
        scanFirst (select (tables d) (clock d)) = (Some v, None))
  /\ (snd (fst (dbGet select d)) <> None -> fst (fst (dbGet select d)) = None)
  /\ (hd None (faults d) = None ->
        fst (dbGet select d) = scanFirst (select (tables d) (clock d))).
Proof.
  destruct d as [t x now f j lg]. unfold dbGet, sbind, nextFault, sret. simpl.
  destruct f as [|[e|] f]; simpl; repeat apply conj; try reflexivity;
    try (intros v H; exact H); try (intros v H; discriminate H);
    try apply scanFirst_error; try (intro H; discriminate H).
Qed.

(** X5.  [GetCachedHostname] never changes a table.  A value it returns is
    the host name of a stored row of that address whose time is inside the
    time-to-live window at the time of the read; an error comes with a nil
    value; and when no row of the address is inside the window and the
    driver does not fail, the answer is [ErrNoRows], whether the address
    has expired rows or none. *)
Theorem GetCachedHostname_reads_live_rows (le : Model) (c : Connector) :
  let r := fst (GetCachedHostname le c) in
  let ttl := cacheHostnameMinutes c in
  let rows := cache_hostname (tables (db c)) in
  tables (db (snd (GetCachedHostname le c))) = tables (db c)
  /\ (forall v, r = (Some v, None) ->
        exists row, In row rows /\ h_ipaddress row = IpAddress le
                    /\ h_hostname row = Some v
                    /\ withinTTL (clock (db c)) ttl (h_time row) = true)
  /\ (snd r <> None -> fst r = None)
  /\ (hd None (faults (db c)) = None ->
      (forall row, In row rows -> h_ipaddress row = IpAddress le ->
                   withinTTL (clock (db c)) ttl (h_time row) = false) ->
      r = (None, Some ErrNoRows)).
Proof.
  destruct c as [d mn ma mh]. unfold GetCachedHostname, onDB. simpl.
  pose proof (dbGet_reads (selecthostnameWhereTime mh (IpAddress le)) d)
    as (Ht & _ & _ & _ & Hv & He & Hok).
  destruct (dbGet (selecthostnameWhereTime mh (IpAddress le)) d) as [r d'] eqn:E.
  simpl in *. repeat apply conj.
  - exact Ht.
  - intros v Hr. apply Hv in Hr. apply scanFirst_value in Hr.
    unfold selecthostnameWhereTime in Hr. apply in_map_iff in Hr.
    destruct Hr as (row & Hval & Hin). apply filter_In in Hin.
    destruct Hin as (Hin & Hp). apply andb_true_iff in Hp. destruct Hp as (Hlive & Hkey).
    exists row. repeat split; try assumption. now apply String.eqb_eq in Hkey.
  - exact He.
  - intros Hf Hnone. rewrite (Hok Hf). unfold selecthostnameWhereTime.
    rewrite filter_nothing; [reflexivity|].
    intros row Hin. unfold hostKey.
    destruct (String.eqb (h_ipaddress row) (IpAddress le)) eqn:Ek.
    + apply String.eqb_eq in Ek. now rewrite (Hnone row Hin Ek).
    + apply andb_false_r.
Qed.

(** X6.  The same for the two interface caches, whose key is the address
    and the interface index. *)
Theorem GetCachedIfName_GetCachedIfAlias_read_live_rows (le : Model) (c : Connector) :
  (tables (db (snd (GetCachedIfName le c))) = tables (db c)
   /\ (forall v, fst (GetCachedIfName le c) = (Some v, None) ->
         exists row, In row (cache_ifname (tables (db c)))
                     /\ i_ipaddress row = IpAddress le /\ i_ifIndex row = IfIndex le
                     /\ i_value row = Some v
                     /\ withinTTL (clock (db c)) (cacheIfNameMinutes c) (i_time row) = true)
   /\ (hd None (faults (db c)) = None ->
       (forall row, In row (cache_ifname (tables (db c))) ->
                    i_ipaddress row = IpAddress le -> i_ifIndex row = IfIndex le ->
                    withinTTL (clock (db c)) (cacheIfNameMinutes c) (i_time row) = false) ->
       fst (GetCachedIfName le c) = (None, Some ErrNoRows)))
  /\ (tables (db (snd (GetCachedIfAlias le c))) = tables (db c)
      /\ (forall v, fst (GetCachedIfAlias le c) = (Some v, None) ->
            exists row, In row (cache_ifalias (tables (db c)))
                        /\ i_ipaddress row = IpAddress le /\ i_ifIndex row = IfIndex le
                        /\ i_value row = Some v
                        /\ withinTTL (clock (db c)) (cacheIfAliasMinutes c) (i_time row) = true)
      /\ (hd None (faults (db c)) = None ->
          (forall row, In row (cache_ifalias (tables (db c))) ->
                       i_ipaddress row = IpAddress le -> i_ifIndex row = IfIndex le ->
                       withinTTL (clock (db c)) (cacheIfAliasMinutes c) (i_time row) = false) ->
          fst (GetCachedIfAlias le c) = (None, Some ErrNoRows))).
Proof.
  destruct c as [d mn ma mh]. unfold GetCachedIfName, GetCachedIfAlias, onDB. simpl.
  split.
  - pose proof (dbGet_reads (selectIfName mn (IpAddress le) (IfIndex le)) d)
      as (Ht & _ & _ & _ & Hv & _ & Hok).
    destruct (dbGet (selectIfName mn (IpAddress le) (IfIndex le)) d) as [r d'] eqn:E.
    simpl in *. repeat apply conj.
    + exact Ht.
    + intros v Hr. apply Hv in Hr. apply scanFirst_value in Hr.
      unfold selectIfName in Hr. apply in_map_iff in Hr.
      destruct Hr as (row & Hval & Hin). apply filter_In in Hin.
      destruct Hin as (Hin & Hp). apply andb_true_iff in Hp. destruct Hp as (Hlive & Hkey).
      unfold ifKey in Hkey. apply andb_true_iff in Hkey. destruct Hkey as (Hip & Hix).
      exists row. repeat split; try assumption.
      * now apply String.eqb_eq in Hip.
      * now apply Z.eqb_eq in Hix.
    + intros Hf Hnone. rewrite (Hok Hf). unfold selectIfName.
      rewrite filter_nothing; [reflexivity|].
      intros row Hin. unfold ifKey.
      destruct (String.eqb (i_ipaddress row) (IpAddress le)) eqn:Ek;
        [|now rewrite andb_false_r].
      destruct (i_ifIndex row =? IfIndex le) eqn:Ex; [|now rewrite andb_false_r].
      apply String.eqb_eq in Ek. apply Z.eqb_eq in Ex. now rewrite (Hnone row Hin Ek Ex).
  - pose proof (dbGet_reads (selectIfAlias ma (IpAddress le) (IfIndex le)) d)
      as (Ht & _ & _ & _ & Hv & _ & Hok).
    destruct (dbGet (selectIfAlias ma (IpAddress le) (IfIndex le)) d) as [r d'] eqn:E.
    simpl in *. repeat apply conj.
    + exact Ht.
    + intros v Hr. apply Hv in Hr. apply scanFirst_value in Hr.
      unfold selectIfAlias in Hr. apply in_map_iff in Hr.
      destruct Hr as (row & Hval & Hin). apply filter_In in Hin.
      destruct Hin as (Hin & Hp). apply andb_true_iff in Hp. destruct Hp as (Hlive & Hkey).
      unfold ifKey in Hkey. apply andb_true_iff in Hkey. destruct Hkey as (Hip & Hix).
      exists row. repeat split; try assumption.
      * now apply String.eqb_eq in Hip.
      * now apply Z.eqb_eq in Hix.
    + intros Hf Hnone. rewrite (Hok Hf). unfold selectIfAlias.
      rewrite filter_nothing; [reflexivity|].
      intros row Hin. unfold ifKey.
      destruct (String.eqb (i_ipaddress row) (IpAddress le)) eqn:Ek;
        [|now rewrite andb_false_r].
      destruct (i_ifIndex row =? IfIndex le) eqn:Ex; [|now rewrite andb_false_r].
      apply String.eqb_eq in Ek. apply Z.eqb_eq in Ex. now rewrite (Hnone row Hin Ek Ex).
Qed.

(** *** Writes *)

Lemma window_is_the_ttl (now minutes time : Z) :
  withinTTL now minutes time = (now <? time + 60 * minutes).
Proof.
  unfold withinTTL. rewrite Z.gtb_ltb.
  destruct (Z.ltb_spec (now - 60 * minutes) time), (Z.ltb_spec now (time + 60 * minutes));
    (reflexivity || lia).
Qed.

(** X1.  [PutCachedHostname]: when it returns [nil] the address has exactly
    one row, the one just written, and the rows of the other addresses are
    the same rows in the same order; when it returns an error the tables
    are as they were.  It never changes another table. *)
Theorem PutCachedHostname_replaces_the_key (m : Model) (c : Connector) :
  let before := tables (db c) in
  let err := fst (PutCachedHostname m c) in
  let after := tables (db (snd (PutCachedHostname m c))) in
  let key := hostKey (IpAddress m) in
  (err = None ->
     filter key (cache_hostname after)
       = [mkHostRow (IpAddress m) (HostName m) (clock (db c))]
     /\ filter (fun r => negb (key r)) (cache_hostname after)
       = filter (fun r => negb (key r)) (cache_hostname before))
  /\ (err <> None -> after = before)
  /\ ports after = ports before
  /\ cache_ifname after = cache_ifname before
  /\ cache_ifalias after = cache_ifalias before.
Proof.
  pose proof (PutCachedHostname_all_or_nothing m c) as (Hok & Herr & _).
  cbv zeta in *.
  destruct (fst (PutCachedHostname m c)) as [e|] eqn:Ee.
  - rewrite Herr by discriminate. repeat apply conj; try reflexivity.
    intro H; discriminate H.
  - rewrite (Hok eq_refl). simpl. repeat apply conj; try reflexivity.
    + intros _. split.
      * rewrite filter_app, filter_key_of_others. simpl.
        unfold hostKey. simpl. now rewrite String.eqb_refl.
      * rewrite filter_app, filter_others_twice. simpl.
        unfold hostKey. simpl. rewrite String.eqb_refl. simpl. apply app_nil_r.
    + intro H. now destruct H.
Qed.

(** X2.  [PutCachedIfAlias] does the same for the key made of the address
    and the interface index. *)
Theorem PutCachedIfAlias_replaces_the_key (m : Model) (c : Connector) :
  let before := tables (db c) in
  let err := fst (PutCachedIfAlias m c) in
  let after := tables (db (snd (PutCachedIfAlias m c))) in
  let key := ifKey (IpAddress m) (IfIndex m) in
  (err = None ->
     filter key (cache_ifalias after)
       = [mkIfRow (IpAddress m) (IfIndex m) (IfAlias m) (clock (db c))]
     /\ filter (fun r => negb (key r)) (cache_ifalias after)
       = filter (fun r => negb (key r)) (cache_ifalias before))
  /\ (err <> None -> after = before)
  /\ ports after = ports before
  /\ cache_hostname after = cache_hostname before
  /\ cache_ifname after = cache_ifname before.
Proof.
  pose proof (PutCachedIfAlias_all_or_nothing m c) as (Hok & Herr & _).
  cbv zeta in *.
  destruct (fst (PutCachedIfAlias m c)) as [e|] eqn:Ee.
  - rewrite Herr by discriminate. repeat apply conj; try reflexivity.
    intro H; discriminate H.
  - rewrite (Hok eq_refl). simpl. repeat apply conj; try reflexivity.
    + intros _. split.
      * rewrite filter_app, filter_key_of_others. simpl.
        unfold ifKey. simpl. now rewrite String.eqb_refl, Z.eqb_refl.
      * rewrite filter_app, filter_others_twice. simpl.
        unfold ifKey. simpl. rewrite String.eqb_refl, Z.eqb_refl. simpl. apply app_nil_r.
    + intro H. now destruct H.
Qed.

(** X3.  [PutCachedIfName], whose [INSERT] goes to the pool: when it
    returns [nil] the key has exactly one row, the one just written, and the
    other keys keep their rows; when it returns an error no row that was
    stored is lost, and at most the one new row has been added.  It never
    changes another table. *)
Theorem PutCachedIfName_never_loses_a_row (m : Model) (c : Connector) :
  let before := tables (db c) in
  let err := fst (PutCachedIfName m c) in
  let after := tables (db (snd (PutCachedIfName m c))) in
  let key := ifKey (IpAddress m) (IfIndex m) in
  (err = None ->
     filter key (cache_ifname after)
       = [mkIfRow (IpAddress m) (IfIndex m) (IfName m) (clock (db c))]
     /\ filter (fun r => negb (key r)) (cache_ifname after)
       = filter (fun r => negb (key r)) (cache_ifname before))
  /\ (err <> None ->
      (forall r, In r (cache_ifname before) -> In r (cache_ifname after))
      /\ (List.length (cache_ifname after) <= S (List.length (cache_ifname before)))%nat)
  /\ ports after = ports before
  /\ cache_hostname after = cache_hostname before
  /\ cache_ifalias after = cache_ifalias before.
Proof.
  pose proof (PutCachedIfName_tables m c) as (Hok & Herr & Hp & Hh & Ha).
  cbv zeta in *. repeat apply conj; try assumption.
  - intro He. rewrite (Hok He). split.
    + rewrite filter_app, filter_key_of_others. simpl.
      unfold ifKey. simpl. now rewrite String.eqb_refl, Z.eqb_refl.
    + rewrite filter_app, filter_others_twice. simpl.
      unfold ifKey. simpl. rewrite String.eqb_refl, Z.eqb_refl. simpl. apply app_nil_r.
  - intro He. destruct (Herr He) as [E|E]; rewrite E.
    + split; [auto | lia].
    + split.
      * intros r Hin. apply in_or_app. now left.
      * rewrite length_app. simpl. lia.
Qed.

Lemma GetCachedHostname_fst (le : Model) (c : Connector) :
  fst (GetCachedHostname le c)
  = fst (dbGet (selecthostnameWhereTime (cacheHostnameMinutes c) (IpAddress le)) (db c)).
Proof. unfold GetCachedHostname, onDB. now destruct (dbGet _ (db c)). Qed.

Lemma GetCachedIfName_fst (le : Model) (c : Connector) :
  fst (GetCachedIfName le c)
  = fst (dbGet (selectIfName (cacheIfNameMinutes c) (IpAddress le) (IfIndex le)) (db c)).
Proof. unfold GetCachedIfName, onDB. now destruct (dbGet _ (db c)). Qed.

Lemma GetCachedIfAlias_fst (le : Model) (c : Connector) :
  fst (GetCachedIfAlias le c)
  = fst (dbGet (selectIfAlias (cacheIfAliasMinutes c) (IpAddress le) (IfIndex le)) (db c)).
Proof. unfold GetCachedIfAlias, onDB. now destruct (dbGet _ (db c)). Qed.

(** A read after a write that returned [nil]: the value is served while
    the row written is inside the window of the read. *)
Lemma PutCachedHostname_then_Get (m le : Model) (c : Connector) (v : string) (now : Z) :
  IpAddress le = IpAddress m ->
  HostName m = Some v ->
  fst (PutCachedHostname m c) = None ->
  hd None (faults (db (snd (PutCachedHostname m c)))) = None ->
  fst (GetCachedHostname le (later now (snd (PutCachedHostname m c))))
  = if now <? clock (db c) + 60 * cacheHostnameMinutes c
    then (Some v, None) else (None, Some ErrNoRows).
Proof.
  intro Hip.
  intros Hv Hput Hf.
  pose proof (PutCachedHostname_all_or_nothing m c) as (Hok & _ & _).
  pose proof (PutCachedHostname_frame m c) as (Hclock & Hmh & _).
  cbv zeta in *. specialize (Hok Hput).
  rewrite GetCachedHostname_fst.
  destruct (dbGet_reads (selecthostnameWhereTime
              (cacheHostnameMinutes (later now (snd (PutCachedHostname m c))))
              (IpAddress le))
              (db (later now (snd (PutCachedHostname m c)))))
    as (_ & _ & _ & _ & _ & _ & Hget).
  rewrite (Hget Hf).
  change (tables (db (later now (snd (PutCachedHostname m c)))))
    with (tables (db (snd (PutCachedHostname m c)))).
  change (clock (db (later now (snd (PutCachedHostname m c))))) with now.
  change (cacheHostnameMinutes (later now (snd (PutCachedHostname m c))))
    with (cacheHostnameMinutes (snd (PutCachedHostname m c))).
  rewrite Hok, Hmh, Hip. unfold selecthostnameWhereTime. simpl.
  rewrite filter_app, filter_none_left. simpl.
  rewrite (window_is_the_ttl _ _ _). unfold hostKey. simpl.
  rewrite String.eqb_refl, Hv.
  match goal with |- context [now <? ?b] => destruct (now <? b) end; reflexivity.
Qed.

Lemma PutCachedIfAlias_then_Get (m le : Model) (c : Connector) (v : string) (now : Z) :
  IpAddress le = IpAddress m ->
  IfIndex le = IfIndex m ->
  IfAlias m = Some v ->
  fst (PutCachedIfAlias m c) = None ->
  hd None (faults (db (snd (PutCachedIfAlias m c)))) = None ->
  fst (GetCachedIfAlias le (later now (snd (PutCachedIfAlias m c))))
  = if now <? clock (db c) + 60 * cacheIfAliasMinutes c
    then (Some v, None) else (None, Some ErrNoRows).
Proof.
  intro Hip.
  intros Hix Hv Hput Hf.
  pose proof (PutCachedIfAlias_all_or_nothing m c) as (Hok & _ & _).
  pose proof (PutCachedIfAlias_frame m c) as (Hclock & _ & _ & Hma & _).
  cbv zeta in *. specialize (Hok Hput).
  rewrite GetCachedIfAlias_fst.
  destruct (dbGet_reads (selectIfAlias
              (cacheIfAliasMinutes (later now (snd (PutCachedIfAlias m c))))
              (IpAddress le) (IfIndex le))
              (db (later now (snd (PutCachedIfAlias m c)))))
    as (_ & _ & _ & _ & _ & _ & Hget).
  rewrite (Hget Hf).
  change (tables (db (later now (snd (PutCachedIfAlias m c)))))
    with (tables (db (snd (PutCachedIfAlias m c)))).
  change (clock (db (later now (snd (PutCachedIfAlias m c))))) with now.
  change (cacheIfAliasMinutes (later now (snd (PutCachedIfAlias m c))))
    with (cacheIfAliasMinutes (snd (PutCachedIfAlias m c))).
  rewrite Hok, Hma, Hip, Hix. unfold selectIfAlias. simpl.
  rewrite filter_app, filter_none_left. simpl.
  rewrite (window_is_the_ttl _ _ _). unfold ifKey. simpl.
  rewrite String.eqb_refl, Z.eqb_refl, Hv.
  match goal with |- context [now <? ?b] => destruct (now <? b) end; reflexivity.
Qed.

Lemma PutCachedIfName_then_Get (m le : Model) (c : Connector) (v : string) (now : Z) :
  IpAddress le = IpAddress m ->
  IfIndex le = IfIndex m ->
  IfName m = Some v ->
  fst (PutCachedIfName m c) = None ->
  hd None (faults (db (snd (PutCachedIfName m c)))) = None ->
  fst (GetCachedIfName le (later now (snd (PutCachedIfName m c))))
  = if now <? clock (db c) + 60 * cacheIfNameMinutes c
    then (Some v, None) else (None, Some ErrNoRows).
Proof.
  intro Hip.
  intros Hix Hv Hput Hf.
  pose proof (PutCachedIfName_tables m c) as (Hok & _ & Hp & Hh & Ha).
  pose proof (PutCachedIfName_frame m c) as (Hclock & _ & Hmn & _).
  cbv zeta in *. specialize (Hok Hput).
  rewrite GetCachedIfName_fst.
  destruct (dbGet_reads (selectIfName
              (cacheIfNameMinutes (later now (snd (PutCachedIfName m c))))
              (IpAddress le) (IfIndex le))
              (db (later now (snd (PutCachedIfName m c)))))
    as (_ & _ & _ & _ & _ & _ & Hget).
  rewrite (Hget Hf).
  change (tables (db (later now (snd (PutCachedIfName m c)))))
    with (tables (db (snd (PutCachedIfName m c)))).
  change (clock (db (later now (snd (PutCachedIfName m c))))) with now.
  change (cacheIfNameMinutes (later now (snd (PutCachedIfName m c))))
    with (cacheIfNameMinutes (snd (PutCachedIfName m c))).
  rewrite Hmn, Hip, Hix. unfold selectIfName. rewrite Hok.
  rewrite filter_app, filter_none_left. simpl.
  rewrite (window_is_the_ttl _ _ _). unfold ifKey. simpl.
  rewrite String.eqb_refl, Z.eqb_refl, Hv.
  match goal with |- context [now <? ?b] => destruct (now <? b) end; reflexivity.
Qed.

(** With a driver that fails no call and no transaction open, a read
    returns what the tables hold and changes nothing, and a write is
    accepted. *)
Lemma healthy_GetCachedHostname (le : Model) (c : Connector) :
  faults (db c) = [] ->
  GetCachedHostname le c
  = (scanFirst (selecthostnameWhereTime (cacheHostnameMinutes c) (IpAddress le)
                  (tables (db c)) (clock (db c))), c).
Proof.
  destruct c as [[t x now f j lg] mn ma mh]. simpl. intro H. subst f. reflexivity.
Qed.

Lemma healthy_GetCachedIfAlias (le : Model) (c : Connector) :
  faults (db c) = [] ->
  GetCachedIfAlias le c
  = (scanFirst (selectIfAlias (cacheIfAliasMinutes c) (IpAddress le) (IfIndex le)
                  (tables (db c)) (clock (db c))), c).
Proof.
  destruct c as [[t x now f j lg] mn ma mh]. simpl. intro H. subst f. reflexivity.
Qed.

Lemma healthy_PutCachedHostname (m : Model) (c : Connector) :
  faults (db c) = [] -> tx (db c) = None ->
  fst (PutCachedHostname m c) = None
  /\ faults (db (snd (PutCachedHostname m c))) = [].
Proof.
  destruct c as [[t x now f j lg] mn ma mh]. simpl. intros H H'. subst f x.
  split; reflexivity.
Qed.

Lemma healthy_PutCachedIfAlias (m : Model) (c : Connector) :
  faults (db c) = [] -> tx (db c) = None ->
  fst (PutCachedIfAlias m c) = None
  /\ faults (db (snd (PutCachedIfAlias m c))) = [].
Proof.
  destruct c as [[t x now f j lg] mn ma mh]. simpl. intros H H'. subst f x.
  split; reflexivity.
Qed.

(** X4.  Write, then read.  A [Put] that returned [nil] with a non-nil
    value is served for the time-to-live of its cache and not longer: a
    [Get] for the same key that the driver does not fail returns the value
    while less than that many minutes have passed on the server's clock,
    and [ErrNoRows] from then on.  This holds for the three caches, for
    [PutCachedIfName] when its model carries the name. *)
Theorem Put_then_Get_within_the_window
  (m le : Model) (c : Connector) (v : string) (now : Z) :
  IpAddress le = IpAddress m ->
  (HostName m = Some v ->
   fst (PutCachedHostname m c) = None ->
   hd None (faults (db (snd (PutCachedHostname m c)))) = None ->
   fst (GetCachedHostname le (later now (snd (PutCachedHostname m c))))
   = if now <? clock (db c) + 60 * cacheHostnameMinutes c
     then (Some v, None) else (None, Some ErrNoRows))
  /\ (IfIndex le = IfIndex m ->
      IfAlias m = Some v ->
      fst (PutCachedIfAlias m c) = None ->
      hd None (faults (db (snd (PutCachedIfAlias m c)))) = None ->
      fst (GetCachedIfAlias le (later now (snd (PutCachedIfAlias m c))))
      = if now <? clock (db c) + 60 * cacheIfAliasMinutes c
        then (Some v, None) else (None, Some ErrNoRows))
  /\ (IfIndex le = IfIndex m ->
      IfName m = Some v ->
      fst (PutCachedIfName m c) = None ->
      hd None (faults (db (snd (PutCachedIfName m c)))) = None ->
      fst (GetCachedIfName le (later now (snd (PutCachedIfName m c))))
      = if now <? clock (db c) + 60 * cacheIfNameMinutes c
        then (Some v, None) else (None, Some ErrNoRows)).
Proof.
  intro Hip. repeat apply conj.
  - intros. now apply PutCachedHostname_then_Get.
  - intros. now apply PutCachedIfAlias_then_Get.
  - intros. now apply PutCachedIfName_then_Get.
Qed.

(** *** The event table *)

Lemma updateRow_other (sid : string) (h n a : option string) (l : list PortRow) :
  (forall r, In r l -> p_sid r <> sid) -> map (updateRow sid h n a) l = l.
Proof.
  induction l as [|r l IH]; intro H; [reflexivity|]. simpl.
  rewrite IH by (intros x Hx; apply H; now right).
  unfold updateRow. destruct (String.eqb (p_sid r) sid) eqn:E; [|reflexivity].
  apply String.eqb_eq in E. now destruct (H r (or_introl eq_refl)).
Qed.

Lemma UpdateLinkEvent_tables (le : Model) (c : Connector) :
  let before := tables (db c) in
  let err := fst (UpdateLinkEvent le c) in
  let after := tables (db (snd (UpdateLinkEvent le c))) in
  (err = None ->
     after = {| ports := map (updateRow (Sid le) (HostName le) (IfName le) (IfAlias le))
                             (ports before);
                cache_hostname := cache_hostname before;
                cache_ifname := cache_ifname before;
                cache_ifalias := cache_ifalias before |})
  /\ (err <> None -> after = before).
Proof.
  destruct c as [[t x now f j lg] mn ma mh]. destruct t as [pt ht nt at_].
  destruct f as [|[e|] f]; run_store2; settle; reflexivity.
Qed.

Lemma SaveLinkEvent_tables (le : Model) (c : Connector) :
  let before := tables (db c) in
  let err := fst (SaveLinkEvent le c) in
  let after := tables (db (snd (SaveLinkEvent le c))) in
  (err = None ->
     after = {| ports := (ports before ++
                  [{| p_ipaddress := IpAddress le; p_hostname := HostName le;
                      p_ifIndex := IfIndex le; p_ifName := IfName le;
                      p_ifAlias := IfAlias le;
                      p_ifAdminStatus := statusText (IfAdminStatus le) ifAdminStatusUP;
                      p_ifOperStatus := statusText (IfOperStatus le) ifOperStatusUP;
                      p_time := Time le; p_sid := Sid le;
                      p_timeTicks := TimeTicks le |}])%list;
                cache_hostname := cache_hostname before;
                cache_ifname := cache_ifname before;
                cache_ifalias := cache_ifalias before |})
  /\ (err <> None -> after = before).
Proof.
  destruct c as [[t x now f j lg] mn ma mh]. destruct t as [pt ht nt at_].
  destruct f as [|[e|] f]; run_store2; destruct (TimeTicks le =? 0)%N;
    run_store2; settle; reflexivity.
Qed.

(** X7.  [UpdateLinkEvent] rewrites the three metadata columns of the rows
    that carry the model's correlation id, with the model's values, nil
    included, and nothing else.  When it returns [nil] the event table is
    the old one, row by row and in the same order, with exactly the rows of
    that correlation id rewritten: every such row has the three columns
    replaced and its other columns as they were.  The number of rows, the
    rows of other correlation ids and the cache tables stay.  For a
    correlation id that no row carries it changes nothing; a refused
    statement changes nothing. *)
Theorem UpdateLinkEvent_touches_only_its_sid (le : Model) (c : Connector) :
  let before := tables (db c) in
  let err := fst (UpdateLinkEvent le c) in
  let after := tables (db (snd (UpdateLinkEvent le c))) in
  let rewritten (r : PortRow) : PortRow :=
    {| p_ipaddress := p_ipaddress r; p_hostname := HostName le; p_ifIndex := p_ifIndex r;
       p_ifName := IfName le; p_ifAlias := IfAlias le;
       p_ifAdminStatus := p_ifAdminStatus r; p_ifOperStatus := p_ifOperStatus r;
       p_time := p_time r; p_sid := p_sid r; p_timeTicks := p_timeTicks r |} in
  (err = None ->
     ports after
     = map (fun r => if String.eqb (p_sid r) (Sid le) then rewritten r else r) (ports before))
  /\ (err = None ->
      forall r, In r (ports before) -> p_sid r = Sid le -> In (rewritten r) (ports after))
  /\ List.length (ports after) = List.length (ports before)
  /\ (forall r, In r (ports before) -> p_sid r <> Sid le -> In r (ports after))
  /\ (forall r', In r' (ports after) ->
        In r' (ports before)
        \/ (p_sid r' = Sid le /\ p_hostname r' = HostName le
            /\ p_ifName r' = IfName le /\ p_ifAlias r' = IfAlias le
            /\ exists r, In r (ports before)
                 /\ p_ipaddress r' = p_ipaddress r /\ p_ifIndex r' = p_ifIndex r
                 /\ p_ifAdminStatus r' = p_ifAdminStatus r
                 /\ p_ifOperStatus r' = p_ifOperStatus r
                 /\ p_time r' = p_time r /\ p_timeTicks r' = p_timeTicks r))
  /\ ((forall r, In r (ports before) -> p_sid r <> Sid le) -> after = before)
  /\ (err <> None -> after = before)
  /\ cache_hostname after = cache_hostname before
  /\ cache_ifname after = cache_ifname before
  /\ cache_ifalias after = cache_ifalias before.
Proof.
  pose proof (UpdateLinkEvent_tables le c) as (Hok & Herr). cbv zeta in *.
  destruct (fst (UpdateLinkEvent le c)) as [e|] eqn:Ee.
  - rewrite Herr by discriminate. repeat apply conj; auto; discriminate.
  - rewrite (Hok eq_refl). simpl. repeat apply conj; try reflexivity.
    + intros _ r Hin Hsid. apply in_map_iff. exists r. split; [|assumption].
      unfold updateRow. apply String.eqb_eq in Hsid. now rewrite Hsid.
    + apply length_map.
    + intros r Hin Hsid. apply in_map_iff. exists r. split; [|assumption].
      unfold updateRow. destruct (String.eqb (p_sid r) (Sid le)) eqn:E; [|reflexivity].
      apply String.eqb_eq in E. contradiction.
    + intros r' Hin. apply in_map_iff in Hin. destruct Hin as (r & Hr & Hin).
      unfold updateRow in Hr. destruct (String.eqb (p_sid r) (Sid le)) eqn:E.
      * right. apply String.eqb_eq in E. subst r'. simpl.
        repeat split; try assumption. exists r. repeat split. assumption.
      * left. now subst.
    + intro Hnone. rewrite (updateRow_other _ _ _ _ Hnone). now destruct (tables (db c)).
    + intro H. now destruct H.
Qed.

(** X8.  Insert, then update.  When both return [nil], the models agree on
    the correlation id and no earlier row carries it, the event table is
    the earlier rows followed by one row: address, index, status texts,
    time and ticks as inserted, the three metadata columns as updated.  The
    status texts are ["up"] for the value 1 and ["down"] for every other
    value. *)
Theorem SaveLinkEvent_then_UpdateLinkEvent (le le' : Model) (c : Connector) :
  let c1 := snd (SaveLinkEvent le c) in
  let c2 := snd (UpdateLinkEvent le' c1) in
  fst (SaveLinkEvent le c) = None ->
  fst (UpdateLinkEvent le' c1) = None ->
  Sid le' = Sid le ->
  (forall r, In r (ports (tables (db c))) -> p_sid r <> Sid le) ->
  ports (tables (db c2))
  = (ports (tables (db c)) ++
       [{| p_ipaddress := IpAddress le; p_hostname := HostName le';
           p_ifIndex := IfIndex le; p_ifName := IfName le'; p_ifAlias := IfAlias le';
           p_ifAdminStatus := if IfAdminStatus le =? 1 then "up" else "down";
           p_ifOperStatus := if IfOperStatus le =? 1 then "up" else "down";
           p_time := Time le; p_sid := Sid le; p_timeTicks := TimeTicks le |}])%list.
Proof.
  intros c1 c2 Hs Hu Hsid Hfresh.
  pose proof (SaveLinkEvent_tables le c) as (Hs1 & _).
  pose proof (UpdateLinkEvent_tables le' c1) as (Hu1 & _).
  cbv zeta in *. fold c1 in Hs1. fold c2 in Hu1.
  rewrite (Hu1 Hu), (Hs1 Hs). simpl.
  rewrite map_app, Hsid, (updateRow_other _ _ _ _ Hfresh). simpl.
  unfold updateRow. simpl. now rewrite String.eqb_refl.
Qed.

(** *** The sweep *)

Lemma CleanUp_tables (c : Connector) :
  let now := clock (db c) in
  let err := fst (CleanUp c) in
  let c' := snd (CleanUp c) in
  (err = None ->
     tables (db c') =
       applyCache now (cleanUpIfAliasSQL (cacheIfAliasMinutes c))
         (applyCache now (cleanUpIfNameSQL (cacheIfNameMinutes c))
            (applyCache now (cleanUpHostnameSQL (cacheHostnameMinutes c)) (tables (db c)))))
  /\ (err <> None -> tables (db c') = tables (db c))
  /\ clock (db c') = clock (db c)
  /\ cacheHostnameMinutes c' = cacheHostnameMinutes c
  /\ cacheIfNameMinutes c' = cacheIfNameMinutes c
  /\ cacheIfAliasMinutes c' = cacheIfAliasMinutes c
  /\ (tx (db c) = None -> tx (db c') = None).
Proof.
  destruct c as [[t x now f j lg] mn ma mh].
  destruct t as [pt ht nt at_].
  split_faults f; run_store2; settle; tables_eq; try reflexivity.
  all: try (intro Hx; exact Hx).
Qed.

Lemma filter_twice {A : Type} (P : A -> bool) (l : list A) :
  filter P (filter P l) = filter P l.
Proof.
  induction l as [|a l IH]; [reflexivity|]. simpl.
  destruct (P a) eqn:E; simpl; [rewrite E; now rewrite IH | assumption].
Qed.

(** X9.  A sweep that returns [nil] leaves the tables as the three
    [DELETE]s would leave them when run one after the other outside a
    transaction, and a second sweep at the same time, if it returns [nil],
    removes nothing more. *)
Theorem CleanUp_twice_is_once (c : Connector) :
  let c1 := snd (CleanUp c) in
  let c2 := snd (CleanUp c1) in
  fst (CleanUp c) = None ->
  tables (db c1) =
    applyCache (clock (db c)) (cleanUpIfAliasSQL (cacheIfAliasMinutes c))
      (applyCache (clock (db c)) (cleanUpIfNameSQL (cacheIfNameMinutes c))
         (applyCache (clock (db c)) (cleanUpHostnameSQL (cacheHostnameMinutes c))
            (tables (db c))))
  /\ (fst (CleanUp c1) = None -> tables (db c2) = tables (db c1)).
Proof.
  intros c1 c2 H1.
  pose proof (CleanUp_tables c) as (Hok & _ & Hclock & Hh & Hn & Ha & _).
  pose proof (CleanUp_tables c1) as (Hok2 & _).
  cbv zeta in *. fold c1 in Hok, Hclock, Hh, Hn, Ha. fold c2 in Hok2.
  split; [exact (Hok H1)|].
  intro H2. rewrite (Hok2 H2), Hclock, Hh, Hn, Ha, (Hok H1).
  unfold applyCache. simpl. now rewrite !filter_twice.
Qed.

(** X10.  No method leaves a transaction open: on a connector that has
    none open, each of the nine methods returns with none open, whatever
    the driver does. *)
Theorem no_method_leaves_a_transaction_open (m : Model) (c : Connector) :
  tx (db c) = None ->
  tx (db (snd (CleanUp c))) = None
  /\ tx (db (snd (SaveLinkEvent m c))) = None
  /\ tx (db (snd (UpdateLinkEvent m c))) = None
  /\ tx (db (snd (GetCachedIfName m c))) = None
  /\ tx (db (snd (PutCachedIfName m c))) = None
  /\ tx (db (snd (GetCachedIfAlias m c))) = None
  /\ tx (db (snd (PutCachedIfAlias m c))) = None
  /\ tx (db (snd (GetCachedHostname m c))) = None
  /\ tx (db (snd (PutCachedHostname m c))) = None.
Proof.
  intro H. repeat apply conj.
  - now apply CleanUp_tables.
  - destruct c as [[t x now f j lg] mn ma mh]. simpl in H. subst x.
    destruct f as [|[e|] f]; run_store2; destruct (TimeTicks m =? 0)%N; reflexivity.
  - destruct c as [[t x now f j lg] mn ma mh]. simpl in H. subst x.
    destruct f as [|[e|] f]; reflexivity.
  - destruct c as [[t x now f j lg] mn ma mh]. simpl in H. subst x.
    destruct f as [|[e|] f]; reflexivity.
  - now apply PutCachedIfName_frame.
  - destruct c as [[t x now f j lg] mn ma mh]. simpl in H. subst x.
    destruct f as [|[e|] f]; reflexivity.
  - now apply PutCachedIfAlias_frame.
  - destruct c as [[t x now f j lg] mn ma mh]. simpl in H. subst x.
    destruct f as [|[e|] f]; reflexivity.
  - now apply PutCachedHostname_frame.
Qed.

(** *** The connector [main] opens *)

Lemma stale_is_not_live (now minutes time : Z) :
  minutes <= 0 -> time <= now -> withinTTL now minutes time = false.
Proof. intros H H'. unfold withinTTL. rewrite Z.gtb_ltb. apply Z.ltb_ge. nia. Qed.

Lemma dbGet_error_or_scan (select : Tables -> Z -> list (option string)) (d : DB) :
  snd (fst (dbGet select d)) <> None
  \/ fst (dbGet select d) = scanFirst (select (tables d) (clock d)).
Proof.
  destruct d as [t x now f j lg]. unfold dbGet, sbind, nextFault, sret. simpl.
  destruct f as [|[e|] f]; simpl; auto. left. discriminate.
Qed.

(** [MakeDB] returns a connector or an error, never both and never
    neither, and the connector [main] gets from it has the three
    time-to-live settings at 0. *)
Lemma main_connector_has_no_cache_window
  (open : string -> DB + string) (config : main.Config) :
  (exists c, main.connect open config = (Some c, None)
             /\ cacheHostnameMinutes c = 0 /\ cacheIfNameMinutes c = 0
             /\ cacheIfAliasMinutes c = 0)
  \/ (exists msg, main.connect open config = (None, Some msg)).
Proof.
  unfold main.connect, MakeDB.
  destruct (open (dataSourceName (main.dbConfig config))) as [d|msg]; [|right; eauto].
  unfold Ping, nextFault. destruct (faults d) as [|[e|] f]; simpl.
  - left. eexists. repeat split.
  - right. eauto.
  - left. eexists. repeat split.
Qed.

(** With a time-to-live of 0 minutes or less, a read that follows a
    write that returned [nil], for the same key, returns an error, for each
    of the three caches. *)
Lemma no_window_no_hit (m le : Model) (c : Connector) (now : Z) :
  IpAddress le = IpAddress m ->
  clock (db c) <= now ->
  (cacheHostnameMinutes c <= 0 ->
   fst (PutCachedHostname m c) = None ->
   snd (fst (GetCachedHostname le (later now (snd (PutCachedHostname m c))))) <> None)
  /\ (IfIndex le = IfIndex m ->
      cacheIfAliasMinutes c <= 0 ->
      fst (PutCachedIfAlias m c) = None ->
      snd (fst (GetCachedIfAlias le (later now (snd (PutCachedIfAlias m c))))) <> None)
  /\ (IfIndex le = IfIndex m ->
      cacheIfNameMinutes c <= 0 ->
      fst (PutCachedIfName m c) = None ->
      snd (fst (GetCachedIfName le (later now (snd (PutCachedIfName m c))))) <> None).
Proof.
  intros Hip Hnow. repeat apply conj.
  - intros Httl Hput.
    pose proof (PutCachedHostname_all_or_nothing m c) as (Hok & _ & _).
    pose proof (PutCachedHostname_frame m c) as (Hclock & Hmh & _).
    cbv zeta in *. specialize (Hok Hput).
    rewrite GetCachedHostname_fst.
    destruct (dbGet_error_or_scan (selecthostnameWhereTime
                (cacheHostnameMinutes (later now (snd (PutCachedHostname m c))))
                (IpAddress le))
                (db (later now (snd (PutCachedHostname m c))))) as [He|Hs]; [exact He|].
    rewrite Hs.
    change (tables (db (later now (snd (PutCachedHostname m c)))))
      with (tables (db (snd (PutCachedHostname m c)))).
    change (clock (db (later now (snd (PutCachedHostname m c))))) with now.
    change (cacheHostnameMinutes (later now (snd (PutCachedHostname m c))))
      with (cacheHostnameMinutes (snd (PutCachedHostname m c))).
    rewrite Hok, Hmh, Hip. unfold selecthostnameWhereTime. simpl.
    rewrite filter_app, filter_none_left. simpl.
    rewrite (stale_is_not_live Httl Hnow). simpl. discriminate.
  - intros Hix Httl Hput.
    pose proof (PutCachedIfAlias_all_or_nothing m c) as (Hok & _ & _).
    pose proof (PutCachedIfAlias_frame m c) as (Hclock & _ & _ & Hma & _).
    cbv zeta in *. specialize (Hok Hput).
    rewrite GetCachedIfAlias_fst.
    destruct (dbGet_error_or_scan (selectIfAlias
                (cacheIfAliasMinutes (later now (snd (PutCachedIfAlias m c))))
                (IpAddress le) (IfIndex le))
                (db (later now (snd (PutCachedIfAlias m c))))) as [He|Hs]; [exact He|].
    rewrite Hs.
    change (tables (db (later now (snd (PutCachedIfAlias m c)))))
      with (tables (db (snd (PutCachedIfAlias m c)))).
    change (clock (db (later now (snd (PutCachedIfAlias m c))))) with now.
    change (cacheIfAliasMinutes (later now (snd (PutCachedIfAlias m c))))
      with (cacheIfAliasMinutes (snd (PutCachedIfAlias m c))).
    rewrite Hok, Hma, Hip, Hix. unfold selectIfAlias. simpl.
    rewrite filter_app, filter_none_left. simpl.
    rewrite (stale_is_not_live Httl Hnow). simpl. discriminate.
  - intros Hix Httl Hput.
    pose proof (PutCachedIfName_tables m c) as (Hok & _).
    pose proof (PutCachedIfName_frame m c) as (Hclock & _ & Hmn & _).
    cbv zeta in *. specialize (Hok Hput).
    rewrite GetCachedIfName_fst.
    destruct (dbGet_error_or_scan (selectIfName
                (cacheIfNameMinutes (later now (snd (PutCachedIfName m c))))
                (IpAddress le) (IfIndex le))
                (db (later now (snd (PutCachedIfName m c))))) as [He|Hs]; [exact He|].
    rewrite Hs.
    change (tables (db (later now (snd (PutCachedIfName m c)))))
      with (tables (db (snd (PutCachedIfName m c)))).
    change (clock (db (later now (snd (PutCachedIfName m c))))) with now.
    change (cacheIfNameMinutes (later now (snd (PutCachedIfName m c))))
      with (cacheIfNameMinutes (snd (PutCachedIfName m c))).
    rewrite Hmn, Hip, Hix. unfold selectIfName. rewrite Hok.
    rewrite filter_app, filter_none_left. simpl.
    rewrite (stale_is_not_live Httl Hnow). simpl. discriminate.
Qed.

(** X11.  The connector [main] opens never serves what it wrote.  [main]
    hands [MakeDB] a configuration that names the host, the database, the
    user and the password only, so the three time-to-live settings of the
    connector are 0, whatever the configuration file, the environment and
    the server; and with that connector a read for the key of a write that
    returned [nil] returns an error, at the time of the write and at every
    later time, for each of the three caches. *)
Theorem main_connector_never_serves_a_write
  (open : string -> DB + string) (config : main.Config) (c : Connector) (m le : Model)
  (now : Z) :
  main.connect open config = (Some c, None) ->
  IpAddress le = IpAddress m ->
  IfIndex le = IfIndex m ->
  clock (db c) <= now ->
  (cacheHostnameMinutes c = 0 /\ cacheIfNameMinutes c = 0 /\ cacheIfAliasMinutes c = 0)
  /\ (fst (PutCachedHostname m c) = None ->
      snd (fst (GetCachedHostname le (later now (snd (PutCachedHostname m c))))) <> None)
  /\ (fst (PutCachedIfAlias m c) = None ->
      snd (fst (GetCachedIfAlias le (later now (snd (PutCachedIfAlias m c))))) <> None)
  /\ (fst (PutCachedIfName m c) = None ->
      snd (fst (GetCachedIfName le (later now (snd (PutCachedIfName m c))))) <> None).
Proof.
  intros Hc Hip Hix Hnow.
  assert (Hz : cacheHostnameMinutes c = 0 /\ cacheIfNameMinutes c = 0
               /\ cacheIfAliasMinutes c = 0).
  { destruct (main_connector_has_no_cache_window open config)
      as [(c0 & E & H)|(msg & E)]; rewrite E in Hc; inversion Hc. now subst. }
  destruct Hz as (Hh & Hn & Ha).
  destruct (no_window_no_hit m le c Hip Hnow) as (Gh & Ga & Gn).
  repeat apply conj; try assumption.
  - apply Gh. lia.
  - apply Ga; [assumption | lia].
  - apply Gn; [assumption | lia].
Qed.

(** *** The theorems above on concrete stores *)

Lemma PutCachedHostname_replaces_the_key_witness :
  let c := scenarios.connector scenarios.agedTables [] in
  fst (PutCachedHostname scenarios.hostModel c) = None
  /\ filter (hostKey "10.0.0.1")
       (cache_hostname (tables (db (snd (PutCachedHostname scenarios.hostModel c)))))
     = [mkHostRow "10.0.0.1" (Some "sw1.example.net") 1000].
Proof.
  intro c. split; [reflexivity|].
  pose proof (PutCachedHostname_replaces_the_key scenarios.hostModel c) as H.
  cbv zeta in H. destruct H as (Hok & _). exact (proj1 (Hok eq_refl)).
Defined.

Lemma PutCachedIfAlias_replaces_the_key_witness :
  let c := scenarios.connector scenarios.agedTables [] in
  fst (PutCachedIfAlias scenarios.aliasModel c) = None
  /\ filter (ifKey "10.0.0.1" 3)
       (cache_ifalias (tables (db (snd (PutCachedIfAlias scenarios.aliasModel c)))))
     = [mkIfRow "10.0.0.1" 3 (Some "uplink to core") 1000].
Proof.
  intro c. split; [reflexivity|].
  pose proof (PutCachedIfAlias_replaces_the_key scenarios.aliasModel c) as H.
  cbv zeta in H. destruct H as (Hok & _). exact (proj1 (Hok eq_refl)).
Defined.

(** The write of C1's evaluation, whose commit is refused: the old row is
    still there. *)
Lemma PutCachedIfName_never_loses_a_row_witness :
  let c := scenarios.connector scenarios.staleNameTables
             [None; None; None; Some "commit refused"] in
  fst (PutCachedIfName scenarios.nameModel c) <> None
  /\ In (mkIfRow "10.0.0.1" 3 (Some "ge-old") 900)
        (cache_ifname (tables (db (snd (PutCachedIfName scenarios.nameModel c))))).
Proof.
  intro c.
  assert (He : fst (PutCachedIfName scenarios.nameModel c) <> None)
    by (simpl; discriminate).
  split; [exact He|].
  pose proof (PutCachedIfName_never_loses_a_row scenarios.nameModel c) as H.
  cbv zeta in H. destruct H as (_ & Herr & _).
  apply (proj1 (Herr He)). left. reflexivity.
Defined.

(** Ten-minute caches, a write at second 1000: served at second 1599, not
    at second 1600. *)
Lemma Put_then_Get_within_the_window_witness :
  let c := scenarios.connector scenarios.agedTables [] in
  let c1 := snd (PutCachedHostname scenarios.hostModel c) in
  fst (PutCachedHostname scenarios.hostModel c) = None
  /\ fst (GetCachedHostname scenarios.hostModel (later 1599 c1))
     = (Some "sw1.example.net", None)
  /\ fst (GetCachedHostname scenarios.hostModel (later 1600 c1))
     = (None, Some ErrNoRows).
Proof.
  intros c c1. split; [reflexivity|]. split.
  - destruct (Put_then_Get_within_the_window scenarios.hostModel scenarios.hostModel c
                "sw1.example.net" 1599 eq_refl) as (Hh & _).
    exact (Hh eq_refl eq_refl eq_refl).
  - destruct (Put_then_Get_within_the_window scenarios.hostModel scenarios.hostModel c
                "sw1.example.net" 1600 eq_refl) as (Hh & _).
    exact (Hh eq_refl eq_refl eq_refl).
Defined.

(** On [agedTables]: 10.0.0.2 has a live row, 10.0.0.1 an expired one. *)
Lemma GetCachedHostname_reads_live_rows_witness :
  let c := scenarios.connector scenarios.agedTables [] in
  let le := scenarios.hostModel in
  fst (GetCachedHostname le c) = (None, Some ErrNoRows)
  /\ In (mkHostRow "10.0.0.1" (Some "sw1") 100) (cache_hostname (tables (db c)))
  /\ tables (db (snd (GetCachedHostname le c))) = scenarios.agedTables.
Proof.
  intros c le.
  pose proof (GetCachedHostname_reads_live_rows le c) as H.
  cbv zeta in H. destruct H as (Ht & _ & _ & Hmiss).
  split; [|split; [left; reflexivity | exact Ht]].
  apply Hmiss; [reflexivity|].
  intros row [<-|[<-|[]]]; simpl; intro E; [reflexivity | discriminate E].
Defined.

Lemma GetCachedIfName_GetCachedIfAlias_read_live_rows_witness :
  let c := scenarios.connector scenarios.agedTables [] in
  fst (GetCachedIfName scenarios.aliasModel c) = (None, Some ErrNoRows)
  /\ fst (GetCachedIfAlias scenarios.aliasModel c) = (None, Some ErrNoRows).
Proof.
  intro c.
  destruct (GetCachedIfName_GetCachedIfAlias_read_live_rows scenarios.aliasModel c)
    as ((_ & _ & Hn) & (_ & _ & Ha)).
  split.
  - apply Hn; [reflexivity|].
    intros row [<-|[<-|[]]]; simpl; intros E1 E2;
      [reflexivity | discriminate E1].
  - apply Ha; [reflexivity|].
    intros row [<-|[<-|[]]]; simpl; intros E1 E2;
      [reflexivity | discriminate E1].
Defined.

(** On [eventTables]: the row of sid-1 takes the three values, the row of
    sid-0 stays. *)
Lemma UpdateLinkEvent_touches_only_its_sid_witness :
  let c := scenarios.connector scenarios.eventTables [] in
  fst (UpdateLinkEvent scenarios.updateModel c) = None
  /\ ports (tables (db (snd (UpdateLinkEvent scenarios.updateModel c))))
     = [ {| p_ipaddress := "10.0.0.2"; p_hostname := None;
            p_ifIndex := 1; p_ifName := None; p_ifAlias := None;
            p_ifAdminStatus := "up"; p_ifOperStatus := "up";
            p_time := 990; p_sid := "sid-0"; p_timeTicks := 0%N |};
         {| p_ipaddress := "10.0.0.1"; p_hostname := Some "sw1.example.net";
            p_ifIndex := 3; p_ifName := Some "ge-0/0/3";
            p_ifAlias := Some "uplink to core";
            p_ifAdminStatus := "up"; p_ifOperStatus := "down";
            p_time := 1000; p_sid := "sid-1"; p_timeTicks := 0%N |} ].
Proof.
  intro c. split; [reflexivity|].
  pose proof (UpdateLinkEvent_touches_only_its_sid scenarios.updateModel c) as H.
  cbv zeta in H. destruct H as (Hmap & _).
  rewrite (Hmap eq_refl). reflexivity.
Defined.

Lemma SaveLinkEvent_then_UpdateLinkEvent_witness :
  let c := scenarios.connector scenarios.noTables [] in
  ports (tables (db (snd (UpdateLinkEvent scenarios.updateModel
                            (snd (SaveLinkEvent scenarios.insertModel c))))))
  = [{| p_ipaddress := "10.0.0.1"; p_hostname := Some "sw1.example.net";
        p_ifIndex := 3; p_ifName := Some "ge-0/0/3";
        p_ifAlias := Some "uplink to core";
        p_ifAdminStatus := "up"; p_ifOperStatus := "down";
        p_time := 1000; p_sid := "sid-1"; p_timeTicks := 0%N |}].
Proof.
  intro c.
  apply (SaveLinkEvent_then_UpdateLinkEvent scenarios.insertModel scenarios.updateModel c);
    try reflexivity.
  intros r [].
Defined.

Lemma CleanUp_twice_is_once_witness :
  let c := scenarios.connector scenarios.agedTables [] in
  let c1 := snd (CleanUp c) in
  fst (CleanUp c) = None /\ fst (CleanUp c1) = None
  /\ tables (db (snd (CleanUp c1))) = tables (db c1).
Proof.
  intros c c1. split; [reflexivity|]. split; [reflexivity|].
  pose proof (CleanUp_twice_is_once c) as H. cbv zeta in H.
  exact (proj2 (H eq_refl) eq_refl).
Defined.

Lemma no_method_leaves_a_transaction_open_witness :
  let c := scenarios.connector scenarios.agedTables [None; Some "gone away"; Some "gone away"] in
  tx (db c) = None
  /\ fst (PutCachedHostname scenarios.hostModel c) = Some "gone away"
  /\ tx (db (snd (PutCachedHostname scenarios.hostModel c))) = None.
Proof.
  intro c. split; [reflexivity|]. split; [reflexivity|].
  apply (no_method_leaves_a_transaction_open scenarios.hostModel c). reflexivity.
Defined.

(** [main] with its defaults against a server that holds [agedTables]. *)
Lemma main_connector_never_serves_a_write_witness :
  exists c,
    main.connect scenarios.agedServer main.config = (Some c, None)
    /\ fst (PutCachedHostname scenarios.hostModel c) = None
    /\ snd (fst (GetCachedHostname scenarios.hostModel
                   (later 1001 (snd (PutCachedHostname scenarios.hostModel c))))) <> None.
Proof.
  eexists. split; [reflexivity|]. split; [reflexivity|].
  eapply (@main_connector_never_serves_a_write scenarios.agedServer main.config
            _ scenarios.hostModel scenarios.hostModel 1001);
    [reflexivity | reflexivity | reflexivity | simpl; lia | reflexivity].
Defined.

End StoreMore.

(** ** More on the trap handler *)

Module HandlerMore.

Import gosnmp linkevent HandlerFacts.

Lemma getEventOIDFrom_skips (pre rest : list SnmpPDU) :
  (forall x, In x pre -> Name x <> oidReference) ->
  getEventOIDFrom (pre ++ rest) = getEventOIDFrom rest.
Proof.
  induction pre as [|x pre IH]; intro H; [reflexivity|]. simpl.
  destruct (String.eqb (Name x) oidReference) eqn:E.
  - apply String.eqb_eq in E. now destruct (H x (or_introl eq_refl)).
  - apply IH. intros y Hy. apply H. now right.
Qed.

(** X12.  Whether a packet is a link event is decided by the first binding
    whose name is exactly [oidReference]: a packet without such a binding
    is not a link event; otherwise the answer is whether that binding's
    string is [linkUP] or [linkDOWN], whatever follows it, and a value
    there that is not a string panics, a later well-formed binding
    notwithstanding. *)
Theorem IsLinkEvent_first_reference_decides (pre : list SnmpPDU) :
  (forall x, In x pre -> Name x <> oidReference) ->
  IsLinkEvent {| Variables := pre |} = Done false
  /\ forall (v : SnmpPDU) (post : list SnmpPDU),
       Name v = oidReference ->
       IsLinkEvent {| Variables := pre ++ v :: post |}
       = match Value_ v with
         | VString s => Done (String.eqb s linkUP || String.eqb s linkDOWN)
         | _ => Panicked "interface conversion: interface {} is not string"
         end.
Proof.
  intro Hpre. split.
  - unfold IsLinkEvent, getEventOID. simpl.
    rewrite <- (app_nil_r pre). rewrite getEventOIDFrom_skips by exact Hpre. reflexivity.
  - intros v post Hv. unfold IsLinkEvent, getEventOID. simpl.
    rewrite getEventOIDFrom_skips by exact Hpre. simpl. rewrite Hv. simpl.
    destruct (Value_ v); reflexivity.
Qed.

Lemma IsLinkEvent_first_reference_decides_witness :
  IsLinkEvent scenarios.linkDownTrap = Done true
  /\ IsLinkEvent {| Variables := [scenarios.bind ".1.3.6.1.2.1.1.3.0" (VUint32 4711)] |}
     = Done false.
Proof.
  assert (H : forall x, In x [scenarios.bind ".1.3.6.1.2.1.1.3.0" (VUint32 4711)] ->
                        Name x <> oidReference).
  { intros x [<-|[]]. simpl. discriminate. }
  destruct (IsLinkEvent_first_reference_decides _ H) as (Hnone & Hfirst).
  split; [|exact Hnone].
  exact (Hfirst (scenarios.bind ".1.3.6.1.6.3.1.1.4.1.0" (VString ".1.3.6.1.6.3.1.1.5.3"))
           [scenarios.bind ".1.3.6.1.2.1.2.2.1.1.3" (VInt 3);
            scenarios.bind ".1.3.6.1.2.1.2.2.1.7.3" (VInt 1);
            scenarios.bind ".1.3.6.1.2.1.2.2.1.8.3" (VInt 2)] eq_refl).
Defined.

Section WithRepository.
Context {R : Type} {repoImpl : repository.Connector R}.

Lemma extractVariable_frame (variable : SnmpPDU) (le : LinkEvent) (w : World R) :
  repo (snd (extractVariable variable le w)) = repo w
  /\ snmpSema (snd (extractVariable variable le w)) = snmpSema w
  /\ forall le', fst (extractVariable variable le w) = Done le' ->
       ipAddress le' = ipAddress le /\ time le' = time le /\ community le' = community le.
Proof.
  unfold extractVariable.
  repeat match goal with
         | |- context [if ?b then _ else _] => destruct b
         | |- context [match ?v with VNil => _ | _ => _ end] => destruct v
         end; simpl; repeat apply conj; try reflexivity;
    intros ? H; inversion H; subst; repeat apply conj; reflexivity.
Qed.

Lemma extractVariables_frame (vars : list SnmpPDU) (le : LinkEvent) (w : World R) :
  repo (snd (extractVariables vars le w)) = repo w
  /\ snmpSema (snd (extractVariables vars le w)) = snmpSema w
  /\ forall le', fst (extractVariables vars le w) = Done le' ->
       ipAddress le' = ipAddress le /\ time le' = time le /\ community le' = community le.
Proof.
  revert le w. induction vars as [|v vars IH]; intros le w; simpl.
  - repeat apply conj; try reflexivity. intros ? H; inversion H; subst; auto.
  - unfold bind. destruct (extractVariable_frame v le w) as (Hr & Hs & Hk).
    destruct (extractVariable v le w) as [[le1|msg|] w1]; simpl in *.
    + destruct (IH le1 w1) as (Hr' & Hs' & Hk').
      destruct (Hk le1 eq_refl) as (K1 & K2 & K3).
      repeat apply conj; try congruence.
      intros le' H. destruct (Hk' le' H) as (L1 & L2 & L3).
      repeat apply conj; congruence.
    + repeat apply conj; auto; intros ? H; discriminate H.
    + repeat apply conj; auto; intros ? H; discriminate H.
Qed.

(** X13.  [FromSnmpPacket] only reads the packet: it never calls the store
    and never takes the gate, and all it adds to the record of calls is log
    lines.  On a packet that is not a link event it changes nothing, not
    even the address.  On a link event, if it returns, the address is the
    sender's and the correlation id, host name, alias, time and community
    of the event are as before. *)
Theorem FromSnmpPacket_only_reads_the_packet
  (p : SnmpPacket) (addr : string) (le : LinkEvent) (w : World R) :
  let r := FromSnmpPacket p addr le w in
  repo (snd r) = repo w
  /\ snmpSema (snd r) = snmpSema w
  /\ (exists logs, trace (snd r) = (trace w ++ logs)%list /\ forallb isLogLine logs = true)
  /\ (IsLinkEvent p = Done false -> r = (Done le, w))
  /\ (forall le', IsLinkEvent p = Done true -> fst r = Done le' ->
        ipAddress le' = addr /\ sid le' = sid le /\ hostName le' = hostName le
        /\ ifAlias le' = ifAlias le /\ time le' = time le /\ community le' = community le).
Proof.
  unfold FromSnmpPacket, bind, lift.
  destruct (IsLinkEvent p) as [[|]|msg|]; simpl.
  - destruct (extractVariables_frame (Variables p) (set_ipAddress addr le) w)
      as (Hr & Hs & Hk).
    destruct (emits_extractVariables (Variables p) (set_ipAddress addr le) w)
      as (logs & Et & Fl).
    repeat apply conj; try assumption.
    + eauto.
    + discriminate.
    + intros le' _ H. destruct (Hk le' H) as (K1 & K2 & K3).
      destruct (extractVariables (Variables p) (set_ipAddress addr le) w)
        as [o w'] eqn:E. simpl in H. subst o.
      apply extractVariables_Done in E. destruct E as (Ea & Eh & Es & _).
      simpl in *. repeat split; congruence.
  - repeat apply conj; try reflexivity.
    + exists []. now rewrite app_nil_r.
    + discriminate.
  - repeat apply conj; try reflexivity.
    + exists []. now rewrite app_nil_r.
    + discriminate.
    + discriminate.
  - repeat apply conj; try reflexivity.
    + exists []. now rewrite app_nil_r.
    + discriminate.
    + discriminate.
Qed.

(** X14.  The two fields read with the checked assertion.  A binding that
    none of the three integer tests takes and whose name contains
    [ifNameVarBindPrefixJunOS], with a value that is not a byte string, is
    passed over with one log line and the event as it was; so is a binding
    whose name contains [timeTicksReference] with a value that is not a
    [uint], which is how a decoder delivering TimeTicks as [uint32] is
    treated.  The log line is recorded by its message; the printed form of
    the event that [log.Println] puts before it is not part of the record. *)
Theorem checked_fields_skip_with_a_log_line
  (variable : SnmpPDU) (le : LinkEvent) (w : World R) :
  strings.Contains (Name variable) ifIndexOIDPrefix = false ->
  strings.Contains (Name variable) ifAdminStatusOIDPrefix = false ->
  strings.Contains (Name variable) ifOperStatusOIDPrefix = false ->
  (strings.Contains (Name variable) ifNameVarBindPrefixJunOS = true ->
   (forall b, Value_ variable <> VBytes b) ->
   extractVariable variable le w
   = (Done le, record (LogLine "empty ifNameVarBindPrefixJunOS") w))
  /\ (strings.Contains (Name variable) ifNameVarBindPrefixJunOS = false ->
      strings.Contains (Name variable) timeTicksReference = true ->
      (forall n, Value_ variable <> VUint n) ->
      extractVariable variable le w
      = (Done le, record (LogLine "missing timeTicks in the SNMP trap") w)).
Proof.
  intros H1 H2 H3. split.
  - intros Hc Hv. now apply extractVariable_mistyped_ifName.
  - intros H4 Hc Hv. now apply extractVariable_mistyped_timeTicks.
Qed.

(** X15.  One call of [getSNMPString].  While the mutex is held it waits
    and does nothing, no query included.  With the mutex free it does not
    wait, it records exactly one query, for the object identifier, target
    and community it was given, it leaves the mutex free on every way out,
    the panic included, and it does not touch the store. *)
Theorem getSNMPString_one_query_under_the_gate (oid ip community : string) (w : World R) :
  let r := getSNMPString oid ip community w in
  (snmpSema w = true -> r = (Blocked, w))
  /\ (snmpSema w = false ->
      fst r <> Blocked
      /\ snmpSema (snd r) = false
      /\ repo (snd r) = repo w
      /\ filter isSnmp (trace (snd r))
         = (filter isSnmp (trace w) ++ [SnmpGet oid ip community])%list).
Proof.
  split.
  - intro H. unfold getSNMPString, bind, Lock. now rewrite H.
  - intro H. destruct (getSNMPString_releases_gate oid ip community w H) as (A & B & C).
    repeat apply conj; try assumption. now apply getSNMPString_one_query.
Qed.

(** X16.  What [getSNMPString] returns.  A nil error comes with a value,
    and the value is the byte string of the first variable binding of the
    device's response; an error comes with a nil value. *)
Theorem getSNMPString_value_or_error
  (oid ip community : string) (w : World R) (v : option string) (e : error) :
  snmpSema w = false ->
  fst (getSNMPString oid ip community w) = Done (v, e) ->
  (e = None ->
   exists b first rest,
     v = Some b
     /\ device w oid ip community = Responds {| Variables := first :: rest |}
     /\ Value_ first = VBytes b)
  /\ (e <> None -> v = None).
Proof.
  intro Hfree. unfold getSNMPString, bind, Lock, deferred, doSNMPRequest.
  rewrite Hfree. simpl.
  destruct (device w oid ip community) as [msg|msg|[vars]]; simpl.
  - intro H. inversion H. split; [discriminate | reflexivity].
  - intro H. inversion H. split; [discriminate | reflexivity].
  - destruct vars as [|first rest]; simpl; [discriminate|].
    destruct (Value_ first) eqn:Ev; simpl; intro H; inversion H;
      (split; [try discriminate | try reflexivity]).
    + intros _. exists b, first, rest. auto.
    + intro Hn. now destruct Hn.
Qed.

(** X17.  A cache hit costs one read and nothing else: each of the three
    [Fill] methods adopts what the store returns and records the read
    only, so it makes no query and no cache write. *)
Theorem cache_hit_costs_one_read (le : LinkEvent) (w : World R) (v : option string) (r : R) :
  (repository.GetCachedHostname (hostKeyModel le) (repo w) = ((v, None), r) ->
   FillHostName le w
   = (Done (set_hostName v le),
      set_repo r (record (GetCachedHostnameCall (hostKeyModel le)) w)))
  /\ (repository.GetCachedIfName (ifKeyModel le) (repo w) = ((v, None), r) ->
      FillIfName le w
      = (Done (set_ifName v le),
         set_repo r (record (GetCachedIfNameCall (ifKeyModel le)) w)))
  /\ (repository.GetCachedIfAlias (ifKeyModel le) (repo w) = ((v, None), r) ->
      FillIfAlias le w
      = (Done (set_ifAlias v le),
         set_repo r (record (GetCachedIfAliasCall (ifKeyModel le)) w))).
Proof.
  repeat apply conj.
  - apply FillHostName_cache_hit.
  - apply FillIfName_cache_hit.
  - apply FillIfAlias_cache_hit.
Qed.

(** X18.  A resolution that comes back as an error.  After a miss, when
    [getSNMPString] returns an error, each of the three [Fill] methods logs
    one line, leaves the event as it was, and makes no cache write: the
    world is the one [getSNMPString] left plus the log line. *)
Theorem resolution_error_is_logged_and_survived
  (le : LinkEvent) (w w2 : World R) (v v' : option string) (e msg : string) (r : R) :
  (repository.GetCachedHostname (hostKeyModel le) (repo w) = ((v, Some e), r) ->
   getSNMPString sysNameOID (ipAddress le) (community le)
     (set_repo r (record (GetCachedHostnameCall (hostKeyModel le)) w))
   = (Done (v', Some msg), w2) ->
   FillHostName le w
   = (Done le, record (LogLine (sid le ++ " unable to get hostname via SNMP: " ++ msg)) w2))
  /\ (repository.GetCachedIfName (ifKeyModel le) (repo w) = ((v, Some e), r) ->
      getSNMPString (ifNameOIDPrefix ++ strconv.Itoa (ifIndex le)) (ipAddress le) (community le)
        (set_repo r (record (GetCachedIfNameCall (ifKeyModel le)) w))
      = (Done (v', Some msg), w2) ->
      FillIfName le w
      = (Done le, record (LogLine (sid le ++ " unable to get ifName vie SNMP: " ++ msg)) w2))
  /\ (repository.GetCachedIfAlias (ifKeyModel le) (repo w) = ((v, Some e), r) ->
      getSNMPString (ifAliasOIDPrefix ++ strconv.Itoa (ifIndex le)) (ipAddress le) (community le)
        (set_repo r (record (GetCachedIfAliasCall (ifKeyModel le)) w))
      = (Done (v', Some msg), w2) ->
      FillIfAlias le w
      = (Done le, record (LogLine (sid le ++ " unable to get ifAlias via SNMP: " ++ msg)) w2)).
Proof.
  repeat apply conj.
  - apply FillHostName_resolution_error.
  - apply FillIfName_resolution_error.
  - apply FillIfAlias_resolution_error.
Qed.

(** X19.  [FetchMissingData] keeps what is set.  An event with its three
    fields set goes through unchanged and without a call.  In general,
    when it returns, the correlation id is unchanged and every field that
    was set before has the value it had. *)
Theorem FetchMissingData_keeps_what_is_set (le : LinkEvent) (w : World R) :
  (hostName le <> None -> ifName le <> None -> ifAlias le <> None ->
   FetchMissingData le w = (Done le, w))
  /\ forall le', fst (FetchMissingData le w) = Done le' ->
       sid le' = sid le
       /\ (hostName le <> None -> hostName le' = hostName le)
       /\ (ifName le <> None -> ifName le' = ifName le)
       /\ (ifAlias le <> None -> ifAlias le' = ifAlias le).
Proof.
  split.
  - intros Hh Hn Ha. unfold FetchMissingData, bind.
    destruct (hostName le); [|now destruct Hh]. simpl.
    destruct (ifName le); [|now destruct Hn]. simpl.
    destruct (ifAlias le); [reflexivity | now destruct Ha].
  - intro le'. unfold FetchMissingData, bind.
    destruct ((match hostName le with None => FillHostName le | Some _ => ret le end) w)
      as [[le1|msg|] w1] eqn:E1; try discriminate.
    assert (K1 : sid le1 = sid le /\ ifName le1 = ifName le /\ ifAlias le1 = ifAlias le
                 /\ (hostName le <> None -> hostName le1 = hostName le)).
    { destruct (hostName le) eqn:Eh.
      - inversion E1. subst. auto.
      - apply (f_equal fst) in E1. apply FillHostName_keeps in E1.
        destruct E1 as (A & B & C). repeat split; auto. intro H. now destruct H. }
    destruct K1 as (S1 & N1 & A1 & H1).
    destruct ((match ifName le1 with None => FillIfName le1 | Some _ => ret le1 end) w1)
      as [[le2|msg|] w2] eqn:E2; try discriminate.
    assert (K2 : sid le2 = sid le1 /\ hostName le2 = hostName le1 /\ ifAlias le2 = ifAlias le1
                 /\ (ifName le1 <> None -> ifName le2 = ifName le1)).
    { destruct (ifName le1) eqn:En.
      - inversion E2. subst. auto.
      - apply (f_equal fst) in E2. apply FillIfName_keeps in E2.
        destruct E2 as (A & B & C). repeat split; auto. intro H. now destruct H. }
    destruct K2 as (S2 & H2 & A2 & N2).
    intro E3.
    assert (K3 : sid le' = sid le2 /\ hostName le' = hostName le2 /\ ifName le' = ifName le2
                 /\ (ifAlias le2 <> None -> ifAlias le' = ifAlias le2)).
    { destruct (ifAlias le2) eqn:Ea.
      - simpl in E3. inversion E3. subst. auto.
      - apply FillIfAlias_keeps in E3.
        destruct E3 as (A & B & C). repeat split; auto. intro H. now destruct H. }
    destruct K3 as (S3 & H3 & N3 & A3).
    repeat split.
    + congruence.
    + intro H. rewrite H3, H2. now apply H1.
    + intro H. rewrite N3. rewrite <- N1 in H. rewrite (N2 H). exact N1.
    + intro H. rewrite <- A1, <- A2 in H. rewrite (A3 H). congruence.
Qed.

(** What a resolution leaves behind: the store as the cache write left
    it, the gate as [getSNMPString] left it, and no further query. *)
Lemma FillHostName_resolution_world
  (le : LinkEvent) (w w2 : World R) (v v' : option string) (e : string) (r : R) :
  repository.GetCachedHostname (hostKeyModel le) (repo w) = ((v, Some e), r) ->
  getSNMPString sysNameOID (ipAddress le) (community le)
    (set_repo r (record (GetCachedHostnameCall (hostKeyModel le)) w)) = (Done (v', None), w2) ->
  repo (snd (FillHostName le w))
  = snd (repository.PutCachedHostname
           {| flapdb.IpAddress := ipAddress le; flapdb.HostName := v';
              flapdb.IfIndex := 0; flapdb.Sid := ""; flapdb.IfAdminStatus := 0;
              flapdb.IfOperStatus := 0; flapdb.IfName := None; flapdb.IfAlias := None;
              flapdb.Time := 0; flapdb.TimeTicks := 0%N |} (repo w2))
  /\ snmpSema (snd (FillHostName le w)) = snmpSema w2
  /\ filter isSnmp (trace (snd (FillHostName le w))) = filter isSnmp (trace w2).
Proof.
  intros Hget Hsnmp. unfold FillHostName, getCachedHostname, bind, call, ret.
  rewrite Hget. cbv beta iota zeta. rewrite Hsnmp.
  unfold putCachedHostname, bind, call. simpl.
  destruct (repository.PutCachedHostname _ (repo w2)) as [[msg|] r2]; simpl;
    repeat apply conj; try reflexivity;
    rewrite ?filter_app; simpl; now rewrite ?app_nil_r.
Qed.

Lemma FillIfAlias_resolution_world
  (le : LinkEvent) (w w2 : World R) (v v' : option string) (e : string) (r : R) :
  repository.GetCachedIfAlias (ifKeyModel le) (repo w) = ((v, Some e), r) ->
  getSNMPString (ifAliasOIDPrefix ++ strconv.Itoa (ifIndex le)) (ipAddress le) (community le)
    (set_repo r (record (GetCachedIfAliasCall (ifKeyModel le)) w)) = (Done (v', None), w2) ->
  repo (snd (FillIfAlias le w))
  = snd (repository.PutCachedIfAlias
           {| flapdb.IpAddress := ipAddress le; flapdb.IfIndex := ifIndex le;
              flapdb.IfAlias := v';
              flapdb.Sid := ""; flapdb.IfAdminStatus := 0; flapdb.IfOperStatus := 0;
              flapdb.IfName := None; flapdb.HostName := None;
              flapdb.Time := 0; flapdb.TimeTicks := 0%N |} (repo w2))
  /\ snmpSema (snd (FillIfAlias le w)) = snmpSema w2
  /\ filter isSnmp (trace (snd (FillIfAlias le w))) = filter isSnmp (trace w2).
Proof.
  intros Hget Hsnmp. unfold FillIfAlias, getCachedIfAlias, bind, call, ret.
  rewrite Hget. cbv beta iota zeta. rewrite Hsnmp.
  unfold putCachedIfAlias, bind, call. simpl.
  destruct (repository.PutCachedIfAlias _ (repo w2)) as [[msg|] r2]; simpl;
    repeat apply conj; try reflexivity;
    rewrite ?filter_app; simpl; now rewrite ?app_nil_r.
Qed.

(** X23.  A resolution that comes back as a value.  After a miss, when
    [getSNMPString] returns a value, [FillHostName] and [FillIfAlias] give
    it to the event and write the cache once, with a model that carries
    the key and that value; what follows the write is log lines at most,
    so a refused cache write costs a log line and not the value. *)
Theorem resolved_value_is_adopted_and_cached
  (le : LinkEvent) (w w2 : World R) (v v' : option string) (e : string) (r : R) :
  (repository.GetCachedHostname (hostKeyModel le) (repo w) = ((v, Some e), r) ->
   getSNMPString sysNameOID (ipAddress le) (community le)
     (set_repo r (record (GetCachedHostnameCall (hostKeyModel le)) w)) = (Done (v', None), w2) ->
   fst (FillHostName le w) = Done (set_hostName v' le)
   /\ exists m logs,
        trace (snd (FillHostName le w)) = (trace w2 ++ PutCachedHostnameCall m :: logs)%list
        /\ flapdb.IpAddress m = ipAddress le /\ flapdb.HostName m = v'
        /\ forallb isLogLine logs = true)
  /\ (repository.GetCachedIfAlias (ifKeyModel le) (repo w) = ((v, Some e), r) ->
      getSNMPString (ifAliasOIDPrefix ++ strconv.Itoa (ifIndex le)) (ipAddress le) (community le)
        (set_repo r (record (GetCachedIfAliasCall (ifKeyModel le)) w)) = (Done (v', None), w2) ->
      fst (FillIfAlias le w) = Done (set_ifAlias v' le)
      /\ exists m logs,
           trace (snd (FillIfAlias le w)) = (trace w2 ++ PutCachedIfAliasCall m :: logs)%list
           /\ flapdb.IpAddress m = ipAddress le /\ flapdb.IfIndex m = ifIndex le
           /\ flapdb.IfAlias m = v'
           /\ forallb isLogLine logs = true).
Proof.
  split.
  - apply FillHostName_resolution_value.
  - apply FillIfAlias_resolution_value.
Qed.

End WithRepository.

(** *** The theorems above on concrete worlds *)

Lemma FromSnmpPacket_only_reads_the_packet_witness :
  let w := scenarios.world (scenarios.connector scenarios.noTables []) scenarios.healthyDevice in
  IsLinkEvent scenarios.coldStartTrap = Done false
  /\ FromSnmpPacket scenarios.coldStartTrap "10.0.0.1" scenarios.blankEvent w
     = (Done scenarios.blankEvent, w).
Proof.
  intro w. split; [reflexivity|].
  pose proof (FromSnmpPacket_only_reads_the_packet
                scenarios.coldStartTrap "10.0.0.1" scenarios.blankEvent w) as H.
  cbv zeta in H. destruct H as (_ & _ & _ & Hno & _). apply Hno. reflexivity.
Defined.

(** The uptime binding of [linkDownTrap], delivered as [uint32]. *)
Lemma checked_fields_skip_with_a_log_line_witness :
  let w := scenarios.world (scenarios.connector scenarios.noTables []) scenarios.healthyDevice in
  extractVariable (scenarios.bind ".1.3.6.1.2.1.1.3.0" (VUint32 4711)) scenarios.blankEvent w
  = (Done scenarios.blankEvent, record (LogLine "missing timeTicks in the SNMP trap") w).
Proof.
  intro w.
  destruct (checked_fields_skip_with_a_log_line
              (scenarios.bind ".1.3.6.1.2.1.1.3.0" (VUint32 4711)) scenarios.blankEvent w
              eq_refl eq_refl eq_refl) as (_ & Hticks).
  apply Hticks; [reflexivity | reflexivity |]. intros n. simpl. discriminate.
Defined.

Lemma getSNMPString_one_query_under_the_gate_witness :
  let w := scenarios.world (scenarios.connector scenarios.noTables []) scenarios.deadDevice in
  snmpSema w = false
  /\ filter isSnmp (trace (snd (getSNMPString ".1.3.6.1.2.1.1.5.0" "10.0.0.1" "public" w)))
     = [SnmpGet ".1.3.6.1.2.1.1.5.0" "10.0.0.1" "public"]
  /\ snmpSema (snd (getSNMPString ".1.3.6.1.2.1.1.5.0" "10.0.0.1" "public" w)) = false.
Proof.
  intro w. split; [reflexivity|].
  pose proof (getSNMPString_one_query_under_the_gate
                ".1.3.6.1.2.1.1.5.0" "10.0.0.1" "public" w) as H.
  cbv zeta in H. destruct H as (_ & Hfree).
  destruct (Hfree eq_refl) as (_ & Hgate & _ & Hq). split; [exact Hq | exact Hgate].
Defined.

Lemma getSNMPString_value_or_error_witness :
  let w := scenarios.world (scenarios.connector scenarios.noTables []) scenarios.oddDevice in
  fst (getSNMPString ".1.3.6.1.2.1.1.5.0" "10.0.0.1" "public" w)
    = Done (None, Some "received nil from the device")
  /\ (Some "received nil from the device" <> None -> @None string = None).
Proof.
  intro w. split; [reflexivity|].
  exact (proj2 (getSNMPString_value_or_error
                  ".1.3.6.1.2.1.1.5.0" "10.0.0.1" "public" w eq_refl eq_refl)).
Defined.

(** A trap from 10.0.0.2, whose host name [agedTables] holds live. *)
Lemma cache_hit_costs_one_read_witness :
  let w := scenarios.world (scenarios.connector scenarios.agedTables []) scenarios.deadDevice in
  let le := set_ipAddress "10.0.0.2" scenarios.blankEvent in
  fst (FillHostName le w) = Done (set_hostName (Some "sw2") le)
  /\ trace (snd (FillHostName le w)) = [GetCachedHostnameCall (hostKeyModel le)].
Proof.
  intros w le.
  destruct (cache_hit_costs_one_read le w (Some "sw2")
              (snd (repository.GetCachedHostname (hostKeyModel le) (repo w))))
    as (Hh & _).
  rewrite (Hh eq_refl). split; reflexivity.
Defined.

(** An unreachable device: the host name stays unresolved. *)
Lemma resolution_error_is_logged_and_survived_witness :
  let w := scenarios.world (scenarios.connector scenarios.noTables []) scenarios.deadDevice in
  let le := scenarios.interface3Event in
  fst (FillHostName le w) = Done le
  /\ filter isCacheWrite (trace (snd (FillHostName le w))) = [].
Proof.
  intros w le.
  set (r := snd (repository.GetCachedHostname (hostKeyModel le) (repo w))).
  set (w1 := set_repo r (record (GetCachedHostnameCall (hostKeyModel le)) w)).
  destruct (resolution_error_is_logged_and_survived le w
              (snd (getSNMPString sysNameOID (ipAddress le) (community le) w1))
              None None flapdb.ErrNoRows "dial udp: no route to host" r) as (Hh & _).
  rewrite (Hh eq_refl eq_refl). split; reflexivity.
Defined.

Lemma FetchMissingData_keeps_what_is_set_witness :
  let w := scenarios.world (scenarios.connector scenarios.noTables []) scenarios.deadDevice in
  FetchMissingData scenarios.resolvedEvent w = (Done scenarios.resolvedEvent, w).
Proof.
  intro w.
  apply (proj1 (FetchMissingData_keeps_what_is_set scenarios.resolvedEvent w));
    simpl; discriminate.
Defined.

(** [linkDownTrap] against a store that refuses the insert. *)
Lemma LinkEventHandler_insert_then_update_witness :
  let w := scenarios.world (scenarios.connector scenarios.noTables [Some "gone away"])
             scenarios.healthyDevice in
  exists logs m rest,
    trace (snd (LinkEventHandler scenarios.linkDownTrap "10.0.0.1" "public" w))
    = (logs ++ SaveLinkEventCall m :: rest)%list
    /\ flapdb.Sid m = "sid-1"
    /\ forallb (followsInsert "sid-1") rest = true.
Proof.
  intro w.
  destruct (LinkEventHandler_insert_then_update
              scenarios.linkDownTrap "10.0.0.1" "public" w
              (w1 := snd (FromSnmpPacket scenarios.linkDownTrap "10.0.0.1"
                            scenarios.blankEvent (snd (sidId w))))
              (event1 := scenarios.interface3Event) eq_refl)
    as (logs & m & rest & Et & _ & Hsid & Hrest & _).
  exists logs, m, rest. repeat split; assumption.
Defined.

(** The store refuses the cache write: the name is in the event all the
    same. *)
Lemma resolved_value_is_adopted_and_cached_witness :
  let w := scenarios.world (scenarios.connector scenarios.noTables [None; Some "gone away"])
             scenarios.healthyDevice in
  fst (FillHostName scenarios.interface3Event w)
  = Done (set_hostName (Some "sw1.example.net") scenarios.interface3Event).
Proof.
  intro w.
  set (le := scenarios.interface3Event).
  set (r := snd (repository.GetCachedHostname (hostKeyModel le) (repo w))).
  set (w1 := set_repo r (record (GetCachedHostnameCall (hostKeyModel le)) w)).
  destruct (resolved_value_is_adopted_and_cached le w
              (snd (getSNMPString sysNameOID (ipAddress le) (community le) w1))
              None (Some "sw1.example.net") flapdb.ErrNoRows r) as (Hh & _).
  exact (proj1 (Hh eq_refl eq_refl)).
Defined.

End HandlerMore.

(** ** The handler on the MySQL connector *)

Module EndToEnd.

Import gosnmp linkevent HandlerFacts.

(** X24.  A host name resolved for one trap serves the next trap of the
    same device.  On the MySQL connector, with a driver that fails no call
    and no transaction open: when the cache has no live host name for the
    sender and the device answers the query with a byte string,
    [FillHostName] gives the event that name, having made one query; and
    [FillHostName] for any event of the same sender, run while the server's
    clock is inside the time-to-live of the write, gives that event the
    same name and makes no query. *)
Theorem a_resolved_hostName_serves_the_next_trap
  (le le2 : LinkEvent) (w : World flapdb.Connector) (b : string)
  (first : SnmpPDU) (rest : list SnmpPDU) (now : Z) :
  let w1 := snd (FillHostName le w) in
  let w1' := set_repo (flapdb.later now (repo w1)) w1 in
  snmpSema w = false ->
  flapdb.tx (flapdb.db (repo w)) = None ->
  flapdb.faults (flapdb.db (repo w)) = [] ->
  snd (fst (flapdb.GetCachedHostname (hostKeyModel le) (repo w))) <> None ->
  device w sysNameOID (ipAddress le) (community le)
    = Responds {| Variables := first :: rest |} ->
  Value_ first = VBytes b ->
  ipAddress le2 = ipAddress le ->
  now < flapdb.clock (flapdb.db (repo w)) + 60 * flapdb.cacheHostnameMinutes (repo w) ->
  fst (FillHostName le w) = Done (set_hostName (Some b) le)
  /\ filter isSnmp (trace w1)
     = (filter isSnmp (trace w) ++ [SnmpGet sysNameOID (ipAddress le) (community le)])%list
  /\ fst (FillHostName le2 w1') = Done (set_hostName (Some b) le2)
  /\ filter isSnmp (trace (snd (FillHostName le2 w1'))) = filter isSnmp (trace w1).
Proof.
  intros w1 w1' Hfree Htx Hf Hmiss Hdev Hb Hip Hnow.
  pose proof (StoreMore.healthy_GetCachedHostname (hostKeyModel le) (repo w) Hf) as Hg.
  remember (flapdb.scanFirst _) as found eqn:Es in Hg.
  rewrite Hg in Hmiss. clear Es. destruct found as [v [e|]]; [|now destruct Hmiss].
  set (w0 := set_repo (repo w) (record (GetCachedHostnameCall (hostKeyModel le)) w)).
  assert (Hfree0 : snmpSema w0 = false) by exact Hfree.
  assert (Hdev0 : device w0 sysNameOID (ipAddress le) (community le)
                  = Responds {| Variables := first :: rest |}) by exact Hdev.
  pose proof (getSNMPString_value _ _ _ _ Hfree0 Hdev0 Hb) as Hv.
  destruct (getSNMPString_releases_gate sysNameOID (ipAddress le) (community le) w0 Hfree0)
    as (_ & Hgate & Hrepo0).
  pose proof (getSNMPString_one_query sysNameOID (ipAddress le) (community le) w0 Hfree0) as Hq.
  remember (snd (getSNMPString sysNameOID (ipAddress le) (community le) w0)) as w2 eqn:Ew2.
  assert (Hs : getSNMPString sysNameOID (ipAddress le) (community le) w0
               = (Done (Some b, None), w2)).
  { rewrite (surjective_pairing (getSNMPString _ _ _ w0)), Hv, Ew2. reflexivity. }
  assert (Hg' : repository.GetCachedHostname (hostKeyModel le) (repo w)
                = ((v, Some e), repo w)) by exact Hg.
  destruct (FillHostName_resolution_value le w Hg' Hs) as (Hfst & _).
  destruct (HandlerMore.FillHostName_resolution_world le w Hg' Hs) as (Hrepo & Hsema & Htrace).
  fold w1 in Hrepo, Hsema, Htrace.
  change (repo w0) with (repo w) in Hrepo0. rewrite Hrepo0 in Hrepo.
  match type of Hrepo with _ = snd (_ ?m _) => set (model := m) in * end.
  change (repo w1 = snd (flapdb.PutCachedHostname model (repo w))) in Hrepo.
  destruct (StoreMore.healthy_PutCachedHostname model (repo w) Hf Htx) as (Hput & Hf1).
  assert (Hhit : fst (flapdb.GetCachedHostname (hostKeyModel le2) (repo w1'))
                 = (Some b, None)).
  { change (repo w1') with (flapdb.later now (repo w1)). rewrite Hrepo.
    rewrite (StoreMore.PutCachedHostname_then_Get model (hostKeyModel le2) (repo w)
               (v := b) now); [ | exact Hip | reflexivity | exact Hput | now rewrite Hf1 ].
    apply Z.ltb_lt in Hnow. now rewrite Hnow. }
  assert (Hhit' : repository.GetCachedHostname (hostKeyModel le2) (repo w1')
                  = ((Some b, None),
                     snd (flapdb.GetCachedHostname (hostKeyModel le2) (repo w1')))).
  { change (repository.GetCachedHostname (hostKeyModel le2) (repo w1'))
      with (flapdb.GetCachedHostname (hostKeyModel le2) (repo w1')).
    now rewrite (surjective_pairing (flapdb.GetCachedHostname _ (repo w1'))), Hhit. }
  rewrite (FillHostName_cache_hit le2 w1' Hhit').
  repeat apply conj.
  - exact Hfst.
  - rewrite Htrace, Hq. unfold w0. simpl. rewrite filter_app. simpl.
    now rewrite app_nil_r.
  - reflexivity.
  - simpl. rewrite filter_app. simpl. now rewrite app_nil_r.
Qed.

(** X25.  The same for the interface alias, whose key is the sender and
    the interface index: the alias resolved for one trap serves the next
    trap of that interface without a query. *)
Theorem a_resolved_ifAlias_serves_the_next_trap
  (le le2 : LinkEvent) (w : World flapdb.Connector) (b : string)
  (first : SnmpPDU) (rest : list SnmpPDU) (now : Z) :
  let w1 := snd (FillIfAlias le w) in
  let w1' := set_repo (flapdb.later now (repo w1)) w1 in
  snmpSema w = false ->
  flapdb.tx (flapdb.db (repo w)) = None ->
  flapdb.faults (flapdb.db (repo w)) = [] ->
  snd (fst (flapdb.GetCachedIfAlias (ifKeyModel le) (repo w))) <> None ->
  device w (ifAliasOIDPrefix ++ strconv.Itoa (ifIndex le)) (ipAddress le) (community le)
    = Responds {| Variables := first :: rest |} ->
  Value_ first = VBytes b ->
  ipAddress le2 = ipAddress le ->
  ifIndex le2 = ifIndex le ->
  now < flapdb.clock (flapdb.db (repo w)) + 60 * flapdb.cacheIfAliasMinutes (repo w) ->
  fst (FillIfAlias le w) = Done (set_ifAlias (Some b) le)
  /\ filter isSnmp (trace w1)
     = (filter isSnmp (trace w)
        ++ [SnmpGet (ifAliasOIDPrefix ++ strconv.Itoa (ifIndex le)) (ipAddress le)
              (community le)])%list
  /\ fst (FillIfAlias le2 w1') = Done (set_ifAlias (Some b) le2)
  /\ filter isSnmp (trace (snd (FillIfAlias le2 w1'))) = filter isSnmp (trace w1).
Proof.
  intros w1 w1' Hfree Htx Hf Hmiss Hdev Hb Hip Hix Hnow.
  pose proof (StoreMore.healthy_GetCachedIfAlias (ifKeyModel le) (repo w) Hf) as Hg.
  remember (flapdb.scanFirst _) as found eqn:Es in Hg.
  rewrite Hg in Hmiss. clear Es. destruct found as [v [e|]]; [|now destruct Hmiss].
  set (oid := (ifAliasOIDPrefix ++ strconv.Itoa (ifIndex le))%string) in *.
  set (w0 := set_repo (repo w) (record (GetCachedIfAliasCall (ifKeyModel le)) w)).
  assert (Hfree0 : snmpSema w0 = false) by exact Hfree.
  assert (Hdev0 : device w0 oid (ipAddress le) (community le)
                  = Responds {| Variables := first :: rest |}) by exact Hdev.
  pose proof (getSNMPString_value _ _ _ _ Hfree0 Hdev0 Hb) as Hv.
  destruct (getSNMPString_releases_gate oid (ipAddress le) (community le) w0 Hfree0)
    as (_ & Hgate & Hrepo0).
  pose proof (getSNMPString_one_query oid (ipAddress le) (community le) w0 Hfree0) as Hq.
  remember (snd (getSNMPString oid (ipAddress le) (community le) w0)) as w2 eqn:Ew2.
  assert (Hs : getSNMPString oid (ipAddress le) (community le) w0
               = (Done (Some b, None), w2)).
  { rewrite (surjective_pairing (getSNMPString _ _ _ w0)), Hv, Ew2. reflexivity. }
  assert (Hg' : repository.GetCachedIfAlias (ifKeyModel le) (repo w)
                = ((v, Some e), repo w)) by exact Hg.
  destruct (FillIfAlias_resolution_value le w Hg' Hs) as (Hfst & _).
  destruct (HandlerMore.FillIfAlias_resolution_world le w Hg' Hs) as (Hrepo & Hsema & Htrace).
  fold w1 in Hrepo, Hsema, Htrace.
  change (repo w0) with (repo w) in Hrepo0. rewrite Hrepo0 in Hrepo.
  match type of Hrepo with _ = snd (_ ?m _) => set (model := m) in * end.
  change (repo w1 = snd (flapdb.PutCachedIfAlias model (repo w))) in Hrepo.
  destruct (StoreMore.healthy_PutCachedIfAlias model (repo w) Hf Htx) as (Hput & Hf1).
  assert (Hhit : fst (flapdb.GetCachedIfAlias (ifKeyModel le2) (repo w1'))
                 = (Some b, None)).
  { change (repo w1') with (flapdb.later now (repo w1)). rewrite Hrepo.
    rewrite (StoreMore.PutCachedIfAlias_then_Get model (ifKeyModel le2) (repo w)
               (v := b) now);
      [ | exact Hip | exact Hix | reflexivity | exact Hput | now rewrite Hf1 ].
    apply Z.ltb_lt in Hnow. now rewrite Hnow. }
  assert (Hhit' : repository.GetCachedIfAlias (ifKeyModel le2) (repo w1')
                  = ((Some b, None),
                     snd (flapdb.GetCachedIfAlias (ifKeyModel le2) (repo w1')))).
  { change (repository.GetCachedIfAlias (ifKeyModel le2) (repo w1'))
      with (flapdb.GetCachedIfAlias (ifKeyModel le2) (repo w1')).
    now rewrite (surjective_pairing (flapdb.GetCachedIfAlias _ (repo w1'))), Hhit. }
  rewrite (FillIfAlias_cache_hit le2 w1' Hhit').
  repeat apply conj.
  - exact Hfst.
  - rewrite Htrace, Hq. unfold w0. simpl. rewrite filter_app. simpl.
    now rewrite app_nil_r.
  - reflexivity.
  - simpl. rewrite filter_app. simpl. now rewrite app_nil_r.
Qed.

(** A trap of interface 3 of 10.0.0.1 against an empty cache, and the next
    one five minutes later. *)
Lemma a_resolved_hostName_serves_the_next_trap_witness :
  let w := scenarios.world (scenarios.connector scenarios.noTables []) scenarios.healthyDevice in
  let w1 := snd (FillHostName scenarios.interface3Event w) in
  let w1' := set_repo (flapdb.later 1300 (repo w1)) w1 in
  fst (FillHostName scenarios.interface3Event w1')
  = Done (set_hostName (Some "sw1.example.net") scenarios.interface3Event)
  /\ filter isSnmp (trace (snd (FillHostName scenarios.interface3Event w1')))
     = [SnmpGet ".1.3.6.1.2.1.1.5.0" "10.0.0.1" "public"].
Proof.
  intros w w1 w1'.
  assert (Hmiss : snd (fst (flapdb.GetCachedHostname
                              (hostKeyModel scenarios.interface3Event) (repo w))) <> None)
    by (simpl; discriminate).
  assert (Hnow : 1300 < flapdb.clock (flapdb.db (repo w))
                        + 60 * flapdb.cacheHostnameMinutes (repo w)) by (simpl; lia).
  destruct (@a_resolved_hostName_serves_the_next_trap
              scenarios.interface3Event scenarios.interface3Event w "sw1.example.net"
              (scenarios.bind ".1.3.6.1.2.1.1.5.0" (VBytes "sw1.example.net")) [] 1300
              eq_refl eq_refl eq_refl Hmiss eq_refl eq_refl eq_refl Hnow)
    as (_ & Hq & Hfst & Hno).
  split; [exact Hfst|]. fold w1 w1' in Hno. rewrite Hno. exact Hq.
Defined.

Lemma a_resolved_ifAlias_serves_the_next_trap_witness :
  let w := scenarios.world (scenarios.connector scenarios.noTables []) scenarios.healthyDevice in
  let w1 := snd (FillIfAlias scenarios.interface3Event w) in
  let w1' := set_repo (flapdb.later 1300 (repo w1)) w1 in
  fst (FillIfAlias scenarios.interface3Event w1')
  = Done (set_ifAlias (Some "uplink to core") scenarios.interface3Event)
  /\ filter isSnmp (trace (snd (FillIfAlias scenarios.interface3Event w1')))
     = [SnmpGet ".1.3.6.1.2.1.31.1.1.1.18.3" "10.0.0.1" "public"].
Proof.
  intros w w1 w1'.
  assert (Hmiss : snd (fst (flapdb.GetCachedIfAlias
                              (ifKeyModel scenarios.interface3Event) (repo w))) <> None)
    by (simpl; discriminate).
  assert (Hnow : 1300 < flapdb.clock (flapdb.db (repo w))
                        + 60 * flapdb.cacheIfAliasMinutes (repo w)) by (simpl; lia).
  destruct (@a_resolved_ifAlias_serves_the_next_trap
              scenarios.interface3Event scenarios.interface3Event w "uplink to core"
              (scenarios.bind ".1.3.6.1.2.1.31.1.1.1.18.3" (VBytes "uplink to core")) [] 1300
              eq_refl eq_refl eq_refl Hmiss eq_refl eq_refl eq_refl eq_refl Hnow)
    as (_ & Hq & Hfst & Hno).
  split; [exact Hfst|]. fold w1 w1' in Hno. rewrite Hno. exact Hq.
Defined.

End EndToEnd.

(** ** More on the eviction loop *)

Module CleanupMore.

Import dbcleanup.

Section WithRepository.
Context {R : Type} {repoImpl : repository.Connector R}.

Lemma RunDBCleanUp_timer (rest : list Wakeup) (r : R) :
  snd (RunDBCleanUp (timeAfter :: rest) r)
  = snd (RunDBCleanUp rest (snd (repository.CleanUp r))).
Proof.
  simpl. unfold sbind, sret.
  destruct (repository.CleanUp r) as [err r1]. simpl.
  now destruct (RunDBCleanUp rest r1).
Qed.

Lemma RunDBCleanUp_timer_log (rest : list Wakeup) (r : R) :
  fst (RunDBCleanUp (timeAfter :: rest) r)
  = match fst (repository.CleanUp r) with
    | Some msg => msg :: fst (RunDBCleanUp rest (snd (repository.CleanUp r)))
    | None => fst (RunDBCleanUp rest (snd (repository.CleanUp r)))
    end.
Proof.
  simpl. unfold sbind, sret.
  destruct (repository.CleanUp r) as [err r1]. simpl.
  now destruct (RunDBCleanUp rest r1).
Qed.

(** X21.  The eviction loop sweeps once per expiry of its timer until the
    context is cancelled, whether a sweep fails or not; at the
    cancellation it logs its last line and stops, and what would wake it
    afterwards is not looked at.  It logs at most one line per sweep. *)
Theorem RunDBCleanUp_sweeps_until_cancelled (n : nat) (rest : list Wakeup) (r : R) :
  snd (RunDBCleanUp (repeat timeAfter n ++ ctxDone :: rest) r)
    = Nat.iter n (fun x => snd (repository.CleanUp x)) r
  /\ snd (RunDBCleanUp (repeat timeAfter n) r)
    = Nat.iter n (fun x => snd (repository.CleanUp x)) r
  /\ last (fst (RunDBCleanUp (repeat timeAfter n ++ ctxDone :: rest) r)) ""
    = "closed due context"
  /\ (List.length (fst (RunDBCleanUp (repeat timeAfter n) r)) <= n)%nat.
Proof.
  revert r. induction n as [|n IH]; intro r.
  - simpl. repeat split. lia.
  - destruct (IH (snd (repository.CleanUp r))) as (H1 & H2 & H3 & H4).
    rewrite Nat.iter_succ_r.
    change (repeat timeAfter (S n)) with (timeAfter :: repeat timeAfter n).
    rewrite <- app_comm_cons, !RunDBCleanUp_timer, !RunDBCleanUp_timer_log.
    repeat split; try assumption.
    + destruct (fst (repository.CleanUp r)); [|assumption].
      destruct (fst (RunDBCleanUp (repeat timeAfter n ++ ctxDone :: rest)
                       (snd (repository.CleanUp r)))) as [|line lines];
        [discriminate H3 | exact H3].
    + destruct (fst (repository.CleanUp r)); simpl; lia.
Qed.

End WithRepository.

End CleanupMore.

(** ** More on the gate under interleaving *)

Module GateMore.

Import gosnmp linkevent goroutines GateFacts.

Section WithRepository.
Context {R : Type}.

Lemma move_crashed (m : Move R) (s : System R) :
  (crashed s = true -> snmpSema (world s) = false) ->
  crashed (move m s) = true -> snmpSema (world (move m s)) = false.
Proof.
  intro Inv. destruct m as [todo|i|c effect]; simpl.
  - destruct (crashed s) eqn:Ec; [auto | simpl; discriminate].
  - unfold advance. destruct (crashed s) eqn:Ec; [auto|].
    destruct (nth_error (pool s) i) as [[[|q todo]|q todo|q todo|r todo|]|];
      simpl; try (rewrite Ec; discriminate); try discriminate.
    + unfold Lock. destruct (snmpSema (world s)); simpl; [rewrite Ec|]; discriminate.
    + destruct (doSNMPRequest_returns (q_oid q) (q_ip q) (q_community q) (world s))
        as (r & Er & _).
      rewrite Er. simpl. discriminate.
    + destruct (deferred_readReply r (world s)) as (Ed & Hnb). rewrite Ed.
      destruct (fst (readReply r (world s))); simpl;
        [discriminate | reflexivity | now destruct Hnb].
  - destruct (crashed s) eqn:Ec; simpl; [auto|].
    destruct (isSnmp c); simpl; [rewrite Ec|]; discriminate.
Qed.

Lemma run_crashed (schedule : list (Move R)) (s : System R) :
  (crashed s = true -> snmpSema (world s) = false) ->
  crashed (run schedule s) = true -> snmpSema (world (run schedule s)) = false.
Proof.
  revert s. induction schedule as [|m schedule IH]; intros s Inv; [assumption|].
  apply IH. now apply move_crashed.
Qed.

(** X22.  The mutex is never leaked.  The goroutines take the steps of
    [getSNMPString], [Lock], [doSNMPRequest] and the rest under the
    deferred [Unlock], in any interleaving, with any answers of the
    devices, error answers and panics included.  When no goroutine is
    between its [Lock] and its [Unlock] the mutex is free; when it is held
    exactly one goroutine holds it; a process that a panic has stopped has
    left it free; and while the process runs and nobody holds the mutex, a
    goroutine waiting in [Lock] is inside [doSNMPRequest] after its next
    step. *)
Theorem the_mutex_is_never_leaked (w0 : World R) (schedule : list (Move R)) :
  snmpSema w0 = false ->
  let s := run schedule (boot w0) in
  (holders s = 0%nat -> snmpSema (world s) = false)
  /\ (snmpSema (world s) = true -> holders s = 1%nat)
  /\ (crashed s = true -> snmpSema (world s) = false)
  /\ (forall i q todo,
        crashed s = false -> holders s = 0%nat ->
        nth_error (pool s) i = Some (AtLock q todo) ->
        nth_error (pool (advance i s)) i = Some (InDoSNMPRequest q todo)
        /\ snmpSema (world (advance i s)) = true).
Proof.
  intros Hfree s.
  pose proof (run_gateInvariant schedule (boot_gateInvariant w0 Hfree)) as Inv.
  fold s in Inv. unfold gateInvariant in Inv.
  assert (H0 : holders s = 0%nat -> snmpSema (world s) = false).
  { intro H. rewrite H in Inv. destruct (snmpSema (world s)); [discriminate | reflexivity]. }
  repeat apply conj.
  - exact H0.
  - intro H. now rewrite H in Inv.
  - apply run_crashed. discriminate.
  - intros i q todo Hc Hh Ht. unfold advance. rewrite Hc, Ht.
    unfold Lock. rewrite (H0 Hh). simpl. split; [|reflexivity].
    now apply nth_error_update with (t := AtLock q todo).
Qed.

End WithRepository.

(** Two handlers ask 10.0.0.1 for the alias of interface 3.  The first is
    answered with nothing and panics; the mutex is free.  Before that, once
    the first is through, the second gets in. *)
Lemma the_mutex_is_never_leaked_witness :
  let w := scenarios.world (scenarios.connector scenarios.noTables [])
             scenarios.emptyAliasDevice in
  let name := {| q_oid := ".1.3.6.1.2.1.1.5.0"; q_ip := "10.0.0.1"; q_community := "public" |} in
  let alias :=
    {| q_oid := ".1.3.6.1.2.1.31.1.1.1.18.3"; q_ip := "10.0.0.1";
       q_community := "public" |} in
  let served :=
    [Spawn [name]; Spawn [name]; Advance 0; Advance 1; Advance 0; Advance 1;
     Advance 0; Advance 0] in
  let stopped := [Spawn [alias]; Advance 0; Advance 0; Advance 0; Advance 0] in
  nth_error (pool (advance 1 (run served (boot w)))) 1 = Some (InDoSNMPRequest name [])
  /\ crashed (run stopped (boot w)) = true
  /\ snmpSema (world (run stopped (boot w))) = false.
Proof.
  intros w name alias served stopped. split.
  - destruct (the_mutex_is_never_leaked w served eq_refl) as (_ & _ & _ & Hin).
    exact (proj1 (Hin 1%nat name [] eq_refl eq_refl eq_refl)).
  - destruct (the_mutex_is_never_leaked w stopped eq_refl) as (_ & _ & Hcrash & _).
    split; [reflexivity|]. apply Hcrash. reflexivity.
Defined.

End GateMore.
